(** * Data Quality Profiler & Anomaly Detection: a shallow embedding

    Embedding of [04_data_analysis_python.py]: the two synthetic datasets
    (financial incentive transactions, healthcare cases), the profiling
    module, the Z-score anomaly detection, the SLA breach analysis, the
    settlement gap analysis, the dashboard and the main sequence.

    Numbers are IEEE binary64 values (Rocq's primitive floats, the same
    format as Python's [float] and numpy's [float64]) and unbounded
    integers; dataframes are column oriented, as pandas has them; the
    side effects of the program (printing, the object store that holds the
    frames, the chart file) are threaded through a state-and-error monad. *)

From Stdlib Require Import ZArith Floats Ascii String DecimalString List Lia.
From Stdlib Require Uint63.
From stdpp Require Import base option list gmap strings sorting.

Open Scope Z_scope.

(** ** Numeric layer (numpy) *)

Module Np.

(** An integer as a [float64]: the nearest binary64 value, ties to even,
    as the conversion of an [int64] (or a Python [int]) is. *)
Definition float_of_Z (z : Z) : float :=
  SF2Prim (binary_normalize prec emax z 0 false).

Definition float_of_nat (n : nat) : float := float_of_Z (Z.of_nat n).

(** *** Sums: [numpy.add.reduce] on [float64]

    numpy adds a contiguous run of [float64] values pairwise: fewer than
    eight values are added from left to right; up to 128 values go
    through eight accumulators, one per position modulo 8, that are then
    added as a balanced tree, and the remaining [n mod 8] values are added
    one by one; a longer run is split near the middle, at a multiple of
    8, and the sums of its two halves are added.  (Whether the short
    loop starts from 0 or from -0 makes no difference below: the
    reduction itself starts from 0.) *)

Definition acc8 : Type :=
  float * float * float * float * float * float * float * float.

(** The loop over whole blocks of eight: the accumulators and the
    values that are left. *)
Fixpoint unrolled_blocks (r : acc8) (a : list float) : acc8 * list float :=
  match a with
  | a0 :: a1 :: a2 :: a3 :: a4 :: a5 :: a6 :: a7 :: rest =>
      let '(r0, r1, r2, r3, r4, r5, r6, r7) := r in
      unrolled_blocks (r0 + a0, r1 + a1, r2 + a2, r3 + a3,
                       r4 + a4, r5 + a5, r6 + a6, r7 + a7)%float rest
  | _ => (r, a)
  end.

Definition unrolled_sum (a : list float) : float :=
  match a with
  | a0 :: a1 :: a2 :: a3 :: a4 :: a5 :: a6 :: a7 :: rest =>
      let '((r0, r1, r2, r3, r4, r5, r6, r7), tail) :=
        unrolled_blocks (a0, a1, a2, a3, a4, a5, a6, a7) rest in
      fold_left PrimFloat.add tail
        (((r0 + r1) + (r2 + r3)) + ((r4 + r5) + (r6 + r7)))%float
  | _ => fold_left PrimFloat.add a 0%float
  end.

(** [depth] bounds the number of halvings; a run of [n] values needs
    fewer than [n]. *)
Fixpoint pairwise (depth : nat) (a : list float) : float :=
  let n := length a in
  if (n <=? 128)%nat then unrolled_sum a
  else
    match depth with
    | O => unrolled_sum a
    | S depth' =>
        let half := (n / 2)%nat in
        let n2 := (half - half mod 8)%nat in
        (pairwise depth' (firstn n2 a) + pairwise depth' (skipn n2 a))%float
    end.

Definition pairwise_sum (a : list float) : float := pairwise (length a) a.

(** The runs handed to the inner loop: all of a [float64] array at
    once; an array that is converted on the way ([int64] summed as
    [float64]) comes through a buffer of [bufsize] elements. *)
Fixpoint runs (fuel size : nat) (a : list float) : list (list float) :=
  match fuel, a with
  | _, [] => []
  | O, _ => [a]
  | S fuel', _ => firstn size a :: runs fuel' size (skipn size a)
  end.

Definition bufsize : nat := Z.to_nat 8192.

(** The reduction starts from the identity 0 and adds the pairwise sum
    of each run. *)
Definition add_reduce (rs : list (list float)) : float :=
  fold_left (fun acc r => (acc + pairwise_sum r)%float) rs 0%float.

(** [a.sum()] of a [float64] array. *)
Definition sum (a : list float) : float :=
  add_reduce (match a with [] => [] | _ => [a] end).

(** [a.sum(dtype=float64)] of an [int64] array, given converted. *)
Definition sum_buffered (a : list float) : float :=
  add_reduce (runs (length a) bufsize a).

Definition two52 : float := 4503599627370496%float.

(** [numpy.rint]: round to the nearest integer, ties to even.  Below
    2^52 in magnitude the rounding of [|x| + 2^52] does it; from 2^52 on
    every binary64 value is an integer already. *)
Definition rint (x : float) : float :=
  if (abs x <? two52)%float then
    let r := (abs x + two52 - two52)%float in
    if get_sign x then (- r)%float else r
  else x.

Fixpoint pow10 (d : nat) : float :=
  match d with
  | O => 1%float
  | S d' => (10 * pow10 d')%float
  end.

(** [numpy.round(x, d)] for [d >= 0]: scale, [rint], scale back. *)
Definition round (d : nat) (x : float) : float :=
  (rint (x * pow10 d) / pow10 d)%float.

(** IEEE comparison lifted to a proposition: [fle x y] is [x <= y]. *)
Definition fle (x y : float) : Prop := (x <=? y)%float = true.

End Np.

(** ** Cells, frames and the pandas operations the program uses *)

Inductive value :=
| VNone                      (* None / NaT *)
| VStr (s : string)
| VInt (z : Z)
| VFloat (f : float)         (* NaN is the missing float *)
| VDate (d : Z).             (* a day number *)

Definition isnull (v : value) : bool :=
  match v with
  | VNone => true
  | VFloat f => is_nan f
  | _ => false
  end.

(** [v == s] against a string literal, elementwise. *)
Definition value_is_str (s : string) (v : value) : bool :=
  match v with
  | VStr t => String.eqb t s
  | _ => false
  end.

Record DataFrame := mkDF {
  index : list value;                       (* row labels *)
  columns : list (string * list value)      (* in column order *)
}.

Inductive exn :=
| KeyError (k : string)
| KeyErrorNotInIndex (missing : list string)   (* "[...] not in index" *)
| KeyErrorNoneInColumns (asked : list string)  (* "None of [...] are in the [columns]" *)
| TypeError
| ValueError
| ZeroDivisionError.

Inductive result (A : Type) :=
| Ok (a : A)
| Raise (e : exn).
Arguments Ok {A} a.
Arguments Raise {A} e.

#[global] Instance result_ret : MRet result := fun A a => Ok a.
#[global] Instance result_bind : MBind result := fun A B f r =>
  match r with
  | Ok a => f a
  | Raise e => Raise e
  end.

Fixpoint mapR {A B} (f : A -> result B) (l : list A) : result (list B) :=
  match l with
  | [] => Ok []
  | x :: l' => y ← f x; ys ← mapR f l'; Ok (y :: ys)
  end.

Module Pd.

Definition len (df : DataFrame) : nat := length (index df).

(** A frame is well formed when its column names are distinct and every
    column has one cell per row label. *)
Definition wf (df : DataFrame) : Prop :=
  NoDup (map fst (columns df)) /\
  Forall (fun c => length (snd c) = len df) (columns df).

Fixpoint lookup_col (c : string) (cols : list (string * list value))
  : option (list value) :=
  match cols with
  | [] => None
  | (c', v) :: rest => if String.eqb c' c then Some v else lookup_col c rest
  end.

(** [df[c]] *)
Definition getitem (df : DataFrame) (c : string) : result (list value) :=
  match lookup_col c (columns df) with
  | Some v => Ok v
  | None => Raise (KeyError c)
  end.

Definition has_column (df : DataFrame) (c : string) : bool :=
  bool_decide (is_Some (lookup_col c (columns df))).

Fixpoint set_col (c : string) (v : list value)
  (cols : list (string * list value)) : list (string * list value) :=
  match cols with
  | [] => [(c, v)]
  | (c', v') :: rest =>
      if String.eqb c' c then (c', v) :: rest else (c', v') :: set_col c v rest
  end.

(** [df[c] = v]: replaces the column in place, or appends it. *)
Definition setitem (df : DataFrame) (c : string) (v : list value) : DataFrame :=
  mkDF (index df) (set_col c v (columns df)).

(** Boolean indexing: keep the positions where the mask is [true]. *)
Fixpoint select {A} (mask : list bool) (l : list A) : list A :=
  match mask, l with
  | b :: mask', x :: l' => if b then x :: select mask' l' else select mask' l'
  | _, _ => []
  end.

(** [df[mask]] *)
Definition mask_rows (mask : list bool) (df : DataFrame) : DataFrame :=
  mkDF (select mask (index df))
       (map (fun c => (fst c, select mask (snd c))) (columns df)).

(** [df.take(order)]: rows by position. *)
Definition take_rows (order : list nat) (df : DataFrame) : DataFrame :=
  mkDF (omap (fun i => index df !! i) order)
       (map (fun c => (fst c, omap (fun i => snd c !! i) order)) (columns df)).

(** Labels without repetition, each at its first place. *)
Fixpoint unique (l : list string) : list string :=
  match l with
  | [] => []
  | x :: l' => x :: List.filter (fun y => negb (String.eqb x y)) (unique l')
  end.

(** [df[[c1; ...; ck]]]: the columns asked for, in that order.  When
    some are not in the frame the [KeyError] lists all that are missing;
    when none is in the frame it lists all that were asked for. *)
Definition getitems (df : DataFrame) (cs : list string) : result DataFrame :=
  let missing := List.filter (fun c => negb (has_column df c)) cs in
  match missing with
  | [] =>
      Ok (mkDF (index df)
               (map (fun c => (c, default [] (lookup_col c (columns df)))) cs))
  | _ :: _ =>
      if (length missing =? length cs)%nat then Raise (KeyErrorNoneInColumns cs)
      else Raise (KeyErrorNotInIndex (unique missing))
  end.

(** [df.empty]: some axis has length 0. *)
Definition empty (df : DataFrame) : bool :=
  match index df, columns df with
  | [], _ | _, [] => true
  | _, _ => false
  end.

(** Numeric view of a cell: int64 and float64 cells, missing as NaN;
    arithmetic on a string or datetime cell is a [TypeError]. *)
Definition as_float (v : value) : result float :=
  match v with
  | VInt z => Ok (Np.float_of_Z z)
  | VFloat f => Ok f
  | VNone => Ok nan
  | _ => Raise TypeError
  end.

Definition to_numeric (col : list value) : result (list float) :=
  mapR as_float col.

(** [v > t] between numeric cells: integers compare exactly, a float on
    either side compares in binary64, a missing cell compares false.
    (Only numeric comparisons occur in the program; other cells are
    rejected.) *)
Definition value_gt (v t : value) : result bool :=
  match v, t with
  | VInt a, VInt b => Ok (b <? a)
  | (VStr _ | VDate _), _ | _, (VStr _ | VDate _) => Raise TypeError
  | VNone, _ | _, VNone => Ok false
  | _, _ => x ← as_float v; y ← as_float t; Ok (y <? x)%float
  end.

(** Reductions skip missing values ([skipna=True]): the missing cells
    are not counted, and in a sum each is a 0 at its place (pandas'
    [nanops]; the optional bottleneck accelerator is not modelled). *)
Definition dropna (xs : list float) : list float :=
  filter (fun x => is_nan x = false) xs.

Definition count (xs : list float) : nat := length (dropna xs).

Definition fillna0 (xs : list float) : list float :=
  map (fun x => if is_nan x then 0%float else x) xs.

(** [Series.mean()] of a [float64] column: [values.sum() / count]. *)
Definition mean (xs : list float) : float :=
  if (count xs =? 0)%nat then nan
  else (Np.sum (fillna0 xs) / Np.float_of_nat (count xs))%float.

(** [Series.mean()] of an [int64] column, [xs] being its cells as
    [float64]: [values.sum(dtype=float64) / count]; no cell is missing. *)
Definition mean_int64 (xs : list float) : float :=
  if (length xs =? 0)%nat then nan
  else (Np.sum_buffered xs / Np.float_of_nat (length xs))%float.

(** A column whose cells are all integers has dtype [int64]. *)
Definition is_int64 (col : list value) : bool :=
  forallb (fun v => match v with VInt _ => true | _ => false end) col.

(** [df[c].mean()], [xs] being the numeric view of the column [col]. *)
Definition series_mean (col : list value) (xs : list float) : float :=
  if is_int64 col then mean_int64 xs else mean xs.

(** [Series.std()]: the sample standard deviation ([ddof=1]) by the
    two-pass algorithm, on the cells as [float64]; NaN when fewer than
    two cells are present. *)
Definition std (xs : list float) : float :=
  let n := count xs in
  if (n <=? 1)%nat then nan
  else
    let avg := (Np.sum (fillna0 xs) / Np.float_of_nat n)%float in
    let sqr :=
      map (fun x => if is_nan x then 0%float else ((avg - x) * (avg - x))%float) xs in
    PrimFloat.sqrt (Np.sum sqr / (Np.float_of_nat n - 1))%float.

(** Number of [true] cells of a boolean column: [mask.sum()]. *)
Definition count_true (mask : list bool) : nat :=
  length (filter (fun b => b = true) mask).

(** [mask.mean()] of a boolean column: the sum of 0/1 cells is exact in
    binary64, so the mean is one division. *)
Definition mean_bool (mask : list bool) : float :=
  (Np.float_of_nat (count_true mask) / Np.float_of_nat (length mask))%float.

End Pd.

(** ** Effects: the object store, standard output and the file system *)

Definition loc := nat.

(** One printed line is the sequence of the pieces of its f-string:
    literal text, a formatted value (with its format specification), a
    rendered table or series, or the wall clock. *)
Inductive piece :=
| Txt (s : string)
| Fmt (spec : string) (v : value)
| Frame (show_index : bool) (d : DataFrame)
| Ser (labels : list value) (vals : list value)
| Now (fmt : string).

Definition line := list piece.

(** The empty format specification of [{x}]. *)
Definition plain : string := EmptyString.

(** A matplotlib figure: the drawing calls made on it, in order.  The
    first component of an axes call is the subplot position. *)
Inductive artist :=
| Suptitle (s : string)
| Hist (ax : nat * nat) (data : list value) (bins : nat)
| Axvline (ax : nat * nat) (x : float)
| Pie (ax : nat * nat) (sizes : list value) (labels : list value)
| Bar (ax : nat * nat) (xs : list value) (heights : list value)
| Text (ax : nat * nat) (pos : nat) (y : float) (s : line)
| Decor (ax : nat * nat) (what : string) (arg : string).

Definition figure := list artist.

Record world := mkWorld {
  heap : gmap loc DataFrame;       (* the frames, by reference *)
  stdout : list line;
  files : gmap string figure;      (* the working directory *)
  shown : list figure              (* windows opened by plt.show() *)
}.

Definition M (A : Type) : Type := world -> result A * world.

#[global] Instance M_ret : MRet M := fun A a w => (Ok a, w).
#[global] Instance M_bind : MBind M := fun A B f m w =>
  match m w with
  | (Ok a, w') => f a w'
  | (Raise e, w') => (Raise e, w')
  end.

Module Eff.

Definition lift {A} (r : result A) : M A := fun w => (r, w).

Definition print (l : line) : M unit := fun w =>
  (Ok tt, mkWorld (heap w) (stdout w ++ [l]) (files w) (shown w)).

(** Reading through a reference. *)
Definition deref (l : loc) : M DataFrame := fun w =>
  match heap w !! l with
  | Some d => (Ok d, w)
  | None => (Raise (KeyError "dangling reference"), w)
  end.

Definition alloc (d : DataFrame) : M loc := fun w =>
  let l := fresh (dom (heap w)) in
  (Ok l, mkWorld (<[l := d]> (heap w)) (stdout w) (files w) (shown w)).

(** [df.copy()]: a new object with the same contents. *)
Definition copy (l : loc) : M loc :=
  d ← deref l; alloc d.

(** [df[c] = v] on the object that [l] refers to. *)
Definition setitem (l : loc) (c : string) (v : list value) : M unit := fun w =>
  match heap w !! l with
  | Some d =>
      (Ok tt, mkWorld (<[l := Pd.setitem d c v]> (heap w)) (stdout w) (files w) (shown w))
  | None => (Raise (KeyError "dangling reference"), w)
  end.

Definition savefig (path : string) (fig : figure) : M unit := fun w =>
  (Ok tt, mkWorld (heap w) (stdout w) (<[path := fig]> (files w)) (shown w)).

Definition show (fig : figure) : M unit := fun w =>
  (Ok tt, mkWorld (heap w) (stdout w) (files w) (shown w ++ [fig])).

Definition when (b : bool) (m : M unit) : M unit :=
  if b then m else mret tt.

End Eff.

Definition nl : string := String (ascii_of_nat 10) EmptyString.

Fixpoint str_repeat (s : string) (k : nat) : string :=
  match k with
  | O => EmptyString
  | S k' => (s ++ str_repeat s k')%string
  end.

Definition rule : string := str_repeat "=" 60.

(** ** Sections 1 and 2 of the script: the two synthetic datasets

    The random draws are parameters: [np.random.choice(a, k)] fills each
    cell with the element of [a] at a drawn position, [randint(0, b)]
    gives a drawn number below [b], [normal] gives a drawn float.  A date
    is the day number of [datetime.today()] minus the drawn offset. *)

Module Data.

Definition n : nat := 500.
Definition m : nat := 400.

(** [str(i)] and [s.zfill(w)] *)
Definition str_of_nat (i : nat) : string :=
  DecimalString.NilZero.string_of_uint (Nat.to_uint i).

Definition zfill (w : nat) (s : string) : string :=
  (str_repeat "0" (w - String.length s) ++ s)%string.

Definition tagged (prefix : string) (w : nat) (i : nat) : string :=
  (prefix ++ zfill w (str_of_nat i))%string.

Definition choice (a : list string) (size : nat) (draw : nat -> nat) : list string :=
  map (fun i => nth (draw i mod length a)%nat a EmptyString) (seq 0 size).

Definition randint_days (bound : nat) (size : nat) (draw : nat -> nat) : list Z :=
  map (fun i => Z.of_nat (draw i mod bound)%nat) (seq 0 size).

(** Item width of the numpy string array made from [a]. *)
Definition item_width (a : list string) : nat :=
  fold_right Nat.max 0%nat (map String.length a).

(** [arr[i] = None] on a numpy array of fixed-width strings: numpy
    stores [str(None)], cut to the item width; no missing value enters
    the array. *)
Definition set_none (a : list string) (i : nat) (arr : list string) : list string :=
  <[i := substring 0 (item_width a) "None"]> arr.

Record fin_draws := {
  fd_partner : nat -> nat;
  fd_program : nat -> nat;
  fd_tdays : nat -> nat;
  fd_sdays : nat -> nat;
  fd_amount : nat -> float;
  fd_status : nat -> nat
}.

Record hc_draws := {
  hd_priority : nat -> nat;
  hd_created : nat -> nat;
  hd_hours : nat -> Z;          (* int(np.random.normal(..)) *)
  hd_customer : nat -> nat;
  hd_case_type : nat -> nat;
  hd_team : nat -> nat;
  hd_status : nat -> nat
}.

Definition partner_ids : list string := map (tagged "P" 3) (seq 1 50).
Definition program_codes : list string := ["PROG_A"; "PROG_B"; "PROG_C"; "PROG_D"]%string.
Definition fin_statuses : list string := ["SETTLED"; "PENDING"; "ERROR"; "CANCELLED"]%string.

(** [pd.DataFrame(dict)]: a default integer index; columns of unequal
    length are rejected. *)
Definition from_dict (cols : list (string * list value)) : result DataFrame :=
  let k := match cols with [] => 0%nat | c :: _ => length (snd c) end in
  if forallb (fun c => (length (snd c) =? k)%nat) cols
  then Ok (mkDF (map (fun i => VInt (Z.of_nat i)) (seq 0 k)) cols)
  else Raise ValueError.

Definition sub_days (a b : value) : value :=
  match a, b with
  | VDate x, VDate y => VInt (x - y)
  | _, _ => VNone
  end.

Section Financial.
Variable today : Z.
Variable dr : fin_draws.

Definition fin_transaction_id : list string :=
  let ids := map (tagged "TXN" 5) (seq 1 n) in
  <[50%nat := nth 49 ids EmptyString]> ids.

Definition fin_partner_id : list string :=
  set_none partner_ids 10 (choice partner_ids n (fd_partner dr)).

Definition fin_amount : list float :=
  <[26%nat := (-3000)%float]>
    (<[25%nat := 95000%float]> (map (fun i => Np.round 2 (fd_amount dr i)) (seq 0 n))).

Definition fin_data (ids : list string) : list (string * list value) :=
  [ ("transaction_id", map VStr ids);
    ("partner_id", map VStr fin_partner_id);
    ("program_code", map VStr (choice program_codes n (fd_program dr)));
    ("transaction_date", map (fun d => VDate (today - d)) (randint_days 90 n (fd_tdays dr)));
    ("settlement_date", map (fun d => VDate (today - d)) (randint_days 85 n (fd_sdays dr)));
    ("incentive_amount", map VFloat fin_amount);
    ("status", map VStr (choice fin_statuses n (fd_status dr))) ]%string.

(** The frame built from a given column of transaction ids, with the
    derived [days_to_settle] column. *)
Definition df_fin_of (ids : list string) : result DataFrame :=
  df ← from_dict (fin_data ids);
  s ← Pd.getitem df "settlement_date";
  t ← Pd.getitem df "transaction_date";
  Ok (Pd.setitem df "days_to_settle" (zip_with sub_days s t)).

Definition df_fin : result DataFrame := df_fin_of fin_transaction_id.
End Financial.

Definition priorities_choices : list string := ["P1"; "P2"; "P3"]%string.
Definition sla_map : gmap string Z :=
  <["P1" := 4]> (<["P2" := 24]> (<["P3" := 72]> ∅)).

(** [Series.map(dict)]: keys outside the dict give a missing value, and
    then the whole column is float64. *)
Definition series_map (d : gmap string Z) (col : list value) : list value :=
  let r := map (fun v => match v with VStr s => d !! s | _ => None end) col in
  if forallb (fun o => bool_decide (is_Some o)) r
  then map (fun o => match o with Some z => VInt z | None => VNone end) r
  else map (fun o => match o with Some z => VFloat (Np.float_of_Z z) | None => VFloat nan end) r.

Definition series_gt (a b : list value) : result (list bool) :=
  mapR (fun p => Pd.value_gt (fst p) (snd p)) (zip a b).

(** [np.where(cond, x, y)] with two string constants. *)
Definition np_where (cond : list bool) (x y : string) : list value :=
  map (fun b : bool => VStr (if b then x else y)) cond.

Definition team_choices : list string := ["Team_Alpha"; "Team_Beta"; "Team_Gamma"]%string.
Definition case_types : list string :=
  ["Equipment Fault"; "Software Issue"; "Billing"; "Service Request"]%string.
Definition hc_statuses : list string := ["Resolved"; "Open"; "Escalated"]%string.
Definition customer_ids : list string := map (tagged "CUST" 4) (seq 1 100).

Section Healthcare.
Variable today : Z.
Variable dr : hc_draws.

Definition priorities : list string := choice priorities_choices m (hd_priority dr).

Definition resolution_hours : list Z :=
  map (fun i => Z.max 1 (hd_hours dr i)) (seq 0 m).

Definition hc_data : list (string * list value) :=
  [ ("case_id", map VStr (map (tagged "CASE" 5) (seq 1 m)));
    ("customer_id", map VStr (set_none customer_ids 5 (choice customer_ids m (hd_customer dr))));
    ("case_type", map VStr (choice case_types m (hd_case_type dr)));
    ("priority", map VStr priorities);
    ("assigned_team", map VStr (set_none team_choices 8 (choice team_choices m (hd_team dr))));
    ("created_date", map (fun d => VDate (today - d)) (randint_days 90 m (hd_created dr)));
    ("resolution_hours", map VInt resolution_hours);
    ("status", map VStr (choice hc_statuses m (hd_status dr))) ]%string.

Definition df_hc : result DataFrame :=
  df ← from_dict hc_data;
  p ← Pd.getitem df "priority";
  let df1 := Pd.setitem df "sla_threshold" (series_map sla_map p) in
  h ← Pd.getitem df1 "resolution_hours";
  t ← Pd.getitem df1 "sla_threshold";
  cond ← series_gt h t;
  Ok (Pd.setitem df1 "sla_status" (np_where cond "SLA_BREACH" "WITHIN_SLA")).
End Healthcare.

End Data.

(** ** Grouping, counting and sorting (pandas) *)

Module Grp.

(** Equality of cells as pandas hashes them for counting. *)
Definition value_eqb (a b : value) : bool :=
  match a, b with
  | VNone, VNone => true
  | VStr s, VStr t => String.eqb s t
  | VInt x, VInt y => (x =? y)%Z
  | VFloat x, VFloat y => (x =? y)%float
  | VDate x, VDate y => (x =? y)%Z
  | _, _ => false
  end.

Fixpoint distinct (l : list value) : list value :=
  match l with
  | [] => []
  | x :: l' => x :: filter (fun y => value_eqb x y = false) (distinct l')
  end.

Definition occurrences (k : value) (l : list value) : nat :=
  length (filter (fun y => value_eqb k y = true) l).

Definition by_count_desc (a b : value * nat) : Prop := (snd b <= snd a)%nat.

#[global] Instance by_count_desc_dec a b : Decision (by_count_desc a b).
Proof. unfold by_count_desc. apply _. Defined.

Definition str_le (a b : string) : Prop := String.leb a b = true.

#[global] Instance str_le_dec a b : Decision (str_le a b).
Proof. unfold str_le. apply _. Defined.

(** Sorting as [sort_values] does on the short lists of this program:
    stable, so cells with equal keys keep their order.  [R x y] says that
    [x] may stand before [y]; [insert_sorted] puts a cell before the
    first one it may stand before. *)
Fixpoint insert_sorted {A} (R : A -> A -> Prop) `{!forall x y, Decision (R x y)}
  (x : A) (l : list A) : list A :=
  match l with
  | [] => [x]
  | y :: l' => if decide (R x y) then x :: l else y :: insert_sorted R x l'
  end.

Fixpoint stable_sort {A} (R : A -> A -> Prop) `{!forall x y, Decision (R x y)}
  (l : list A) : list A :=
  match l with
  | [] => []
  | x :: l' => insert_sorted R x (stable_sort R l')
  end.

(** [Series.value_counts()]: the distinct non-missing cells with their
    counts, the largest count first; values with the same count stay in
    the order of their first appearance. *)
Definition value_counts (col : list value) : list value * list value :=
  let vals := filter (fun v => isnull v = false) col in
  let counted := map (fun k => (k, occurrences k vals)) (distinct vals) in
  let sorted := stable_sort by_count_desc counted in
  (map fst sorted, map (fun c => VInt (Z.of_nat (snd c))) sorted).

(** Group keys: the distinct non-missing cells of the key column, in
    ascending order.  The program groups by string columns only. *)
Fixpoint string_keys (col : list value) : result (list string) :=
  match col with
  | [] => Ok []
  | v :: col' =>
      ks ← string_keys col';
      match v with
      | VStr s => Ok (s :: ks)
      | VNone => Ok ks
      | VFloat f => if is_nan f then Ok ks else Raise TypeError
      | _ => Raise TypeError
      end
  end.

Definition group_keys (col : list value) : result (list string) :=
  ks ← string_keys col;
  Ok (merge_sort str_le (remove_dups ks)).

(** [df.groupby(c)]: one sub-frame per key, rows in their order. *)
Definition groupby (df : DataFrame) (c : string) : result (list (string * DataFrame)) :=
  col ← Pd.getitem df c;
  ks ← group_keys col;
  Ok (map (fun k => (k, Pd.mask_rows (map (value_is_str k) col) df)) ks).

Fixpoint assoc (k : string) (r : list (string * value)) : value :=
  match r with
  | [] => VNone
  | (k', v) :: r' => if String.eqb k' k then v else assoc k r'
  end.

(** [df.groupby(c).apply(f)] where [f] returns a [pd.Series]: a frame
    indexed by the group keys, one column per entry of the series.  With
    no group at all [f] is not called and the result is an empty frame
    with the columns of [df] other than [c]. *)
Definition apply_series (df : DataFrame) (c : string)
  (groups : list (string * DataFrame))
  (f : DataFrame -> result (list (string * value))) : result DataFrame :=
  rows ← mapR (fun g => f (snd g)) groups;
  match rows with
  | [] =>
      Ok (mkDF [] (map (fun col => (fst col, []))
                       (List.filter (fun col => negb (String.eqb (fst col) c))
                                    (columns df))))
  | r :: _ =>
      Ok (mkDF (map (fun g => VStr (fst g)) groups)
               (map (fun name => (name, map (assoc name) rows)) (map fst r)))
  end.

(** [df.groupby(c)[col].mean()], per group: the cython group mean adds
    the present cells with Kahan's compensated summation (a compensation
    that is NaN, after an infinite cell, is reset to 0). *)
Definition kahan_step (s : float * float * nat) (x : float) : float * float * nat :=
  let '(sumx, comp, nobs) := s in
  if is_nan x then s
  else
    let y := (x - comp)%float in
    let t := (sumx + y)%float in
    let comp' := (t - sumx - y)%float in
    (t, if is_nan comp' then 0%float else comp', S nobs).

Definition group_mean (xs : list float) : float :=
  let '(sumx, _, nobs) := fold_left kahan_step xs (0%float, 0%float, 0%nat) in
  if (nobs =? 0)%nat then nan else (sumx / Np.float_of_nat nobs)%float.

(** [.apply(f)] where [f] returns a scalar: a series over the keys. *)
Definition apply_scalar (groups : list (string * DataFrame))
  (f : DataFrame -> result value) : result (list (string * value)) :=
  mapR (fun g => v ← f (snd g); Ok (fst g, v)) groups.

(** [series.reindex(labels)]: missing labels give NaN. *)
Definition reindex (s : list (string * value)) (labels : list string) : list (string * value) :=
  map (fun k => (k, match assoc k s with VNone => VFloat nan | v => v end)) labels.

(** Descending order of sort keys with missing values last:
    [descb x y] says that [x] may stand before [y]. *)
Definition descb (x y : float) : bool :=
  is_nan y || (negb (is_nan x) && (y <=? x)%float).

Definition desc (x y : float) : Prop := descb x y = true.

#[global] Instance desc_dec x y : Decision (desc x y).
Proof. unfold desc. apply _. Defined.

Definition by_key_desc (a b : nat * float) : Prop := desc (snd a) (snd b).

#[global] Instance by_key_desc_dec a b : Decision (by_key_desc a b).
Proof. unfold by_key_desc. apply _. Defined.

(** Positions paired with keys, in sorted order; rows with equal keys
    keep their order, and so do the rows without a key, at the end. *)
Definition argsort_desc (keys : list float) : list (nat * float) :=
  stable_sort by_key_desc (imap pair keys).

(** [df.sort_values(c, ascending=False)] *)
Definition sort_values_desc (df : DataFrame) (c : string) : result DataFrame :=
  col ← Pd.getitem df c;
  keys ← Pd.to_numeric col;
  Ok (Pd.take_rows (map fst (argsort_desc keys)) df).

End Grp.

(** ** The five modules of the script

    A module takes its frames by reference, as Python passes them, and
    runs in [M].  Where the Python function only prints a table it has
    computed, the model also returns that table, so that statements can
    name it; the Python functions return [None]. *)

Open Scope string_scope.
Open Scope list_scope.

(** *** Module 1: data profiling *)

(** Lines 98 to 101: one row per column that has a missing cell. *)
Definition null_report (df : DataFrame) : DataFrame :=
  let isna := map (fun c => (fst c, map isnull (snd c))) (columns df) in
  let null_summary := map (fun c => Pd.count_true (snd c)) isna in
  let null_pct := map (fun c => Np.round 2 (Pd.mean_bool (snd c) * 100)%float) isna in
  let report :=
    mkDF (map (fun c => VStr (fst c)) isna)
         [ ("null_count", map (fun k => VInt (Z.of_nat k)) null_summary);
           ("null_pct", map VFloat null_pct) ] in
  Pd.mask_rows (map (fun k => (0 <? k)%nat) null_summary) report.

Definition no_nulls_line : line := [Txt "  No null values detected."].

Definition profile_dataframe (df : loc) (domain_name : string) : M DataFrame :=
  d ← Eff.deref df;
  Eff.print [Txt (nl +:+ rule)];;
  Eff.print [Txt "DATA QUALITY PROFILE — "; Txt domain_name];;
  Eff.print [Txt "Run Date : "; Now "%Y-%m-%d %H:%M"];;
  Eff.print [Txt "Records  : "; Fmt "," (VInt (Z.of_nat (Pd.len d)))];;
  Eff.print [Txt rule];;
  let report := null_report d in
  Eff.print [Txt (nl +:+ "── NULL / MISSING VALUES ──")];;
  Eff.print (if Pd.empty report then no_nulls_line else [Frame true report]);;
  Eff.print [Txt (nl +:+ "── RECORD COUNT BY CATEGORY ──")];;
  let cat_col := if Pd.has_column d "program_code" then "program_code" else "case_type" in
  c ← Eff.lift (Pd.getitem d cat_col);
  let vc := Grp.value_counts c in
  Eff.print [Ser (fst vc) (snd vc)];;
  mret report.

(** *** Module 2: anomaly detection (Z-score on amounts) *)

Definition z_score (mean std x : float) : float :=
  Np.round 2 ((x - mean) / std)%float.

(** [|z| > threshold] *)
Definition exceeds (threshold z : float) : bool := (threshold <? abs z)%float.

Definition display_columns (column : string) : list string :=
  ["transaction_id"; "partner_id"; "program_code"; column; "z_score"; "status"].

Definition found_line (k : nat) : line :=
  [Txt "  Anomalies found: "; Fmt plain (VInt (Z.of_nat k)); Txt nl].

Definition detect_amount_anomalies (df : loc) (column : string) (threshold : float)
  : M DataFrame :=
  Eff.print [Txt (nl +:+ rule)];;
  Eff.print [Txt "ANOMALY DETECTION — "; Txt column; Txt " (|Z-score| > ";
             Fmt plain (VFloat threshold); Txt ")"];;
  Eff.print [Txt rule];;
  d ← Eff.deref df;
  col ← Eff.lift (Pd.getitem d column);
  xs ← Eff.lift (Pd.to_numeric col);
  let mean := Pd.series_mean col xs in
  let std := Pd.std xs in
  df' ← Eff.copy df;                            (* df = df.copy() *)
  d' ← Eff.deref df';
  col' ← Eff.lift (Pd.getitem d' column);
  xs' ← Eff.lift (Pd.to_numeric col');
  Eff.setitem df' "z_score" (map (fun x => VFloat (z_score mean std x)) xs');;
  d'' ← Eff.deref df';
  z ← Eff.lift (Pd.getitem d'' "z_score");
  zs ← Eff.lift (Pd.to_numeric z);
  let anomalies := Pd.mask_rows (map (exceeds threshold) zs) d'' in
  Eff.print [Txt "  Mean: "; Fmt ",.2f" (VFloat mean);
             Txt "  |  Std Dev: "; Fmt ",.2f" (VFloat std)];;
  Eff.print (found_line (Pd.len anomalies));;
  Eff.when (negb (Pd.empty anomalies))
    (t ← Eff.lift (Pd.getitems anomalies (display_columns column));
     Eff.print [Frame false t]);;
  mret anomalies.

(** *** Module 3: SLA breach analysis *)

Definition is_breach (v : value) : bool := value_is_str "SLA_BREACH" v.

(** [(x["sla_status"] == "SLA_BREACH").sum()] *)
Definition breach_count (status : list value) : nat :=
  Pd.count_true (map is_breach status).

(** [round(100.0 * breaches / total, 1)] on numpy scalars. *)
Definition breach_pct (breaches total : nat) : float :=
  Np.round 1 (100 * Np.float_of_nat breaches / Np.float_of_nat total)%float.

(** Python's [a / b] on integers. *)
Definition py_div (a b : nat) : result float :=
  if (b =? 0)%nat then Raise ZeroDivisionError
  else Ok (Np.float_of_nat a / Np.float_of_nat b)%float.

Definition team_stats (x : DataFrame) : result (list (string * value)) :=
  st ← Pd.getitem x "sla_status";
  let b := breach_count st in
  Ok [ ("total", VFloat (Np.float_of_nat (Pd.len x)));
       ("breaches", VFloat (Np.float_of_nat b));
       ("breach_pct", VFloat (breach_pct b (Pd.len x))) ].

Definition priority_stats (x : DataFrame) : result (list (string * value)) :=
  st ← Pd.getitem x "sla_status";
  let b := breach_count st in
  h ← Pd.getitem x "resolution_hours";
  hs ← Pd.to_numeric h;
  Ok [ ("total", VFloat (Np.float_of_nat (Pd.len x)));
       ("breaches", VFloat (Np.float_of_nat b));
       ("breach_pct", VFloat (breach_pct b (Pd.len x)));
       ("avg_res_hours", VFloat (Np.round 1 (Pd.series_mean h hs))) ].

Definition analyze_sla_breaches (df : loc) : M (DataFrame * DataFrame) :=
  Eff.print [Txt (nl +:+ rule)];;
  Eff.print [Txt "SLA BREACH ANALYSIS — Healthcare Cases"];;
  Eff.print [Txt rule];;
  d ← Eff.deref df;
  let total := Pd.len d in
  st ← Eff.lift (Pd.getitem d "sla_status");
  let breaches := Pd.mask_rows (map is_breach st) d in
  Eff.print [Txt "  Total Cases  : "; Fmt "," (VInt (Z.of_nat total))];;
  q ← Eff.lift (py_div (Pd.len breaches) total);
  Eff.print [Txt "  SLA Breaches : "; Fmt "," (VInt (Z.of_nat (Pd.len breaches)));
             Txt " ("; Fmt ".1f" (VFloat (q * 100)%float); Txt "%)"];;
  Eff.print [Txt (nl +:+ "  Breach Rate by Priority:")];;
  gp ← Eff.lift (Grp.groupby d "priority");
  priority_summary ← Eff.lift (Grp.apply_series d "priority" gp priority_stats);
  Eff.print [Frame true priority_summary];;
  Eff.print [Txt (nl +:+ "  Breach Rate by Team:")];;
  gt ← Eff.lift (Grp.groupby d "assigned_team");
  stats ← Eff.lift (Grp.apply_series d "assigned_team" gt team_stats);
  team_summary ← Eff.lift (Grp.sort_values_desc stats "breach_pct");
  Eff.print [Frame true team_summary];;
  mret (priority_summary, team_summary).

(** *** Module 4: settlement gap analysis *)

Definition analyze_settlement_gaps (df : loc) (threshold_days : Z) : M DataFrame :=
  Eff.print [Txt (nl +:+ rule)];;
  Eff.print [Txt "SETTLEMENT GAP ANALYSIS (threshold: ";
             Fmt plain (VInt threshold_days); Txt " days)"];;
  Eff.print [Txt rule];;
  d ← Eff.deref df;
  gap ← Eff.lift (Pd.getitem d "days_to_settle");
  mask ← Eff.lift (mapR (fun v => Pd.value_gt v (VInt threshold_days)) gap);
  let breaches := Pd.mask_rows mask d in
  Eff.print [Txt "  Total Records     : "; Fmt "," (VInt (Z.of_nat (Pd.len d)))];;
  q ← Eff.lift (py_div (Pd.len breaches) (Pd.len d));
  Eff.print [Txt "  Gap Breaches      : "; Fmt "," (VInt (Z.of_nat (Pd.len breaches)));
             Txt " ("; Fmt ".1f" (VFloat (q * 100)%float); Txt "%)"];;
  xs ← Eff.lift (Pd.to_numeric gap);
  Eff.print [Txt "  Avg Gap (all)     : "; Fmt ".1f" (VFloat (Pd.series_mean gap xs)); Txt " days"];;
  Eff.when (negb (Pd.empty breaches))
    (gb ← Eff.lift (Pd.getitem breaches "days_to_settle");
     ys ← Eff.lift (Pd.to_numeric gb);
     Eff.print [Txt "  Avg Gap (breaches): "; Fmt ".1f" (VFloat (Pd.series_mean gb ys)); Txt " days"]);;
  mret breaches.

(** *** Module 5: the four-panel dashboard *)

Definition chart_file : string := "production_support_dashboard.png".

Definition breach_rate (x : DataFrame) : result value :=
  st ← Pd.getitem x "sla_status";
  Ok (VFloat (breach_pct (breach_count st) (Pd.len x))).

Definition avg_hours (x : DataFrame) : result value :=
  h ← Pd.getitem x "resolution_hours";
  hs ← Pd.to_numeric h;
  Ok (VFloat (Np.round 1 (Grp.group_mean hs))).

Definition bar_labels (ax : nat * nat) (dy : float) (unit : string)
  (vals : list value) : result (list artist) :=
  mapR (fun p => y ← Pd.as_float (snd p);
                 Ok (Text ax (fst p) (y + dy)%float [Fmt plain (snd p); Txt unit]))
       (imap pair vals).

Definition dashboard_figure (fin hc : DataFrame) : result figure :=
  (* Panel 1: incentive amount distribution *)
  amt ← Pd.getitem fin "incentive_amount";
  xs ← Pd.to_numeric amt;
  let p1 := [ Hist (0, 0)%nat amt 40; Axvline (0, 0)%nat (Pd.series_mean amt xs);
              Decor (0, 0)%nat "title" "Financial — Incentive Amount Distribution";
              Decor (0, 0)%nat "xlabel" "Incentive Amount ($)";
              Decor (0, 0)%nat "ylabel" "Frequency";
              Decor (0, 0)%nat "legend" EmptyString ] in
  (* Panel 2: transaction status breakdown *)
  st ← Pd.getitem fin "status";
  let status_counts := Grp.value_counts st in
  let p2 := [ Pie (0, 1)%nat (snd status_counts) (fst status_counts);
              Decor (0, 1)%nat "title" "Financial — Transaction Status Mix" ] in
  (* Panel 3: SLA breach rate by priority *)
  gp ← Grp.groupby hc "priority";
  rates ← Grp.apply_scalar gp breach_rate;
  let sla_summary := Grp.reindex rates ["P1"; "P2"; "P3"] in
  labels3 ← bar_labels (1, 0)%nat 1 "%" (map snd sla_summary);
  let p3 := ([ Bar (1, 0)%nat (map (fun p => VStr (fst p)) sla_summary) (map snd sla_summary);
              Decor (1, 0)%nat "title" "Healthcare — SLA Breach Rate by Priority (%)";
              Decor (1, 0)%nat "xlabel" "Priority";
              Decor (1, 0)%nat "ylabel" "Breach Rate (%)";
              Decor (1, 0)%nat "ylim" "0, 100" ] ++ labels3)%list in
  (* Panel 4: average resolution hours by team; labels sit 0.3 above *)
  gt ← Grp.groupby hc "assigned_team";
  team_avg ← Grp.apply_scalar gt avg_hours;
  labels4 ← bar_labels (1, 1)%nat 0x1.3333333333333p-2 "h" (map snd team_avg);
  let p4 := ([ Bar (1, 1)%nat (map (fun p => VStr (fst p)) team_avg) (map snd team_avg);
              Decor (1, 1)%nat "title" "Healthcare — Avg Resolution Hours by Team";
              Decor (1, 1)%nat "xlabel" "Team";
              Decor (1, 1)%nat "ylabel" "Hours" ] ++ labels4)%list in
  Ok (Suptitle "Production Support Dashboard — Financial & Healthcare"
        :: (p1 ++ p2 ++ p3 ++ p4)%list).

Definition generate_dashboard (df_fin df_hc : loc) : M unit :=
  fin ← Eff.deref df_fin;
  hc ← Eff.deref df_hc;
  fig ← Eff.lift (dashboard_figure fin hc);
  Eff.savefig chart_file fig;;
  Eff.print [Txt (nl +:+ "  Chart saved: production_support_dashboard.png")];;
  Eff.show fig.

(** *** Main: run all modules *)

Definition complete_line : line := [Txt "REPORT COMPLETE"].

Definition main (df_fin df_hc : loc) : M unit :=
  (* Financial domain *)
  profile_dataframe df_fin "Financial Services — Incentive Transactions";;
  detect_amount_anomalies df_fin "incentive_amount" 3;;
  analyze_settlement_gaps df_fin 5;;
  (* Healthcare domain *)
  profile_dataframe df_hc "Healthcare — Customer Cases";;
  analyze_sla_breaches df_hc;;
  (* Combined visual dashboard *)
  generate_dashboard df_fin df_hc;;
  Eff.print [Txt (nl +:+ rule)];;
  Eff.print complete_line;;
  Eff.print [Txt rule].

(** The script from its first line: build both frames, then [main]. *)
Definition script (today : Z) (fd : Data.fin_draws) (hd : Data.hc_draws) : M unit :=
  fin ← Eff.lift (Data.df_fin today fd);
  df_fin ← Eff.alloc fin;
  hc ← Eff.lift (Data.df_hc today hd);
  df_hc ← Eff.alloc hc;
  main df_fin df_hc.

Definition world0 : world := mkWorld ∅ [] ∅ [].

(** * Properties *)

(** ** Lists, masks and columns *)

Section ListFacts.
Context {A B : Type}.

Lemma mapR_Forall2 (f : A -> result B) (l : list A) (ys : list B) :
  mapR f l = Ok ys <-> Forall2 (fun x y => f x = Ok y) l ys.
Proof.
  revert ys. induction l as [|x l IH]; intros ys; simpl.
  - split.
    + intros [= <-]. constructor.
    + intros H. inversion H. reflexivity.
  - split.
    + destruct (f x) as [y|e] eqn:Hx; simpl; [|discriminate].
      destruct (mapR f l) as [ys'|e] eqn:Hl; simpl; [|discriminate].
      intros [= <-]. constructor; [assumption|]. apply IH. reflexivity.
    + intros H. inversion H as [|? y ? ys' Hx Hl]; subst.
      rewrite Hx. simpl. apply IH in Hl. rewrite Hl. reflexivity.
Qed.

Lemma mapR_length (f : A -> result B) (l : list A) (ys : list B) :
  mapR f l = Ok ys -> length ys = length l.
Proof.
  intros H. apply mapR_Forall2 in H. symmetry. eapply Forall2_length, H.
Qed.

Lemma mapR_total (f : A -> result B) (g : A -> B) (l : list A) :
  (forall x, In x l -> f x = Ok (g x)) -> mapR f l = Ok (map g l).
Proof.
  induction l as [|x l IH]; intros H; simpl; [reflexivity|].
  rewrite (H x) by (left; reflexivity). simpl.
  rewrite IH by (intros y Hy; apply H; right; exact Hy). reflexivity.
Qed.

Lemma select_length (mask : list bool) (l : list A) :
  length mask = length l ->
  length (Pd.select mask l) = Pd.count_true mask.
Proof.
  unfold Pd.count_true. revert l.
  induction mask as [|b mask IH]; intros [|x l] Hl; simpl in *; try discriminate; auto.
  injection Hl as Hl. destruct b; simpl.
  - f_equal. apply IH, Hl.
  - apply IH, Hl.
Qed.

Lemma select_map (f : A -> B) (mask : list bool) (l : list A) :
  Pd.select mask (map f l) = map f (Pd.select mask l).
Proof.
  revert l. induction mask as [|b mask IH]; intros [|x l]; simpl; auto.
  destruct b; simpl; rewrite IH; reflexivity.
Qed.

Lemma select_filter (p : A -> bool) (l : list A) :
  Pd.select (map p l) l = List.filter p l.
Proof.
  induction l as [|x l IH]; simpl; [reflexivity|].
  destruct (p x); rewrite IH; reflexivity.
Qed.

Lemma select_nil_iff (mask : list bool) (l : list A) :
  length mask = length l ->
  Pd.select mask l = [] <-> Forall (fun b => b = false) mask.
Proof.
  revert l. induction mask as [|b mask IH]; intros [|x l] Hl; simpl in *; try discriminate.
  - split; auto.
  - injection Hl as Hl. destruct b.
    + split; [discriminate|]. intros H. inversion H. discriminate.
    + rewrite IH by exact Hl. split.
      * intros H. constructor; auto.
      * intros H. inversion H. assumption.
Qed.

End ListFacts.

Lemma count_true_map {A} (p : A -> bool) (l : list A) :
  Pd.count_true (map p l) = length (List.filter p l).
Proof.
  unfold Pd.count_true. induction l as [|x l IH]; simpl; [reflexivity|].
  destruct (p x); simpl.
  - f_equal. exact IH.
  - exact IH.
Qed.

Lemma count_true_le (mask : list bool) : (Pd.count_true mask <= length mask)%nat.
Proof. unfold Pd.count_true. apply length_filter. Qed.

Lemma lookup_set_col_eq c v cols :
  Pd.lookup_col c (Pd.set_col c v cols) = Some v.
Proof.
  induction cols as [|[c' v'] cols IH]; simpl.
  - rewrite String.eqb_refl. reflexivity.
  - destruct (String.eqb c' c) eqn:E; simpl; rewrite E; [reflexivity|exact IH].
Qed.

Lemma lookup_set_col_ne c c' v cols :
  c <> c' -> Pd.lookup_col c' (Pd.set_col c v cols) = Pd.lookup_col c' cols.
Proof.
  intros Hne. induction cols as [|[c0 v0] cols IH]; simpl.
  - destruct (String.eqb c c') eqn:E; [|reflexivity].
    apply String.eqb_eq in E. contradiction.
  - destruct (String.eqb c0 c) eqn:E; simpl.
    + apply String.eqb_eq in E. subst c0.
      destruct (String.eqb c c') eqn:E'; [|reflexivity].
      apply String.eqb_eq in E'. contradiction.
    + rewrite IH. reflexivity.
Qed.

Lemma getitem_setitem_eq d c v : Pd.getitem (Pd.setitem d c v) c = Ok v.
Proof. unfold Pd.getitem, Pd.setitem. simpl. rewrite lookup_set_col_eq. reflexivity. Qed.

Lemma getitem_setitem_ne d c c' v :
  c <> c' -> Pd.getitem (Pd.setitem d c v) c' = Pd.getitem d c'.
Proof.
  intros H. unfold Pd.getitem, Pd.setitem. simpl.
  rewrite lookup_set_col_ne by exact H. reflexivity.
Qed.

Lemma to_numeric_floats (zs : list float) : Pd.to_numeric (map VFloat zs) = Ok zs.
Proof.
  unfold Pd.to_numeric. induction zs as [|z zs IH]; simpl; [reflexivity|].
  rewrite IH. reflexivity.
Qed.

Lemma lookup_col_In c cols v :
  Pd.lookup_col c cols = Some v -> In (c, v) cols.
Proof.
  induction cols as [|[c' v'] cols IH]; simpl; [discriminate|].
  destruct (String.eqb c' c) eqn:E.
  - apply String.eqb_eq in E. intros [= ->]. left. subst. reflexivity.
  - intros H. right. apply IH, H.
Qed.

Lemma wf_getitem_length d c col :
  Pd.wf d -> Pd.getitem d c = Ok col -> length col = Pd.len d.
Proof.
  intros [_ Hlen] H. unfold Pd.getitem in H.
  destruct (Pd.lookup_col c (columns d)) as [v|] eqn:E; [|discriminate].
  injection H as ->. apply lookup_col_In in E.
  rewrite Forall_forall in Hlen. rewrite <- list_elem_of_In in E.
  apply (Hlen _ E).
Qed.

(** ** Running monadic code *)

Lemma run_bind {A B} (m : M A) (f : A -> M B) (w : world) :
  (m ≫= f) w =
  match m w with
  | (Ok a, w') => f a w'
  | (Raise e, w') => (Raise e, w')
  end.
Proof. reflexivity. Qed.

Lemma run_lift_ok {A B} (r : result A) (a : A) (f : A -> M B) (w : world) :
  r = Ok a -> (Eff.lift r ≫= f) w = f a w.
Proof. intros ->. reflexivity. Qed.

Lemma run_lift_raise {A B} (r : result A) (e : exn) (f : A -> M B) (w : world) :
  r = Raise e -> (Eff.lift r ≫= f) w = (Raise e, w).
Proof. intros ->. reflexivity. Qed.

Lemma run_deref {B} (l : loc) (d : DataFrame) (f : DataFrame -> M B) (w : world) :
  heap w !! l = Some d -> (Eff.deref l ≫= f) w = f d w.
Proof. intros H. rewrite run_bind. unfold Eff.deref. rewrite H. reflexivity. Qed.

Lemma run_print {B} (ln : line) (k : M B) (w : world) :
  (Eff.print ln ;; k) w =
  k (mkWorld (heap w) (stdout w ++ [ln]) (files w) (shown w)).
Proof. reflexivity. Qed.

Lemma fresh_loc_ne (h : gmap loc DataFrame) (l : loc) (d : DataFrame) :
  h !! l = Some d -> l <> fresh (dom h).
Proof.
  intros H E. apply (is_fresh (dom h)). rewrite <- E.
  apply elem_of_dom. eexists. exact H.
Qed.

(** Relations between the world before and after a computation that
    are kept by sequencing. *)
Definition keeps {A} (R : world -> world -> Prop) (m : M A) : Prop :=
  forall w, R w (snd (m w)).

Section Keeps.
Context (R : world -> world -> Prop) `{!Reflexive R} `{!Transitive R}.

Lemma keeps_bind {A B} (m : M A) (f : A -> M B) :
  keeps R m -> (forall a, keeps R (f a)) -> keeps R (m ≫= f).
Proof.
  intros Hm Hf w. rewrite run_bind. specialize (Hm w).
  destruct (m w) as [[a|e] w']; simpl in *; [|exact Hm].
  etransitivity; [exact Hm|apply Hf].
Qed.

Lemma keeps_ret {A} (a : A) : keeps R (mret a).
Proof. intros w. reflexivity. Qed.

Lemma keeps_lift {A} (r : result A) : keeps R (Eff.lift r).
Proof. intros w. reflexivity. Qed.

Lemma keeps_deref (l : loc) : keeps R (Eff.deref l).
Proof. intros w. unfold Eff.deref. destruct (heap w !! l); reflexivity. Qed.

Lemma keeps_when (b : bool) (m : M unit) : keeps R m -> keeps R (Eff.when b m).
Proof. intros H. destruct b; [exact H|apply keeps_ret]. Qed.

End Keeps.

(** The working directory is untouched. *)
Definition same_files (w w' : world) : Prop := files w' = files w.

#[global] Instance same_files_refl : Reflexive same_files.
Proof. intros w. reflexivity. Qed.

#[global] Instance same_files_trans : Transitive same_files.
Proof. intros a b c H1 H2. unfold same_files in *. congruence. Qed.

Lemma same_files_print ln : keeps same_files (Eff.print ln).
Proof. intros w. reflexivity. Qed.

Lemma same_files_alloc d : keeps same_files (Eff.alloc d).
Proof. intros w. reflexivity. Qed.

Lemma same_files_setitem l c v : keeps same_files (Eff.setitem l c v).
Proof. intros w. unfold Eff.setitem. destruct (heap w !! l); reflexivity. Qed.

Lemma same_files_show fig : keeps same_files (Eff.show fig).
Proof. intros w. reflexivity. Qed.

Create HintDb frame.
#[global] Hint Resolve same_files_print same_files_alloc same_files_setitem
  same_files_show : frame.

Ltac frame_steps :=
  repeat first
    [ apply keeps_bind; [ typeclasses eauto | | intros ]
    | apply keeps_when; [ typeclasses eauto | ]
    | apply keeps_ret; typeclasses eauto
    | apply keeps_lift; typeclasses eauto
    | apply keeps_deref; typeclasses eauto
    | solve [ auto with frame ]
    | progress cbv zeta ].

Lemma run_deref_none {B} (l : loc) (f : DataFrame -> M B) (w : world) :
  heap w !! l = None ->
  (Eff.deref l ≫= f) w = (Raise (KeyError "dangling reference"), w).
Proof. intros H. rewrite run_bind. unfold Eff.deref. rewrite H. reflexivity. Qed.

Lemma run_ret {A} (a : A) (w : world) : (mret a : M A) w = (Ok a, w).
Proof. reflexivity. Qed.

Lemma run_print_last (ln : line) (w : world) :
  Eff.print ln w = (Ok tt, mkWorld (heap w) (stdout w ++ [ln]) (files w) (shown w)).
Proof. reflexivity. Qed.

Lemma run_lift_last {A} (r : result A) (w : world) : Eff.lift r w = (r, w).
Proof. reflexivity. Qed.

Ltac run :=
  repeat (first [ rewrite run_print | rewrite run_print_last | rewrite run_ret
                | rewrite run_lift_last | rewrite run_bind ];
          cbv beta iota).

(** Run the leading prints, keeping the world in constructor form. *)
Ltac prints := repeat (rewrite run_print; cbn [heap stdout files shown]).

(** From here on the primitive effects are run by the lemmas above. *)
#[global] Opaque Eff.print Eff.lift Eff.deref.

(** ** Module 2: what a call of [detect_amount_anomalies] does *)

Definition anomaly_header (column : string) (threshold : float) : list line :=
  [ [Txt (nl +:+ rule)];
    [Txt "ANOMALY DETECTION — "; Txt column; Txt " (|Z-score| > ";
     Fmt plain (VFloat threshold); Txt ")"];
    [Txt rule] ].

Lemma detect_amount_anomalies_run w df d column threshold col xs :
  heap w !! df = Some d ->
  Pd.getitem d column = Ok col ->
  Pd.to_numeric col = Ok xs ->
  let mean := Pd.series_mean col xs in
  let std := Pd.std xs in
  let zs := map (z_score mean std) xs in
  let d2 := Pd.setitem d "z_score" (map VFloat zs) in
  let an := Pd.mask_rows (map (exceeds threshold) zs) d2 in
  let h := <[fresh (dom (heap w)) := d2]> (heap w) in
  let out := stdout w ++ anomaly_header column threshold ++
               [ [Txt "  Mean: "; Fmt ",.2f" (VFloat mean);
                  Txt "  |  Std Dev: "; Fmt ",.2f" (VFloat std)];
                 found_line (Pd.len an) ] in
  detect_amount_anomalies df column threshold w =
    if Pd.empty an then (Ok an, mkWorld h out (files w) (shown w))
    else match Pd.getitems an (display_columns column) with
         | Ok t => (Ok an, mkWorld h (out ++ [[Frame false t]]) (files w) (shown w))
         | Raise e => (Raise e, mkWorld h out (files w) (shown w))
         end.
Proof.
  intros Hd Hcol Hxs mean std zs d2 an h out.
  destruct w as [hp so fs sh]. cbn [heap stdout files shown] in *.
  unfold detect_amount_anomalies.
  prints.
  rewrite (run_deref _ d) by exact Hd.
  rewrite (run_lift_ok _ col) by exact Hcol.
  rewrite (run_lift_ok _ xs) by exact Hxs.
  cbv zeta. unfold Eff.copy.
  rewrite run_bind. rewrite (run_deref _ d) by exact Hd.
  unfold Eff.alloc at 1. cbn [heap stdout files shown].
  rewrite (run_deref _ d) by (cbn [heap]; apply lookup_insert_eq).
  rewrite (run_lift_ok _ col) by exact Hcol.
  rewrite (run_lift_ok _ xs) by exact Hxs.
  replace (map (fun x => VFloat (z_score (Pd.series_mean col xs) (Pd.std xs) x)) xs)
    with (map VFloat zs) by (unfold zs; rewrite List.map_map; reflexivity).
  rewrite run_bind. unfold Eff.setitem at 1. cbn [heap stdout files shown].
  rewrite lookup_insert_eq. rewrite insert_insert_eq. fold d2.
  rewrite (run_deref _ d2) by (cbn [heap]; apply lookup_insert_eq).
  rewrite (run_lift_ok _ (map VFloat zs)) by apply getitem_setitem_eq.
  rewrite (run_lift_ok _ zs) by apply to_numeric_floats.
  prints. cbn [heap stdout files shown].
  fold an. rewrite run_bind.
  subst out h. unfold anomaly_header.
  destruct (Pd.empty an); cbn [negb Eff.when].
  - run. cbn [heap stdout files shown]. rewrite <- !app_assoc. reflexivity.
  - destruct (Pd.getitems an (display_columns column)); run;
      cbn [heap stdout files shown]; rewrite <- !app_assoc; reflexivity.
Qed.

Lemma select_elem_of {A} (mask : list bool) (l : list A) (i : nat) (a : A) (b : bool) :
  NoDup l -> l !! i = Some a -> mask !! i = Some b ->
  (a ∈ Pd.select mask l <-> b = true).
Proof.
  revert l i. induction mask as [|b0 mask IH]; intros [|x l] i Hnd Ha Hb;
    try (destruct i; discriminate).
  apply NoDup_cons in Hnd as [Hx Hnd].
  destruct i as [|i]; simpl in *.
  - injection Ha as ->. injection Hb as ->. destruct b.
    + split; [reflexivity|]. intros _. apply list_elem_of_here.
    + split; [|discriminate]. intros Hin. exfalso. apply Hx.
      clear -Hin. revert l Hin. induction mask as [|c mask IH]; intros [|y l] Hin;
        simpl in Hin; try (inversion Hin; fail).
      destruct c.
      * apply elem_of_cons in Hin as [->|Hin]; [left|right; apply IH, Hin].
      * right. apply IH, Hin.
  - assert (Hne : a <> x).
    { intros ->. apply Hx. eapply list_elem_of_lookup_2, Ha. }
    rewrite <- (IH l i Hnd Ha Hb). destruct b0.
    + rewrite elem_of_cons. split; [intros [?|?]; [contradiction|assumption]|auto].
    + reflexivity.
Qed.

Lemma set_col_nonempty c v cols : Pd.set_col c v cols <> [].
Proof.
  destruct cols as [|[c0 v0] cols]; simpl; [discriminate|].
  destruct (String.eqb c0 c); discriminate.
Qed.

(** The two lines that follow the header: the statistics and the count. *)
Definition anomaly_report (mean std : float) (k : nat) : list line :=
  [ [Txt "  Mean: "; Fmt ",.2f" (VFloat mean); Txt "  |  Std Dev: "; Fmt ",.2f" (VFloat std)];
    found_line k ].


(** C9: the frame passed in is the same object with the same contents
    after the call, whatever the call does: the [z_score] column goes to
    the copy. *)
Theorem detect_amount_anomalies_keeps_input
  (w : world) (df : loc) (column : string) (threshold : float) :
  heap (snd (detect_amount_anomalies df column threshold w)) !! df = heap w !! df.
Proof.
  destruct (heap w !! df) as [d|] eqn:Hd.
  - destruct (Pd.getitem d column) as [col|e] eqn:Hcol.
    + destruct (Pd.to_numeric col) as [xs|e] eqn:Hxs.
      * rewrite (detect_amount_anomalies_run w df d column threshold col xs Hd Hcol Hxs).
        cbv zeta.
        assert (Hne : fresh (dom (heap w)) <> df).
        { intros E. symmetry in E. revert E. eapply fresh_loc_ne, Hd. }
        repeat match goal with
               | |- context [if ?b then _ else _] => destruct b
               | |- context [match ?r with Ok _ => _ | Raise _ => _ end] => destruct r
               end; simpl; rewrite lookup_insert_ne by exact Hne; exact Hd.
      * unfold detect_amount_anomalies. prints.
        rewrite (run_deref _ d) by exact Hd.
        rewrite (run_lift_ok _ col) by exact Hcol.
        rewrite (run_lift_raise _ e) by exact Hxs. exact Hd.
    + unfold detect_amount_anomalies. prints.
      rewrite (run_deref _ d) by exact Hd.
      rewrite (run_lift_raise _ e) by exact Hcol. exact Hd.
  - unfold detect_amount_anomalies. prints.
    rewrite run_deref_none by exact Hd. exact Hd.
Qed.

(** ** No module but the dashboard touches the working directory *)

Lemma profile_dataframe_same_files df name :
  keeps same_files (profile_dataframe df name).
Proof. unfold profile_dataframe. frame_steps. Qed.

Lemma detect_amount_anomalies_same_files df column threshold :
  keeps same_files (detect_amount_anomalies df column threshold).
Proof. unfold detect_amount_anomalies, Eff.copy. frame_steps. Qed.

Lemma analyze_settlement_gaps_same_files df days :
  keeps same_files (analyze_settlement_gaps df days).
Proof. unfold analyze_settlement_gaps. frame_steps. Qed.

Lemma analyze_sla_breaches_same_files df :
  keeps same_files (analyze_sla_breaches df).
Proof. unfold analyze_sla_breaches. frame_steps. Qed.

(** Only the chart file may differ. *)
Definition chart_only (w w' : world) : Prop :=
  forall path, path <> chart_file -> files w' !! path = files w !! path.

#[global] Instance chart_only_refl : Reflexive chart_only.
Proof. intros w path _. reflexivity. Qed.

#[global] Instance chart_only_trans : Transitive chart_only.
Proof. intros a b c H1 H2 path Hp. rewrite (H2 path Hp). apply H1, Hp. Qed.

Lemma keeps_weaken {A} (R R' : world -> world -> Prop) (m : M A) :
  (forall w w', R w w' -> R' w w') -> keeps R m -> keeps R' m.
Proof. intros HR Hm w. apply HR, Hm. Qed.

Lemma same_files_chart_only w w' : same_files w w' -> chart_only w w'.
Proof. intros H path _. rewrite H. reflexivity. Qed.

Lemma generate_dashboard_files df_fin df_hc w :
  match generate_dashboard df_fin df_hc w with
  | (Ok _, w') => exists fig, files w' = <[chart_file := fig]> (files w)
  | (Raise _, w') => files w' = files w
  end.
Proof.
  unfold generate_dashboard.
  destruct (heap w !! df_fin) as [fin|] eqn:Hfin;
    [rewrite (run_deref _ fin) by exact Hfin
    |rewrite run_deref_none by exact Hfin; reflexivity].
  destruct (heap w !! df_hc) as [hc|] eqn:Hhc;
    [rewrite (run_deref _ hc) by exact Hhc
    |rewrite run_deref_none by exact Hhc; reflexivity].
  destruct (dashboard_figure fin hc) as [fig|e].
  - rewrite (run_lift_ok _ fig) by reflexivity. simpl. exists fig. reflexivity.
  - rewrite (run_lift_raise _ e) by reflexivity. reflexivity.
Qed.

Lemma generate_dashboard_chart_only df_fin df_hc :
  keeps chart_only (generate_dashboard df_fin df_hc).
Proof.
  intros w. pose proof (generate_dashboard_files df_fin df_hc w) as H.
  destruct (generate_dashboard df_fin df_hc w) as [[u|e] w']; simpl.
  - destruct H as [fig H]. intros path Hp. rewrite H.
    apply lookup_insert_ne. congruence.
  - apply same_files_chart_only, H.
Qed.

Ltac chart_leaf :=
  lazymatch goal with
  | |- keeps _ (generate_dashboard _ _) => apply generate_dashboard_chart_only
  | |- keeps _ ?m =>
      eapply keeps_weaken; [apply same_files_chart_only|];
      lazymatch m with
      | profile_dataframe _ _ => apply profile_dataframe_same_files
      | detect_amount_anomalies _ _ _ => apply detect_amount_anomalies_same_files
      | analyze_settlement_gaps _ _ => apply analyze_settlement_gaps_same_files
      | analyze_sla_breaches _ => apply analyze_sla_breaches_same_files
      | Eff.print _ => apply same_files_print
      end
  end.

Lemma main_chart_only df_fin df_hc : keeps chart_only (main df_fin df_hc).
Proof.
  unfold main.
  do 8 (apply keeps_bind; [typeclasses eauto | chart_leaf | intros ]).
  chart_leaf.
Qed.

(** Concrete draws, used to run the script. *)
Module Sample.

Definition fd : Data.fin_draws :=
  {| Data.fd_partner := fun i => i;
     Data.fd_program := fun i => i;
     Data.fd_tdays := fun i => (7 * i)%nat;
     Data.fd_sdays := fun i => (3 * i)%nat;
     Data.fd_amount := fun i => (5000 + Np.float_of_nat i)%float;
     Data.fd_status := fun i => i |}.

Definition hd : Data.hc_draws :=
  {| Data.hd_priority := fun i => i;
     Data.hd_created := fun i => i;
     Data.hd_hours := fun i => Z.of_nat (i mod 100) - 3;
     Data.hd_customer := fun i => i;
     Data.hd_case_type := fun i => i;
     Data.hd_team := fun i => i;
     Data.hd_status := fun i => i |}.

Definition today : Z := 20000.

End Sample.

(** C7, as stated, fails: a run of the script leaves the chart file in
    the working directory, which was empty before. *)
Lemma script_writes_chart_file :
  files world0 !! chart_file = None /\
  is_Some (files (snd (script Sample.today Sample.fd Sample.hd world0)) !! chart_file).
Proof.
  split; [reflexivity|]. vm_compute. eexists. reflexivity.
Qed.

(** C7, amended: the four analysis modules never touch the working
    directory; [generate_dashboard] writes the one file
    [production_support_dashboard.png] when it returns normally and
    nothing when it raises; so [main] leaves every other path as it was. *)
Theorem only_the_dashboard_writes_a_file :
  (forall df name w, files (snd (profile_dataframe df name w)) = files w) /\
  (forall df column threshold w,
      files (snd (detect_amount_anomalies df column threshold w)) = files w) /\
  (forall df days w, files (snd (analyze_settlement_gaps df days w)) = files w) /\
  (forall df w, files (snd (analyze_sla_breaches df w)) = files w) /\
  (forall df_fin df_hc w,
      match generate_dashboard df_fin df_hc w with
      | (Ok _, w') => exists fig, files w' = <[chart_file := fig]> (files w)
      | (Raise _, w') => files w' = files w
      end) /\
  (forall df_fin df_hc w path,
      files (snd (main df_fin df_hc w)) !! path = files w !! path \/ path = chart_file).
Proof.
  repeat split.
  - intros. apply profile_dataframe_same_files.
  - intros. apply detect_amount_anomalies_same_files.
  - intros. apply analyze_settlement_gaps_same_files.
  - intros. apply analyze_sla_breaches_same_files.
  - apply generate_dashboard_files.
  - intros df_fin df_hc w path.
    destruct (decide (path = chart_file)) as [->|Hne]; [right; reflexivity|left].
    apply (main_chart_only df_fin df_hc w path Hne).
Qed.

(** ** Module 1: the null report *)

(** Number of missing cells of a column. *)
Definition null_count (c : string * list value) : nat :=
  length (List.filter isnull (snd c)).

(** [100 * fraction of missing cells], to 2 decimals, as computed. *)
Definition null_pct (c : string * list value) : float :=
  Np.round 2 (Np.float_of_nat (null_count c) / Np.float_of_nat (length (snd c)) * 100)%float.

Definition has_null (c : string * list value) : bool := (0 <? null_count c)%nat.

Lemma select_map_filter {A B} (p : A -> bool) (f : A -> B) (l : list A) :
  Pd.select (map p l) (map f l) = map f (List.filter p l).
Proof. rewrite select_map, select_filter. reflexivity. Qed.

Lemma null_report_rows (d : DataFrame) :
  null_report d =
  mkDF (map (fun c => VStr (fst c)) (List.filter has_null (columns d)))
       [ ("null_count",
          map (fun c => VInt (Z.of_nat (null_count c))) (List.filter has_null (columns d)));
         ("null_pct", map (fun c => VFloat (null_pct c)) (List.filter has_null (columns d))) ].
Proof.
  unfold null_report, Pd.mask_rows. cbn [index columns map fst snd].
  rewrite !List.map_map. cbn [fst snd].
  assert (Hc : forall c : string * list value,
             Pd.count_true (map isnull (snd c)) = null_count c).
  { intros c. apply count_true_map. }
  assert (Hmask : map (fun c : string * list value =>
                         (0 <? Pd.count_true (map isnull (snd c)))%nat) (columns d)
                  = map has_null (columns d)).
  { apply map_ext. intros c. unfold has_null. rewrite Hc. reflexivity. }
  rewrite Hmask, !select_map_filter.
  f_equal. f_equal; [|f_equal]; f_equal; apply map_ext; intros c.
  - rewrite Hc. reflexivity.
  - unfold null_pct, Pd.mean_bool. rewrite Hc, length_map. reflexivity.
Qed.

Lemma null_count_zero (c : string * list value) :
  null_count c = 0%nat <-> forall x, In x (snd c) -> isnull x = false.
Proof.
  unfold null_count. destruct c as [name v]. simpl.
  induction v as [|x v IH]; simpl.
  - split; [intros _ y []|reflexivity].
  - destruct (isnull x) eqn:E; simpl.
    + split; [discriminate|]. intros H. specialize (H x (or_introl eq_refl)). congruence.
    + rewrite IH. split.
      * intros H y [<-|Hy]; [exact E|apply H, Hy].
      * intros H y Hy. apply H. right. exact Hy.
Qed.

Lemma null_report_empty (d : DataFrame) :
  Pd.empty (null_report d) = true <->
  forall c, In c (columns d) -> forall x, In x (snd c) -> isnull x = false.
Proof.
  rewrite null_report_rows. unfold Pd.empty. cbn [index columns].
  split.
  - intros H c Hc. apply null_count_zero.
    destruct (List.filter has_null (columns d)) as [|c0 l] eqn:E; [|discriminate].
    destruct (has_null c) eqn:Hn.
    + assert (Hin : In c (List.filter has_null (columns d))).
      { apply List.filter_In. split; assumption. }
      rewrite E in Hin. destruct Hin.
    + unfold has_null in Hn. apply Nat.ltb_ge in Hn. lia.
  - intros H.
    destruct (List.filter has_null (columns d)) as [|c0 l] eqn:E; [reflexivity|].
    assert (Hin : In c0 (List.filter has_null (columns d))).
    { rewrite E. left. reflexivity. }
    apply List.filter_In in Hin as [Hin Hn].
    apply (null_count_zero c0) in H; [|exact Hin].
    unfold has_null in Hn. rewrite H in Hn. discriminate.
Qed.

Definition profile_header (d : DataFrame) (name : string) : list line :=
  [ [Txt (nl +:+ rule)];
    [Txt "DATA QUALITY PROFILE — "; Txt name];
    [Txt "Run Date : "; Now "%Y-%m-%d %H:%M"];
    [Txt "Records  : "; Fmt "," (VInt (Z.of_nat (Pd.len d)))];
    [Txt rule];
    [Txt (nl +:+ "── NULL / MISSING VALUES ──")] ].

Definition null_line (d : DataFrame) : line :=
  if Pd.empty (null_report d) then no_nulls_line else [Frame true (null_report d)].

Definition category_column (d : DataFrame) : string :=
  if Pd.has_column d "program_code" then "program_code" else "case_type".

Definition category_header : line := [Txt (nl +:+ "── RECORD COUNT BY CATEGORY ──")].

Lemma profile_dataframe_run w df d name :
  heap w !! df = Some d ->
  profile_dataframe df name w =
    let out := stdout w ++ profile_header d name ++ [null_line d; category_header] in
    match Pd.getitem d (category_column d) with
    | Ok c =>
        (Ok (null_report d),
         mkWorld (heap w)
           (out ++ [[Ser (fst (Grp.value_counts c)) (snd (Grp.value_counts c))]])
           (files w) (shown w))
    | Raise e => (Raise e, mkWorld (heap w) out (files w) (shown w))
    end.
Proof.
  intros Hd. destruct w as [hp so fs sh]. cbn [heap stdout files shown] in *.
  unfold profile_dataframe.
  rewrite (run_deref _ d) by exact Hd.
  prints. cbv zeta. cbn [heap stdout files shown].
  fold (category_column d). fold (null_line d).
  unfold profile_header, category_header.
  destruct (Pd.getitem d (category_column d)) as [c|e].
  - rewrite (run_lift_ok _ c) by reflexivity. prints.
    cbn. rewrite <- !app_assoc. reflexivity.
  - rewrite (run_lift_raise _ e) by reflexivity.
    cbn. rewrite <- !app_assoc. reflexivity.
Qed.

Ltac other_line H :=
  exfalso;
  first [ discriminate H
        | lazymatch type of H with
          | context [Pd.empty] => fail
          | _ => vm_compute in H; discriminate H
          end ].


(** ** Section 2 of the script: the healthcare frame and its SLA status *)

Lemma from_dict_ok (cols : list (string * list value)) (k : nat) :
  cols <> [] ->
  Forall (fun c => length (snd c) = k) cols ->
  Data.from_dict cols = Ok (mkDF (map (fun i => VInt (Z.of_nat i)) (seq 0 k)) cols).
Proof.
  intros Hne Hall. unfold Data.from_dict.
  destruct cols as [|c cols]; [contradiction|].
  assert (Hk : length (snd c) = k) by (inversion Hall; assumption).
  rewrite Hk.
  assert (Hb : forallb (fun c0 : string * list value => (length (snd c0) =? k)%nat)
                 (c :: cols) = true).
  { apply forallb_forall. intros x Hx. rewrite Forall_forall in Hall.
    apply Nat.eqb_eq, Hall, list_elem_of_In, Hx. }
  rewrite Hb. reflexivity.
Qed.

Lemma choice_length a size draw : length (Data.choice a size draw) = size.
Proof. unfold Data.choice. rewrite length_map, length_seq. reflexivity. Qed.

Lemma choice_In a size draw x :
  a <> [] -> In x (Data.choice a size draw) -> In x a.
Proof.
  intros Hne Hx. unfold Data.choice in Hx. apply in_map_iff in Hx as (i & <- & _).
  apply nth_In. apply Nat.mod_upper_bound. destruct a; [contradiction|simpl; lia].
Qed.

Lemma randint_days_length b size draw : length (Data.randint_days b size draw) = size.
Proof. unfold Data.randint_days. rewrite length_map, length_seq. reflexivity. Qed.

Lemma set_none_length a i arr : length (Data.set_none a i arr) = length arr.
Proof. unfold Data.set_none. apply length_insert. Qed.

Lemma priorities_length dr : length (Data.priorities dr) = Data.m.
Proof. apply choice_length. Qed.

Lemma resolution_hours_length dr : length (Data.resolution_hours dr) = Data.m.
Proof. unfold Data.resolution_hours. rewrite length_map, length_seq. reflexivity. Qed.

Lemma hc_data_lengths today dr :
  Forall (fun c => length (snd c) = Data.m) (Data.hc_data today dr).
Proof.
  unfold Data.hc_data.
  repeat (apply Forall_cons; split;
          [ cbn [snd];
            rewrite ?length_map, ?set_none_length, ?choice_length,
              ?randint_days_length, ?resolution_hours_length, ?length_seq;
            reflexivity | ]).
  apply Forall_nil. exact I.
Qed.

(** The SLA threshold of a priority, from [sla_map]. *)
Definition sla_of (p : string) : Z :=
  match Data.sla_map !! p with
  | Some t => t
  | None => 0
  end.

Lemma sla_of_cases p :
  In p Data.priorities_choices ->
  Data.sla_map !! p = Some (sla_of p) /\
  ((p = "P1" /\ sla_of p = 4) \/ (p = "P2" /\ sla_of p = 24) \/ (p = "P3" /\ sla_of p = 72)).
Proof.
  intros [<-|[<-|[<-|[]]]]; (split; [reflexivity|]); auto.
Qed.

Lemma series_map_priorities (ps : list string) :
  (forall p, In p ps -> In p Data.priorities_choices) ->
  Data.series_map Data.sla_map (map VStr ps) = map (fun p => VInt (sla_of p)) ps.
Proof.
  intros Hps. unfold Data.series_map. rewrite List.map_map.
  assert (Hr : map (fun x : string => Data.sla_map !! x) ps = map (fun p => Some (sla_of p)) ps).
  { apply map_ext_in. intros p Hp. apply sla_of_cases, Hps, Hp. }
  rewrite Hr.
  assert (Hall : forallb (fun o : option Z => bool_decide (is_Some o))
                   (map (fun p => Some (sla_of p)) ps) = true).
  { apply forallb_forall. intros o Ho. apply in_map_iff in Ho as (p & <- & _).
    reflexivity. }
  rewrite Hall, List.map_map. reflexivity.
Qed.

Lemma series_gt_ints (hs ts : list Z) :
  Data.series_gt (map VInt hs) (map VInt ts) = Ok (zip_with (fun h t => (t <? h)%Z) hs ts).
Proof.
  unfold Data.series_gt. revert ts.
  induction hs as [|h hs IH]; intros [|t ts]; simpl; try reflexivity.
  rewrite IH. reflexivity.
Qed.

(** The status column as the script computes it. *)
Definition sla_status_of (h t : Z) : string :=
  if (t <? h)%Z then "SLA_BREACH" else "WITHIN_SLA".

Definition hc_thresholds (dr : Data.hc_draws) : list Z := map sla_of (Data.priorities dr).

Definition hc_status (dr : Data.hc_draws) : list string :=
  zip_with sla_status_of (Data.resolution_hours dr) (hc_thresholds dr).

Definition hc_frame (today : Z) (dr : Data.hc_draws) : DataFrame :=
  mkDF (map (fun i => VInt (Z.of_nat i)) (seq 0 Data.m))
       (Data.hc_data today dr ++
        [ ("sla_threshold", map VInt (hc_thresholds dr));
          ("sla_status", map VStr (hc_status dr)) ]).

Lemma priorities_in_choices dr p :
  In p (Data.priorities dr) -> In p Data.priorities_choices.
Proof. apply choice_In. discriminate. Qed.

Lemma df_hc_ok today dr : Data.df_hc today dr = Ok (hc_frame today dr).
Proof.
  unfold Data.df_hc.
  rewrite (from_dict_ok _ Data.m) by (discriminate || apply hc_data_lengths).
  cbn [mbind result_bind].
  change (Pd.getitem _ "priority") with (Ok (A:=list value) (map VStr (Data.priorities dr))).
  cbn [mbind result_bind].
  rewrite series_map_priorities by apply priorities_in_choices.
  change (Pd.getitem _ "resolution_hours")
    with (Ok (A:=list value) (map VInt (Data.resolution_hours dr))).
  cbn [mbind result_bind].
  rewrite getitem_setitem_eq. cbn [mbind result_bind].
  rewrite <- (List.map_map sla_of VInt). fold (hc_thresholds dr).
  rewrite series_gt_ints. cbn [mbind result_bind].
  unfold hc_frame, Data.np_where.
  assert (Hst : map (fun b : bool => VStr (if b then "SLA_BREACH" else "WITHIN_SLA"))
                  (zip_with (fun h t : Z => (t <? h)%Z) (Data.resolution_hours dr) (hc_thresholds dr))
                = map VStr (hc_status dr)).
  { unfold hc_status. generalize (Data.resolution_hours dr), (hc_thresholds dr).
    induction l as [|h l IH]; intros [|t l0]; simpl; try reflexivity.
    rewrite IH. reflexivity. }
  rewrite Hst. reflexivity.
Qed.

(** C2: in the healthcare frame, whatever was drawn, every row has the
    threshold of its priority (P1 -> 4, P2 -> 24, P3 -> 72), and its
    status is "SLA_BREACH" exactly when its resolution hours are strictly
    above that threshold, "WITHIN_SLA" otherwise. *)
Theorem sla_status_classification (today : Z) (dr : Data.hc_draws) :
  exists (d : DataFrame) (prio : list string) (hours thr : list Z) (status : list string),
    Data.df_hc today dr = Ok d /\
    Pd.len d = Data.m /\
    Pd.getitem d "priority" = Ok (map VStr prio) /\
    Pd.getitem d "resolution_hours" = Ok (map VInt hours) /\
    Pd.getitem d "sla_threshold" = Ok (map VInt thr) /\
    Pd.getitem d "sla_status" = Ok (map VStr status) /\
    length prio = Data.m /\ length hours = Data.m /\
    forall i p h, prio !! i = Some p -> hours !! i = Some h ->
      exists t,
        thr !! i = Some t /\
        ((p = "P1" /\ t = 4) \/ (p = "P2" /\ t = 24) \/ (p = "P3" /\ t = 72)) /\
        (status !! i = Some "SLA_BREACH" <-> t < h) /\
        (status !! i = Some "WITHIN_SLA" <-> ~ t < h).
Proof.
  exists (hc_frame today dr), (Data.priorities dr), (Data.resolution_hours dr),
    (hc_thresholds dr), (hc_status dr).
  split; [apply df_hc_ok|].
  split; [unfold Pd.len, hc_frame; cbn [index]; rewrite length_map, length_seq; reflexivity|].
  do 4 (split; [reflexivity|]).
  split; [apply priorities_length|].
  split; [apply resolution_hours_length|].
  intros i p h Hp Hh. exists (sla_of p).
  assert (Ht : hc_thresholds dr !! i = Some (sla_of p)).
  { unfold hc_thresholds. rewrite list_lookup_fmap, Hp. reflexivity. }
  assert (Hs : hc_status dr !! i = Some (sla_status_of h (sla_of p))).
  { unfold hc_status. rewrite lookup_zip_with, Hh. simpl. rewrite Ht. reflexivity. }
  split; [exact Ht|]. split.
  { apply sla_of_cases, (priorities_in_choices dr).
    apply list_elem_of_In. eapply list_elem_of_lookup_2, Hp. }
  rewrite Hs. unfold sla_status_of.
  destruct (Z.ltb_spec (sla_of p) h) as [Hlt|Hge]; split; split;
    try discriminate; try (intros; reflexivity); try (intros; assumption); try lia.
Qed.

(** ** Module 4: settlement gaps *)

Lemma lookup_col_map (g : list value -> list value) c cols :
  Pd.lookup_col c (map (fun x => (fst x, g (snd x))) cols) = g <$> Pd.lookup_col c cols.
Proof.
  induction cols as [|[c' v] cols IH]; simpl; [reflexivity|].
  destruct (String.eqb c' c); [reflexivity|exact IH].
Qed.

Lemma getitem_mask_rows mask d c col :
  Pd.getitem d c = Ok col ->
  Pd.getitem (Pd.mask_rows mask d) c = Ok (Pd.select mask col).
Proof.
  unfold Pd.getitem, Pd.mask_rows. cbn [columns].
  rewrite (lookup_col_map (Pd.select mask)).
  destruct (Pd.lookup_col c (columns d)); [|discriminate].
  intros [= ->]. reflexivity.
Qed.

Lemma gt_mask_ints (gaps : list Z) (t : Z) :
  mapR (fun v => Pd.value_gt v (VInt t)) (map VInt gaps) = Ok (map (fun g => (t <? g)%Z) gaps).
Proof.
  induction gaps as [|g gaps IH]; simpl; [reflexivity|]. rewrite IH. reflexivity.
Qed.

Lemma to_numeric_ints (zs : list Z) :
  Pd.to_numeric (map VInt zs) = Ok (map Np.float_of_Z zs).
Proof.
  unfold Pd.to_numeric. induction zs as [|z zs IH]; simpl; [reflexivity|].
  rewrite IH. reflexivity.
Qed.

Definition gap_header (t : Z) : list line :=
  [ [Txt (nl +:+ rule)];
    [Txt "SETTLEMENT GAP ANALYSIS (threshold: "; Fmt plain (VInt t); Txt " days)"];
    [Txt rule] ].

Lemma analyze_settlement_gaps_run w df d gaps t :
  heap w !! df = Some d ->
  Pd.getitem d "days_to_settle" = Ok (map VInt gaps) ->
  Pd.len d <> 0%nat ->
  exists w',
    analyze_settlement_gaps df t w =
      (Ok (Pd.mask_rows (map (fun g => (t <? g)%Z) gaps) d), w') /\
    heap w' = heap w /\ files w' = files w /\
    exists new, stdout w' = stdout w ++ new.
Proof.
  intros Hd Hgap Hlen. destruct w as [hp so fs sh]. cbn [heap stdout files shown] in *.
  unfold analyze_settlement_gaps.
  prints. rewrite (run_deref _ d) by exact Hd.
  rewrite (run_lift_ok _ (map VInt gaps)) by exact Hgap.
  rewrite (run_lift_ok _ _ _ _ (gt_mask_ints gaps t)).
  cbv zeta. prints.
  set (br := Pd.mask_rows (map (fun g => (t <? g)%Z) gaps) d).
  unfold py_div. destruct (Nat.eqb_spec (Pd.len d) 0) as [E|_]; [contradiction|].
  rewrite (run_lift_ok _ _ _ _ eq_refl). prints.
  rewrite (run_lift_ok _ _ _ _ (to_numeric_ints gaps)). prints.
  rewrite run_bind. cbn [heap stdout files shown].
  destruct (Pd.empty br) eqn:Hemp; cbn [negb Eff.when].
  - eexists. split; [reflexivity|]. cbn [heap stdout files shown].
    split; [reflexivity|]. split; [reflexivity|].
    rewrite <- !app_assoc. eexists. reflexivity.
  - rewrite (run_lift_ok _ (Pd.select (map (fun g => (t <? g)%Z) gaps) (map VInt gaps)))
      by (apply getitem_mask_rows, Hgap).
    rewrite select_map.
    rewrite (run_lift_ok _ _ _ _ (to_numeric_ints _)).
    eexists. split; [reflexivity|]. cbn [heap stdout files shown].
    split; [reflexivity|]. split; [reflexivity|].
    rewrite <- !app_assoc. eexists. reflexivity.
Qed.

(** A world whose store holds one frame at reference 0, and one holding
    two frames at 0 and 1. *)
Definition world_of (d : DataFrame) : world := mkWorld {[ 0%nat := d ]} [] ∅ [].

Definition world_of2 (d0 d1 : DataFrame) : world :=
  mkWorld (<[1%nat := d1]> {[ 0%nat := d0 ]}) [] ∅ [].

Definition range_index (k : nat) : list value :=
  map (fun i => VInt (Z.of_nat i)) (seq 0 k).

Definition gaps_frame (gaps : list Z) : DataFrame :=
  mkDF (range_index (length gaps)) [("days_to_settle", map VInt gaps)].

(** The notion the claim speaks of: the [q]-th percentile of a sample by
    nearest rank, for [q] from 0 to 100; and a classification that flags
    the values strictly above it. *)
Module Spec.

Definition percentile (q : nat) (xs : list Z) : Z :=
  let sorted := merge_sort Z.le xs in
  let rank := ((q * length xs + 99) / 100)%nat in
  nth (rank - 1) sorted 0.

Definition above_percentile (q : nat) (xs : list Z) : list bool :=
  map (fun x => (percentile q xs <? x)%Z) xs.

End Spec.

(** The rows the gap analysis flags, as positions. *)
Definition gap_flags (gaps : list Z) (t : Z) : result (list value) :=
  match fst (analyze_settlement_gaps 0%nat t (world_of (gaps_frame gaps))) with
  | Ok breaches => Ok (index breaches)
  | Raise e => Raise e
  end.

(** C5, as stated, fails.  With the default threshold of 5 days, the
    one-row sample [10] has its row flagged, although no value is above
    any percentile of a one-element sample; and in the sample [1; 2; 3]
    no row is flagged, although the largest value is above the percentile
    for every [q] from 34 to 66. *)
Lemma gap_threshold_is_not_a_percentile :
  gap_flags [10] 5 = Ok [VInt 0] /\
  forallb (fun q => bool_decide (Spec.above_percentile q [10] = [false])) (seq 0 101) = true /\
  gap_flags [1; 2; 3] 5 = Ok [] /\
  forallb (fun q => bool_decide (Spec.above_percentile q [1; 2; 3] = [false; false; true]))
          (seq 34 33) = true.
Proof. vm_compute. repeat split. Qed.

(** C5, amended: the gap analysis compares each row's [days_to_settle]
    with the fixed [threshold_days] passed in (5 by default); whether a
    row is flagged does not depend on the other rows. *)
Theorem settlement_gap_threshold_is_fixed
  (w : world) (df : loc) (d : DataFrame) (gaps : list Z) (threshold_days : Z) :
  heap w !! df = Some d ->
  Pd.getitem d "days_to_settle" = Ok (map VInt gaps) ->
  Pd.len d <> 0%nat ->
  exists breaches,
    fst (analyze_settlement_gaps df threshold_days w) = Ok breaches /\
    index breaches = Pd.select (map (fun g => (threshold_days <? g)%Z) gaps) (index d) /\
    Pd.getitem breaches "days_to_settle" =
      Ok (map VInt (List.filter (fun g => (threshold_days <? g)%Z) gaps)) /\
    forall i g, gaps !! i = Some g ->
      (map (fun g => (threshold_days <? g)%Z) gaps !! i = Some true <-> threshold_days < g).
Proof.
  intros Hd Hgap Hlen.
  destruct (analyze_settlement_gaps_run w df d gaps threshold_days Hd Hgap Hlen)
    as (w' & Hrun & _).
  eexists. rewrite Hrun. split; [reflexivity|]. split; [reflexivity|]. split.
  - rewrite (getitem_mask_rows _ d _ _ Hgap).
    rewrite select_map, select_filter. reflexivity.
  - intros i g Hg. rewrite list_lookup_fmap, Hg. simpl.
    rewrite <- Z.ltb_lt. split; [intros [= ->]; reflexivity|intros ->; reflexivity].
Qed.

Lemma settlement_gap_threshold_is_fixed_witness :
  exists breaches,
    fst (analyze_settlement_gaps 0%nat 5 (world_of (gaps_frame [3; 9; 5; 6]))) = Ok breaches /\
    index breaches = [VInt 1; VInt 3].
Proof.
  destruct (settlement_gap_threshold_is_fixed
              (world_of (gaps_frame [3; 9; 5; 6])) 0%nat (gaps_frame [3; 9; 5; 6])
              [3; 9; 5; 6] 5)
    as (breaches & Hrun & Hidx & _).
  - reflexivity.
  - reflexivity.
  - discriminate.
  - exists breaches. split; [exact Hrun|exact Hidx].
Defined.

(** ** Module 1 does not look at duplicates *)

Lemma has_column_setitem_ne d c c' v :
  c <> c' -> Pd.has_column (Pd.setitem d c v) c' = Pd.has_column d c'.
Proof.
  intros H. unfold Pd.has_column, Pd.setitem. cbn [columns].
  rewrite lookup_set_col_ne by exact H. reflexivity.
Qed.

Lemma filter_has_null_set_col c v v' cols :
  Pd.lookup_col c cols = Some v ->
  has_null (c, v) = false -> has_null (c, v') = false ->
  List.filter has_null (Pd.set_col c v' cols) = List.filter has_null cols.
Proof.
  intros Hl Hv Hv'. induction cols as [|[c0 v0] cols IH]; simpl in *; [discriminate|].
  destruct (String.eqb c0 c) eqn:E.
  - apply String.eqb_eq in E. subst c0. injection Hl as ->.
    simpl. rewrite Hv, Hv'. reflexivity.
  - simpl. rewrite (IH Hl). reflexivity.
Qed.

Lemma has_null_false c v :
  (forall x, In x v -> isnull x = false) -> has_null (c, v) = false.
Proof.
  intros H. unfold has_null.
  assert (E : null_count (c, v) = 0%nat) by (apply null_count_zero; exact H).
  rewrite E. reflexivity.
Qed.

(** The profile reports the record count, the missing values per column
    and the record count by category, and nothing else: between two
    columns without missing values, in a column that is not the category
    column, it cannot tell. *)
Lemma profile_dataframe_ignores_column_values
  (w : world) (df : loc) (d : DataFrame) (name c : string) (v v' : list value) :
  heap w !! df = Some d ->
  Pd.getitem d c = Ok v ->
  c <> "program_code" -> c <> "case_type" ->
  length v' = length v ->
  (forall x, In x v -> isnull x = false) ->
  (forall x, In x v' -> isnull x = false) ->
  let w' := mkWorld (<[df := Pd.setitem d c v']> (heap w)) (stdout w) (files w) (shown w) in
  fst (profile_dataframe df name w') = fst (profile_dataframe df name w) /\
  stdout (snd (profile_dataframe df name w')) = stdout (snd (profile_dataframe df name w)).
Proof.
  intros Hd Hc Hp Hct _ Hv Hv' w'.
  set (d' := Pd.setitem d c v').
  assert (Hd' : heap w' !! df = Some d') by apply lookup_insert_eq.
  rewrite (profile_dataframe_run w' df d' name Hd'),
          (profile_dataframe_run w df d name Hd). cbv zeta.
  assert (Hrep : null_report d' = null_report d).
  { rewrite !null_report_rows. unfold d', Pd.setitem. cbn [columns].
    unfold Pd.getitem in Hc.
    destruct (Pd.lookup_col c (columns d)) as [v0|] eqn:E; [|discriminate].
    injection Hc as ->.
    rewrite (filter_has_null_set_col c v v' _ E) by (apply has_null_false; assumption).
    reflexivity. }
  assert (Hcat : category_column d' = category_column d).
  { unfold category_column, d'. rewrite has_column_setitem_ne by exact Hp. reflexivity. }
  assert (Hget : Pd.getitem d' (category_column d') = Pd.getitem d (category_column d)).
  { rewrite Hcat. unfold d'. apply getitem_setitem_ne.
    unfold category_column. destruct (Pd.has_column d "program_code"); assumption. }
  assert (Hhead : profile_header d' name = profile_header d name) by reflexivity.
  assert (Hnl : null_line d' = null_line d).
  { unfold null_line. rewrite Hrep. reflexivity. }
  rewrite Hget, Hhead, Hnl, Hrep.
  destruct (Pd.getitem d (category_column d)); split; reflexivity.
Qed.

(** A small financial frame: twelve rows, one missing partner, one
    duplicated transaction id, one amount far from the others. *)
Module Small.

Definition ids : list string :=
  ["T01"; "T02"; "T03"; "T04"; "T05"; "T06"; "T07"; "T08"; "T09"; "T10"; "T11"; "T11"].

Definition amounts : list float := repeat 5000%float 11 ++ [95000%float].

Definition amount_cells : list value := map VFloat amounts.

Definition fin : DataFrame :=
  mkDF (range_index 12)
       [ ("transaction_id", map VStr ids);
         ("partner_id", VNone :: repeat (VStr "P001") 11);
         ("program_code", repeat (VStr "PROG_A") 7 ++ repeat (VStr "PROG_B") 5);
         ("incentive_amount", amount_cells);
         ("status", repeat (VStr "SETTLED") 12) ].

Lemma fin_wf : Pd.wf fin.
Proof.
  split.
  - apply (bool_decide_unpack _). vm_compute. exact I.
  - repeat constructor.
Qed.

End Small.


(** A column of ten cells 0.1: their sum is exactly 1, so the mean is
    0.1, the standard deviation 0 and every Z-score NaN; no row is
    flagged at any threshold. *)
Example detect_amount_anomalies_constant_column :
  let xs := repeat 0x1.999999999999ap-4%float 10 in
  Pd.mean xs = 0x1.999999999999ap-4%float /\
  Pd.std xs = 0%float /\
  map (z_score (Pd.mean xs) (Pd.std xs)) xs = repeat nan 10.
Proof. vm_compute. repeat split. Qed.

(** Seventeen cells 0.35 have mean 0.35 exactly, 0.4 to one decimal. *)
Example mean_of_seventeen :
  Np.round 1 (Pd.mean (repeat 0x1.6666666666666p-2%float 17))
  = 0x1.999999999999ap-2%float.
Proof. vm_compute. reflexivity. Qed.

(** The same call, run: the outlier row is printed with its Z-score. *)
Example detect_amount_anomalies_small :
  fst (detect_amount_anomalies 0%nat "incentive_amount" 3 (world_of Small.fin)) =
  Ok (mkDF [VInt 11]
        [ ("transaction_id", [VStr "T11"]); ("partner_id", [VStr "P001"]);
          ("program_code", [VStr "PROG_B"]); ("incentive_amount", [VFloat 95000]);
          ("status", [VStr "SETTLED"]); ("z_score", [VFloat 0x1.970a3d70a3d71p+1]) ]).
Proof. vm_compute. reflexivity. Qed.


(** ** The order of binary64 values used for sorting *)

Section FloatOrder.

(** A key whose lexicographic order is the IEEE order of the values
    that are not NaN. *)
Definition sf_key (s : spec_float) : Z * Z * Z :=
  match s with
  | S754_zero _ => (0, 0, 0)
  | S754_infinity true => (-2, 0, 0)
  | S754_infinity false => (2, 0, 0)
  | S754_nan => (3, 0, 0)
  | S754_finite true m e => (-1, - e, - Z.pos m)
  | S754_finite false m e => (1, e, Z.pos m)
  end.

Definition key_le (a b : Z * Z * Z) : Prop :=
  let '(a1, a2, a3) := a in
  let '(b1, b2, b3) := b in
  a1 < b1 \/ (a1 = b1 /\ (a2 < b2 \/ (a2 = b2 /\ a3 <= b3))).

Definition sf_is_nan (s : spec_float) : bool :=
  match s with
  | S754_nan => true
  | _ => false
  end.

Lemma SFleb_key (a b : spec_float) :
  sf_is_nan a = false -> sf_is_nan b = false ->
  (SFleb a b = true <-> key_le (sf_key a) (sf_key b)).
Proof.
  intros Ha Hb. unfold SFleb, SFcompare.
  destruct a as [[]|[]| |[] m1 e1], b as [[]|[]| |[] m2 e2];
    try discriminate; cbn [sf_key key_le];
    try (split; [intros _; lia | intros _; reflexivity]);
    try (split; [discriminate | intros H; exfalso; lia]).
  - change (Pos.compare_cont Eq m1 m2) with (Pos.compare m1 m2).
    destruct (Z.compare_spec e1 e2) as [He|He|He];
      [destruct (Pos.compare_spec m1 m2) as [Hm|Hm|Hm]|..]; cbn [CompOpp];
      (split; [first [discriminate | intros _; lia] | first [intros _; reflexivity | intros H; exfalso; lia]]).
  - change (Pos.compare_cont Eq m1 m2) with (Pos.compare m1 m2).
    destruct (Z.compare_spec e1 e2) as [He|He|He];
      [destruct (Pos.compare_spec m1 m2) as [Hm|Hm|Hm]|..];
      (split; [first [discriminate | intros _; lia] | first [intros _; reflexivity | intros H; exfalso; lia]]).
Qed.

Lemma is_nan_spec (x : float) : is_nan x = sf_is_nan (Prim2SF x).
Proof.
  unfold is_nan. rewrite FloatAxioms.eqb_spec. unfold SFeqb, SFcompare.
  destruct (Prim2SF x) as [[]|[]| |[] m e]; try reflexivity; cbn [sf_is_nan];
    rewrite Z.compare_refl;
    change (Pos.compare_cont Eq m m) with (Pos.compare m m);
    rewrite Pos.compare_refl; reflexivity.
Qed.

Lemma key_le_total a b : key_le a b \/ key_le b a.
Proof. destruct a as [[a1 a2] a3], b as [[b1 b2] b3]. unfold key_le. lia. Qed.

Lemma key_le_trans a b c : key_le a b -> key_le b c -> key_le a c.
Proof.
  destruct a as [[a1 a2] a3], b as [[b1 b2] b3], c as [[c1 c2] c3].
  unfold key_le. lia.
Qed.

Lemma desc_spec (x y : float) :
  Grp.desc x y <->
  is_nan y = true \/
  (is_nan x = false /\ is_nan y = false /\
   key_le (sf_key (Prim2SF y)) (sf_key (Prim2SF x))).
Proof.
  unfold Grp.desc, Grp.descb.
  destruct (is_nan y) eqn:Hy; [split; [left; reflexivity|reflexivity]|].
  destruct (is_nan x) eqn:Hx; simpl.
  - split; [discriminate|]. intros [H|[H _]]; discriminate.
  - rewrite FloatAxioms.leb_spec, SFleb_key by (rewrite <- is_nan_spec; assumption).
    split; [intros H; right; auto|]. intros [H|(_ & _ & H)]; [discriminate|exact H].
Qed.

#[global] Instance desc_total : Total Grp.desc.
Proof.
  intros x y. rewrite !desc_spec.
  destruct (is_nan x) eqn:Hx; [right; left; reflexivity|].
  destruct (is_nan y) eqn:Hy; [left; left; reflexivity|].
  destruct (key_le_total (sf_key (Prim2SF y)) (sf_key (Prim2SF x))); [left|right];
    right; auto.
Qed.

#[global] Instance desc_trans : Transitive Grp.desc.
Proof.
  intros x y z. rewrite !desc_spec.
  intros [Hy|(Hx & Hy & Hxy)] [Hz|(Hy' & Hz & Hyz)]; try (left; assumption).
  - congruence.
  - right. repeat split; try assumption. eapply key_le_trans; eassumption.
Qed.

#[global] Instance by_key_desc_total : Total Grp.by_key_desc.
Proof. intros a b. apply desc_total. Qed.

#[global] Instance by_key_desc_trans : Transitive Grp.by_key_desc.
Proof. intros a b c. apply desc_trans. Qed.

(** For two keys that are numbers, "may stand before" is [>=]. *)
Lemma desc_numbers (x y : float) :
  is_nan x = false -> is_nan y = false -> (Grp.desc x y <-> (y <=? x)%float = true).
Proof.
  intros Hx Hy. unfold Grp.desc, Grp.descb. rewrite Hx, Hy. reflexivity.
Qed.

End FloatOrder.

(** ** Module 3: groups and their statistics *)

(** The rows of [d] whose key cell is the string [k]. *)
Definition group_rows (d : DataFrame) (keycol : list value) (k : string) : DataFrame :=
  Pd.mask_rows (map (value_is_str k) keycol) d.

(** A column restricted to the rows of group [k]. *)
Definition group_col (k : string) (keycol col : list value) : list value :=
  Pd.select (map (value_is_str k) keycol) col.

Lemma groupby_groups d c col keys :
  Pd.getitem d c = Ok col ->
  Grp.group_keys col = Ok keys ->
  Grp.groupby d c = Ok (map (fun k => (k, group_rows d col k)) keys).
Proof. intros Hc Hk. unfold Grp.groupby. rewrite Hc. simpl. rewrite Hk. reflexivity. Qed.

Lemma to_numeric_select mask col xs :
  Pd.to_numeric col = Ok xs ->
  Pd.to_numeric (Pd.select mask col) = Ok (Pd.select mask xs).
Proof.
  unfold Pd.to_numeric. revert col xs.
  induction mask as [|b mask IH]; intros [|v col] xs H; simpl in *;
    try (injection H as <-; reflexivity).
  - destruct (Pd.as_float v); simpl in H; [|discriminate].
    destruct (mapR Pd.as_float col); simpl in H; [|discriminate].
    injection H as <-. reflexivity.
  - destruct (Pd.as_float v) as [x|] eqn:Hv; simpl in H; [|discriminate].
    destruct (mapR Pd.as_float col) as [xs'|] eqn:Hc; simpl in H; [|discriminate].
    injection H as <-. specialize (IH col xs' Hc).
    destruct b; simpl; [rewrite Hv; simpl|]; rewrite IH; reflexivity.
Qed.

(** The statistics of one group, from the columns of the whole frame. *)
Definition group_total (d : DataFrame) (keycol : list value) (k : string) : nat :=
  length (Pd.select (map (value_is_str k) keycol) (index d)).

Definition group_breaches (st keycol : list value) (k : string) : nat :=
  length (List.filter is_breach (group_col k keycol st)).

Definition team_row (d : DataFrame) (st keycol : list value) (k : string)
  : list (string * value) :=
  [ ("total", VFloat (Np.float_of_nat (group_total d keycol k)));
    ("breaches", VFloat (Np.float_of_nat (group_breaches st keycol k)));
    ("breach_pct",
      VFloat (breach_pct (group_breaches st keycol k) (group_total d keycol k))) ].

Definition priority_row (d : DataFrame) (st h : list value) (hs : list float)
  (keycol : list value) (k : string) : list (string * value) :=
  team_row d st keycol k ++
  [ ("avg_res_hours",
      VFloat (Np.round 1 (Pd.series_mean (group_col k keycol h)
                            (Pd.select (map (value_is_str k) keycol) hs)))) ].

Lemma team_stats_group d st keycol k :
  Pd.getitem d "sla_status" = Ok st ->
  team_stats (group_rows d keycol k) = Ok (team_row d st keycol k).
Proof.
  intros Hst. unfold team_stats, group_rows.
  rewrite (getitem_mask_rows _ d _ _ Hst). simpl.
  unfold team_row, group_breaches, group_total, group_col, breach_count, Pd.len.
  rewrite count_true_map. reflexivity.
Qed.

Lemma priority_stats_group d st h hs keycol k :
  Pd.getitem d "sla_status" = Ok st ->
  Pd.getitem d "resolution_hours" = Ok h ->
  Pd.to_numeric h = Ok hs ->
  priority_stats (group_rows d keycol k) = Ok (priority_row d st h hs keycol k).
Proof.
  intros Hst Hh Hhs. unfold priority_stats, group_rows.
  rewrite (getitem_mask_rows _ d _ _ Hst). simpl.
  rewrite (getitem_mask_rows _ d _ _ Hh). simpl.
  rewrite (to_numeric_select _ _ _ Hhs). simpl.
  unfold priority_row, team_row, group_breaches, group_total, group_col, breach_count, Pd.len.
  rewrite count_true_map. reflexivity.
Qed.

(** The frame that [apply] builds from one row of statistics per key. *)
Definition stats_frame (names : list string) (row : string -> list (string * value))
  (keys : list string) : DataFrame :=
  mkDF (map VStr keys)
       (map (fun name => (name, map (fun k => Grp.assoc name (row k)) keys)) names).

Lemma mapR_map_ok {A B C} (f : B -> result C) (g : A -> B) (h : A -> C) (l : list A) :
  (forall x, f (g x) = Ok (h x)) -> mapR f (map g l) = Ok (map h l).
Proof.
  intros H. induction l as [|x l IH]; simpl; [reflexivity|].
  rewrite H. simpl. rewrite IH. reflexivity.
Qed.

Lemma apply_series_stats d c keycol keys f names row :
  keys <> [] ->
  (forall k, f (group_rows d keycol k) = Ok (row k)) ->
  (forall k, map fst (row k) = names) ->
  Grp.apply_series d c (map (fun k => (k, group_rows d keycol k)) keys) f
  = Ok (stats_frame names row keys).
Proof.
  intros Hne Hf Hnames. unfold Grp.apply_series.
  rewrite (mapR_map_ok _ _ row) by (intros k; apply Hf). simpl.
  destruct keys as [|k keys]; [contradiction|].
  cbn [map]. rewrite Hnames. unfold stats_frame. rewrite !List.map_map. cbn [fst map].
  f_equal. f_equal. apply map_ext. intros name. f_equal.
  rewrite List.map_map. reflexivity.
Qed.

(** ** Sorting a statistics frame by a float column, descending *)

Definition sorted_keys (pct : string -> float) (keys : list string) : list string :=
  omap (fun i => keys !! i) (map fst (Grp.argsort_desc (map pct keys))).

Lemma omap_lookup_map {A B} (f : A -> B) (l : list A) (order : list nat) :
  omap (fun i => map f l !! i) order = map f (omap (fun i => l !! i) order).
Proof.
  induction order as [|i order IH]; [reflexivity|].
  cbn [omap list_omap]. rewrite list_lookup_fmap, IH.
  destruct (l !! i); reflexivity.
Qed.

Lemma take_rows_stats names row keys order :
  Pd.take_rows order (stats_frame names row keys)
  = stats_frame names row (omap (fun i => keys !! i) order).
Proof.
  unfold Pd.take_rows, stats_frame. cbn [index columns]. f_equal.
  - apply omap_lookup_map.
  - rewrite List.map_map. apply map_ext. intros name. cbn [fst snd]. f_equal.
    apply omap_lookup_map.
Qed.

Lemma lookup_col_names c names (F : string -> list value) :
  In c names ->
  Pd.lookup_col c (map (fun name => (name, F name)) names) = Some (F c).
Proof.
  induction names as [|n0 names IH]; intros Hin; [destruct Hin|].
  simpl. destruct (String.eqb n0 c) eqn:E.
  - apply String.eqb_eq in E. subst. reflexivity.
  - destruct Hin as [->|Hin]; [rewrite String.eqb_refl in E; discriminate|].
    apply IH, Hin.
Qed.

Lemma getitem_stats_frame names row keys c :
  In c names ->
  Pd.getitem (stats_frame names row keys) c
  = Ok (map (fun k => Grp.assoc c (row k)) keys).
Proof.
  intros Hin. unfold Pd.getitem, stats_frame. cbn [columns].
  rewrite (lookup_col_names c names
             (fun name => map (fun k => Grp.assoc name (row k)) keys) Hin).
  reflexivity.
Qed.

Lemma sort_values_desc_stats names row keys pct :
  In "breach_pct" names ->
  (forall k, Grp.assoc "breach_pct" (row k) = VFloat (pct k)) ->
  Grp.sort_values_desc (stats_frame names row keys) "breach_pct"
  = Ok (stats_frame names row (sorted_keys pct keys)).
Proof.
  intros Hin Hpct. unfold Grp.sort_values_desc.
  rewrite (getitem_stats_frame names row keys "breach_pct" Hin).
  cbn [mbind result_bind].
  assert (Hcol : map (fun k => Grp.assoc "breach_pct" (row k)) keys
                 = map VFloat (map pct keys)).
  { rewrite List.map_map. apply map_ext. exact Hpct. }
  rewrite Hcol, to_numeric_floats. cbn [mbind result_bind].
  rewrite take_rows_stats. reflexivity.
Qed.

Section StableSort.
Context {A : Type} (R : A -> A -> Prop) `{!forall x y, Decision (R x y)}.

Lemma insert_sorted_Permutation (x : A) (l : list A) :
  Grp.insert_sorted R x l ≡ₚ x :: l.
Proof.
  induction l as [|y l IH]; simpl; [reflexivity|].
  case_decide; [reflexivity|]. rewrite IH. apply Permutation_swap.
Qed.

Lemma stable_sort_Permutation (l : list A) : Grp.stable_sort R l ≡ₚ l.
Proof.
  induction l as [|x l IH]; simpl; [reflexivity|].
  rewrite insert_sorted_Permutation, IH. reflexivity.
Qed.

Lemma Sorted_insert_sorted `{!Total R} (x : A) (l : list A) :
  Sorted R l -> Sorted R (Grp.insert_sorted R x l).
Proof.
  induction 1 as [|y l Hl IH Hhd]; simpl; [repeat constructor|].
  case_decide as Hxy.
  - repeat constructor; assumption.
  - constructor; [exact IH|].
    assert (Hyx : R y x) by (destruct (total R x y); [contradiction|assumption]).
    destruct Hhd as [|z l Hyz]; simpl; [constructor; exact Hyx|].
    case_decide; constructor; assumption.
Qed.

Lemma Sorted_stable_sort `{!Total R} (l : list A) : Sorted R (Grp.stable_sort R l).
Proof.
  induction l as [|x l IH]; simpl; [constructor|].
  apply Sorted_insert_sorted, IH.
Qed.

Lemma StronglySorted_stable_sort `{!Transitive R, !Total R} (l : list A) :
  StronglySorted R (Grp.stable_sort R l).
Proof. apply Sorted_StronglySorted; [assumption|apply Sorted_stable_sort]. Qed.

End StableSort.

Lemma argsort_desc_perm (ps : list float) : Grp.argsort_desc ps ≡ₚ imap pair ps.
Proof. apply stable_sort_Permutation. Qed.

Lemma argsort_desc_lookup (ps : list float) :
  Forall (fun p => ps !! fst p = Some (snd p)) (Grp.argsort_desc ps).
Proof.
  rewrite argsort_desc_perm. apply Forall_forall. intros [i x] Hin.
  apply elem_of_lookup_imap in Hin as (j & y & [= -> ->] & Hj). exact Hj.
Qed.

Lemma omap_lookup_seq_from {A} (pre l : list A) :
  omap (fun i => (pre ++ l) !! i) (seq (length pre) (length l)) = l.
Proof.
  revert pre. induction l as [|x l IH]; intros pre; [reflexivity|].
  cbn [length seq omap list_omap].
  rewrite list_lookup_middle by reflexivity. f_equal.
  specialize (IH (pre ++ [x])).
  rewrite <- app_assoc, length_app, Nat.add_1_r in IH. exact IH.
Qed.

Lemma omap_lookup_seq {A} (l : list A) :
  omap (fun i => l !! i) (seq 0 (length l)) = l.
Proof. apply (omap_lookup_seq_from [] l). Qed.

Lemma sorted_keys_perm pct keys : sorted_keys pct keys ≡ₚ keys.
Proof.
  unfold sorted_keys.
  assert (Horder : map fst (Grp.argsort_desc (map pct keys)) ≡ₚ seq 0 (length keys)).
  { rewrite argsort_desc_perm.
    change (map fst (imap pair (map pct keys))) with (fst <$> imap pair (map pct keys)).
    rewrite fmap_imap.
    rewrite (imap_ext _ (fun j _ => j)) by reflexivity.
    rewrite (imap_seq_0 (map pct keys) (fun j => j)), length_map.
    rewrite list_fmap_id. reflexivity. }
  rewrite Horder, omap_lookup_seq. reflexivity.
Qed.

Lemma sorted_keys_pct pct keys :
  map pct (sorted_keys pct keys) = map snd (Grp.argsort_desc (map pct keys)).
Proof.
  unfold sorted_keys.
  pose proof (argsort_desc_lookup (map pct keys)) as H.
  induction (Grp.argsort_desc (map pct keys)) as [|[i x] l IH]; [reflexivity|].
  apply Forall_cons in H as [Hix Hl]. cbn [fst snd] in Hix.
  rewrite list_lookup_fmap in Hix.
  cbn [map fst snd omap list_omap].
  destruct (keys !! i) as [k|]; [|discriminate].
  injection Hix as <-. cbn [map]. rewrite (IH Hl). reflexivity.
Qed.

Lemma sorted_keys_sorted pct keys :
  StronglySorted Grp.desc (map pct (sorted_keys pct keys)).
Proof.
  rewrite sorted_keys_pct.
  apply (StronglySorted_fmap snd Grp.by_key_desc Grp.desc); [auto|].
  apply StronglySorted_stable_sort; typeclasses eauto.
Qed.

(** ** Module 3: what a call of [analyze_sla_breaches] returns *)

Definition team_names : list string := ["total"; "breaches"; "breach_pct"].

Definition priority_names : list string :=
  ["total"; "breaches"; "breach_pct"; "avg_res_hours"].

(** The breach percentage of group [k]. *)
Definition group_pct (d : DataFrame) (st keycol : list value) (k : string) : float :=
  breach_pct (group_breaches st keycol k) (group_total d keycol k).

Definition priority_summary_of (d : DataFrame) (st h : list value) (hs : list float)
  (prio : list value) (pkeys : list string) : DataFrame :=
  stats_frame priority_names (priority_row d st h hs prio) pkeys.

Definition team_summary_of (d : DataFrame) (st team : list value)
  (tkeys : list string) : DataFrame :=
  stats_frame team_names (team_row d st team) (sorted_keys (group_pct d st team) tkeys).

Lemma analyze_sla_breaches_run w df d prio team st h hs pkeys tkeys :
  heap w !! df = Some d ->
  Pd.getitem d "sla_status" = Ok st ->
  Pd.getitem d "priority" = Ok prio ->
  Grp.group_keys prio = Ok pkeys ->
  Pd.getitem d "assigned_team" = Ok team ->
  Grp.group_keys team = Ok tkeys ->
  Pd.getitem d "resolution_hours" = Ok h ->
  Pd.to_numeric h = Ok hs ->
  Pd.len d <> 0%nat -> pkeys <> [] -> tkeys <> [] ->
  exists w',
    analyze_sla_breaches df w =
      (Ok (priority_summary_of d st h hs prio pkeys, team_summary_of d st team tkeys), w') /\
    heap w' = heap w /\ files w' = files w /\
    exists new, stdout w' = stdout w ++ new.
Proof.
  intros Hd Hst Hp Hpk Ht Htk Hh Hhs Hlen Hpne Htne.
  destruct w as [hp so fs sh]. cbn [heap stdout files shown] in *.
  unfold analyze_sla_breaches.
  prints. rewrite (run_deref _ d) by exact Hd.
  cbv zeta. rewrite (run_lift_ok _ st) by exact Hst.
  prints.
  unfold py_div. destruct (Nat.eqb_spec (Pd.len d) 0) as [E|_]; [contradiction|].
  rewrite (run_lift_ok _ _ _ _ eq_refl). prints.
  rewrite (run_lift_ok _ _ _ _ (groupby_groups d "priority" prio pkeys Hp Hpk)).
  rewrite (run_lift_ok _ (priority_summary_of d st h hs prio pkeys)).
  2:{ apply apply_series_stats; [exact Hpne| |reflexivity].
      intros k. apply (priority_stats_group d st h hs prio k Hst Hh Hhs). }
  prints.
  rewrite (run_lift_ok _ _ _ _ (groupby_groups d "assigned_team" team tkeys Ht Htk)).
  rewrite (run_lift_ok _ (stats_frame team_names (team_row d st team) tkeys)).
  2:{ apply apply_series_stats; [exact Htne| |reflexivity].
      intros k. apply (team_stats_group d st team k Hst). }
  rewrite (run_lift_ok _ (team_summary_of d st team tkeys)).
  2:{ apply sort_values_desc_stats; [right; right; left; reflexivity|reflexivity]. }
  prints. cbn [mret M_ret heap stdout files shown].
  eexists. split; [reflexivity|]. cbn [heap stdout files shown].
  split; [reflexivity|]. split; [reflexivity|].
  rewrite <- !app_assoc. eexists. reflexivity.
Qed.

Lemma StronglySorted_lookup {A} (R : relation A) (l : list A) (i j : nat) (x y : A) :
  StronglySorted R l -> (i < j)%nat -> l !! i = Some x -> l !! j = Some y -> R x y.
Proof.
  intros Hs. revert i j. induction Hs as [|a l Hs IH Hall]; intros i j Hij Hi Hj.
  - destruct i; discriminate.
  - destruct j as [|j]; [lia|]. destruct i as [|i]; simpl in *.
    + injection Hi as <-. rewrite Forall_forall in Hall. apply Hall.
      eapply list_elem_of_lookup_2, Hj.
    + apply (IH i j); [lia|assumption|assumption].
Qed.


(** ** Breach percentages of the healthcare frame *)

Definition pct_in_range (b n : nat) : bool :=
  (0 <=? breach_pct b n)%float && (breach_pct b n <=? 100)%float.

(** Every percentage that a group of at most [Data.m] rows can have,
    computed. *)
Lemma pct_table :
  forallb (fun n => forallb (fun b => pct_in_range b n) (seq 0 (S n))) (seq 1 Data.m) = true.
Proof. vm_compute. reflexivity. Qed.

Lemma pct_bounds (b n : nat) :
  (1 <= n)%nat -> (n <= Data.m)%nat -> (b <= n)%nat ->
  (0 <=? breach_pct b n)%float = true /\ (breach_pct b n <=? 100)%float = true.
Proof.
  intros H1 Hm Hb. pose proof pct_table as T.
  rewrite forallb_forall in T. specialize (T n).
  rewrite forallb_forall in T.
  assert (Hn : In n (seq 1 Data.m)) by (apply in_seq; lia).
  assert (Hbn : In b (seq 0 (S n))) by (apply in_seq; lia).
  specialize (T Hn b Hbn). unfold pct_in_range in T.
  apply andb_true_iff in T. exact T.
Qed.

Lemma string_keys_strings (l : list string) : Grp.string_keys (map VStr l) = Ok l.
Proof. induction l as [|s l IH]; simpl; [reflexivity|]. rewrite IH. reflexivity. Qed.

Lemma group_keys_strings (l : list string) :
  Grp.group_keys (map VStr l) = Ok (merge_sort Grp.str_le (remove_dups l)).
Proof. unfold Grp.group_keys. rewrite string_keys_strings. reflexivity. Qed.

Lemma sorted_dedup_elem (l : list string) (k : string) :
  k ∈ merge_sort Grp.str_le (remove_dups l) <-> k ∈ l.
Proof. rewrite merge_sort_Permutation. apply elem_of_remove_dups. Qed.

Lemma sorted_dedup_nonempty (l : list string) :
  l <> [] -> merge_sort Grp.str_le (remove_dups l) <> [].
Proof.
  intros Hne E. destruct l as [|x l]; [contradiction|].
  assert (Hx : x ∈ merge_sort Grp.str_le (remove_dups (x :: l))).
  { apply sorted_dedup_elem. left. }
  rewrite E in Hx. inversion Hx.
Qed.

Lemma count_true_pos (k : string) (l : list string) :
  k ∈ l -> (1 <= Pd.count_true (map (value_is_str k) (map VStr l)))%nat.
Proof.
  intros Hin. rewrite count_true_map.
  induction l as [|x l IH]; [inversion Hin|].
  simpl. destruct (String.eqb_spec x k) as [->|Hne]; simpl; [lia|].
  apply IH. apply elem_of_cons in Hin as [->|Hin]; [contradiction|exact Hin].
Qed.

Lemma group_sizes (d : DataFrame) (st : list value) (keys : list string) (k : string) :
  length keys = Pd.len d -> length st = Pd.len d -> k ∈ keys ->
  (1 <= group_total d (map VStr keys) k)%nat /\
  (group_total d (map VStr keys) k <= Pd.len d)%nat /\
  (group_breaches st (map VStr keys) k <= group_total d (map VStr keys) k)%nat.
Proof.
  intros Hk Hst Hin. unfold group_total, group_breaches, group_col.
  rewrite select_length by (rewrite !length_map; exact Hk).
  split; [apply count_true_pos, Hin|]. split.
  - etransitivity; [apply count_true_le|]. rewrite !length_map, Hk. reflexivity.
  - etransitivity; [apply List.filter_length_le|].
    rewrite select_length by (rewrite !length_map; congruence). reflexivity.
Qed.

Definition hc_teams (dr : Data.hc_draws) : list string :=
  Data.set_none Data.team_choices 8 (Data.choice Data.team_choices Data.m (Data.hd_team dr)).

Lemma hc_frame_len today dr : Pd.len (hc_frame today dr) = Data.m.
Proof. unfold Pd.len, hc_frame. cbn [index]. rewrite length_map, length_seq. reflexivity. Qed.

Lemma hc_status_length dr : length (hc_status dr) = Data.m.
Proof.
  unfold hc_status, hc_thresholds.
  rewrite length_zip_with, length_map, resolution_hours_length, priorities_length. lia.
Qed.

Lemma hc_teams_length dr : length (hc_teams dr) = Data.m.
Proof. unfold hc_teams. rewrite set_none_length, choice_length. reflexivity. Qed.

Lemma m_positive : Data.m <> 0%nat.
Proof. discriminate. Qed.

Lemma nonempty_of_length {A} (l : list A) : length l = Data.m -> l <> [].
Proof. intros H ->. apply m_positive. symmetry. exact H. Qed.

Definition two_valued (v : value) : Prop :=
  v = VStr "SLA_BREACH" \/ v = VStr "WITHIN_SLA".

Lemma hc_status_two_valued dr : Forall two_valued (map VStr (hc_status dr)).
Proof.
  unfold hc_status. generalize (Data.resolution_hours dr), (hc_thresholds dr).
  induction l as [|h l IH]; intros [|t l0]; simpl; try constructor; [|apply IH].
  unfold two_valued, sla_status_of. destruct (t <? h)%Z; auto.
Qed.

Lemma two_valued_counts (st : list value) :
  Forall two_valued st ->
  (length (List.filter is_breach st)
   + length (List.filter (value_is_str "WITHIN_SLA") st))%nat = length st.
Proof.
  induction 1 as [|v st [-> | ->] _ IH]; simpl; [reflexivity| |]; lia.
Qed.

Lemma group_pct_bounds today dr (keys : list string) (k : string) :
  length keys = Data.m -> k ∈ keys ->
  let p := group_pct (hc_frame today dr) (map VStr (hc_status dr)) (map VStr keys) k in
  (0 <=? p)%float = true /\ (p <=? 100)%float = true.
Proof.
  intros Hlen Hin.
  destruct (group_sizes (hc_frame today dr) (map VStr (hc_status dr)) keys k)
    as (H1 & H2 & H3).
  - rewrite hc_frame_len. exact Hlen.
  - rewrite length_map, hc_frame_len. apply hc_status_length.
  - exact Hin.
  - rewrite hc_frame_len in H2. apply pct_bounds; assumption.
Qed.

Lemma priority_summary_pct d st h hs prio keys :
  Pd.getitem (priority_summary_of d st h hs prio keys) "breach_pct"
  = Ok (map (fun k => VFloat (group_pct d st prio k)) keys).
Proof.
  unfold priority_summary_of.
  rewrite getitem_stats_frame by (right; right; left; reflexivity). reflexivity.
Qed.

Lemma team_summary_pct d st team keys :
  Pd.getitem (team_summary_of d st team keys) "breach_pct"
  = Ok (map (fun k => VFloat (group_pct d st team k))
          (sorted_keys (group_pct d st team) keys)).
Proof.
  unfold team_summary_of.
  rewrite getitem_stats_frame by (right; right; left; reflexivity). reflexivity.
Qed.

Definition percentage (v : value) : Prop :=
  exists p, v = VFloat p /\ (0 <=? p)%float = true /\ (p <=? 100)%float = true.

(** C10: in the healthcare frame, whatever was drawn, every status is
    one of the two values; so the breaches and the rows within SLA add up
    to the total number of cases; and every breach percentage in the two
    summaries of [analyze_sla_breaches] lies between 0 and 100. *)
Theorem sla_breach_counts_and_rates (today : Z) (dr : Data.hc_draws) :
  exists d st ps ts pp pt,
    Data.df_hc today dr = Ok d /\
    Pd.getitem d "sla_status" = Ok st /\
    Forall (fun v => v = VStr "SLA_BREACH" \/ v = VStr "WITHIN_SLA") st /\
    (length (List.filter is_breach st)
     + length (List.filter (value_is_str "WITHIN_SLA") st))%nat = Pd.len d /\
    fst (analyze_sla_breaches 0%nat (world_of d)) = Ok (ps, ts) /\
    Pd.getitem ps "breach_pct" = Ok pp /\
    Pd.getitem ts "breach_pct" = Ok pt /\
    pp <> [] /\ pt <> [] /\
    Forall percentage pp /\ Forall percentage pt.
Proof.
  set (d := hc_frame today dr).
  set (st := map VStr (hc_status dr)).
  set (pkeys := merge_sort Grp.str_le (remove_dups (Data.priorities dr))).
  set (tkeys := merge_sort Grp.str_le (remove_dups (hc_teams dr))).
  assert (Hpne : pkeys <> []).
  { apply sorted_dedup_nonempty, nonempty_of_length, priorities_length. }
  assert (Htne : tkeys <> []).
  { apply sorted_dedup_nonempty, nonempty_of_length, hc_teams_length. }
  destruct (analyze_sla_breaches_run (world_of d) 0%nat d
              (map VStr (Data.priorities dr)) (map VStr (hc_teams dr)) st
              (map VInt (Data.resolution_hours dr))
              (map Np.float_of_Z (Data.resolution_hours dr)) pkeys tkeys)
    as (w' & Hrun & _);
    [ reflexivity | reflexivity | reflexivity | apply group_keys_strings
    | reflexivity | apply group_keys_strings | reflexivity | apply to_numeric_ints
    | unfold d; rewrite hc_frame_len; apply m_positive | exact Hpne | exact Htne | ].
  exists d, st, (priority_summary_of d st (map VInt (Data.resolution_hours dr))
                   (map Np.float_of_Z (Data.resolution_hours dr))
                  (map VStr (Data.priorities dr)) pkeys),
    (team_summary_of d st (map VStr (hc_teams dr)) tkeys),
    (map (fun k => VFloat (group_pct d st (map VStr (Data.priorities dr)) k)) pkeys),
    (map (fun k => VFloat (group_pct d st (map VStr (hc_teams dr)) k))
       (sorted_keys (group_pct d st (map VStr (hc_teams dr))) tkeys)).
  split; [apply df_hc_ok|]. split; [reflexivity|].
  split; [apply hc_status_two_valued|]. split.
  { rewrite (two_valued_counts st (hc_status_two_valued dr)).
    unfold st, d. rewrite length_map, hc_status_length, hc_frame_len. reflexivity. }
  split; [rewrite Hrun; reflexivity|].
  split; [apply priority_summary_pct|].
  split; [apply team_summary_pct|].
  split; [destruct pkeys; [contradiction|discriminate]|].
  split.
  { intros E. apply map_eq_nil in E.
    apply Htne. apply Permutation_nil_r. rewrite <- E. symmetry. apply sorted_keys_perm. }
  split.
  - apply Forall_forall. intros v Hv. apply list_elem_of_In, in_map_iff in Hv as (k & <- & Hk).
    exists (group_pct d st (map VStr (Data.priorities dr)) k). split; [reflexivity|].
    apply (group_pct_bounds today dr (Data.priorities dr) k (priorities_length dr)).
    apply sorted_dedup_elem, list_elem_of_In, Hk.
  - apply Forall_forall. intros v Hv. apply list_elem_of_In, in_map_iff in Hv as (k & <- & Hk).
    exists (group_pct d st (map VStr (hc_teams dr)) k). split; [reflexivity|].
    apply (group_pct_bounds today dr (hc_teams dr) k (hc_teams_length dr)).
    apply sorted_dedup_elem.
    apply (Permutation_in _ (sorted_keys_perm (group_pct d st (map VStr (hc_teams dr))) tkeys)) in Hk.
    apply list_elem_of_In, Hk.
Qed.

(** A small healthcare frame: six cases, one without a team. *)
Module SmallHc.

Definition prio : list value :=
  [VStr "P1"; VStr "P2"; VStr "P1"; VStr "P3"; VStr "P2"; VStr "P1"].

Definition team : list value :=
  [VStr "Team_Alpha"; VStr "Team_Beta"; VNone; VStr "Team_Alpha"; VStr "Team_Beta";
   VStr "Team_Alpha"].

Definition hours : list Z := [3; 30; 9; 80; 20; 5].

Definition status : list value :=
  [VStr "WITHIN_SLA"; VStr "SLA_BREACH"; VStr "SLA_BREACH"; VStr "SLA_BREACH";
   VStr "WITHIN_SLA"; VStr "SLA_BREACH"].

Definition hc : DataFrame :=
  mkDF (range_index 6)
       [ ("priority", prio); ("assigned_team", team);
         ("resolution_hours", map VInt hours); ("sla_status", status) ].

(** The same columns with no row at all. *)
Definition no_cases : DataFrame :=
  mkDF [] [ ("priority", []); ("assigned_team", []);
            ("resolution_hours", []); ("sla_status", []) ].

End SmallHc.



(** ** Section 1 of the script: the financial frame *)

Definition fin_gaps (today : Z) (fd : Data.fin_draws) : list Z :=
  zip_with (fun s t => (today - s) - (today - t))
    (Data.randint_days 85 Data.n (Data.fd_sdays fd))
    (Data.randint_days 90 Data.n (Data.fd_tdays fd)).

Definition fin_frame (today : Z) (fd : Data.fin_draws) (ids : list string) : DataFrame :=
  mkDF (range_index Data.n)
       (Data.fin_data today fd ids ++ [("days_to_settle", map VInt (fin_gaps today fd))]).

Lemma sub_days_dates (today : Z) (sd td : list Z) :
  zip_with Data.sub_days (map (fun d => VDate (today - d)) sd)
                         (map (fun d => VDate (today - d)) td)
  = map VInt (zip_with (fun s t => (today - s) - (today - t)) sd td).
Proof.
  revert td. induction sd as [|s sd IH]; intros [|t td]; simpl; try reflexivity.
  rewrite IH. reflexivity.
Qed.

Lemma fin_transaction_id_length : length Data.fin_transaction_id = Data.n.
Proof.
  unfold Data.fin_transaction_id. cbv zeta.
  rewrite length_insert, length_map, length_seq. reflexivity.
Qed.

Lemma fin_amount_length fd : length (Data.fin_amount fd) = Data.n.
Proof.
  unfold Data.fin_amount. rewrite !length_insert, length_map, length_seq. reflexivity.
Qed.

Lemma fin_data_lengths today fd ids :
  length ids = Data.n ->
  Forall (fun c => length (snd c) = Data.n) (Data.fin_data today fd ids).
Proof.
  intros Hids. unfold Data.fin_data, Data.fin_partner_id.
  repeat (apply Forall_cons; split;
          [ cbn [snd];
            rewrite ?length_map, ?set_none_length, ?choice_length,
              ?randint_days_length, ?fin_amount_length, ?length_seq;
            first [ reflexivity | exact Hids ] | ]).
  apply Forall_nil. exact I.
Qed.

Lemma df_fin_of_ok today fd ids :
  length ids = Data.n -> Data.df_fin_of today fd ids = Ok (fin_frame today fd ids).
Proof.
  intros Hids. unfold Data.df_fin_of.
  rewrite (from_dict_ok _ Data.n) by (discriminate || apply fin_data_lengths, Hids).
  cbn [mbind result_bind].
  change (Pd.getitem _ "settlement_date")
    with (Ok (A:=list value)
            (map (fun d => VDate (today - d)) (Data.randint_days 85 Data.n (Data.fd_sdays fd)))).
  cbn [mbind result_bind].
  change (Pd.getitem _ "transaction_date")
    with (Ok (A:=list value)
            (map (fun d => VDate (today - d)) (Data.randint_days 90 Data.n (Data.fd_tdays fd)))).
  cbn [mbind result_bind].
  rewrite sub_days_dates. reflexivity.
Qed.

Lemma df_fin_ok today fd :
  Data.df_fin today fd = Ok (fin_frame today fd Data.fin_transaction_id).
Proof. unfold Data.df_fin. apply df_fin_of_ok. apply fin_transaction_id_length. Qed.

Lemma fin_frame_len today fd ids : Pd.len (fin_frame today fd ids) = Data.n.
Proof.
  unfold Pd.len, fin_frame, range_index. cbn [index].
  rewrite length_map, length_seq. reflexivity.
Qed.

(** ** The duplicate in the financial data goes unreported *)

(** The transaction ids before the duplicate is written into them. *)
Definition unique_transaction_ids : list string :=
  map (Data.tagged "TXN" 5) (seq 1 Data.n).

(** C3: the script writes a duplicated transaction id into the financial
    data (rows 49 and 50 are both TXN00050), and the profile does not
    show it: whatever is drawn, [profile_dataframe] returns and prints
    for the frame of the script exactly what it returns and prints for
    the same frame with its 500 distinct ids. *)
Theorem duplicate_transaction_id_is_not_reported
  (today : Z) (fd : Data.fin_draws) (name : string) :
  exists fin fin_unique,
    Data.df_fin today fd = Ok fin /\
    Data.df_fin_of today fd unique_transaction_ids = Ok fin_unique /\
    Pd.getitem fin "transaction_id" = Ok (map VStr Data.fin_transaction_id) /\
    Data.fin_transaction_id !! 49%nat = Some "TXN00050" /\
    Data.fin_transaction_id !! 50%nat = Some "TXN00050" /\
    Pd.getitem fin_unique "transaction_id" = Ok (map VStr unique_transaction_ids) /\
    NoDup unique_transaction_ids /\
    fst (profile_dataframe 0%nat name (world_of fin))
    = fst (profile_dataframe 0%nat name (world_of fin_unique)) /\
    stdout (snd (profile_dataframe 0%nat name (world_of fin)))
    = stdout (snd (profile_dataframe 0%nat name (world_of fin_unique))).
Proof.
  exists (fin_frame today fd Data.fin_transaction_id),
         (fin_frame today fd unique_transaction_ids).
  assert (Hlen : length unique_transaction_ids = Data.n).
  { unfold unique_transaction_ids. rewrite length_map, length_seq. reflexivity. }
  split; [apply df_fin_ok|]. split; [apply df_fin_of_ok, Hlen|].
  split; [reflexivity|].
  split; [vm_compute; reflexivity|]. split; [vm_compute; reflexivity|].
  split; [reflexivity|].
  split; [apply (bool_decide_unpack _); vm_compute; exact I|].
  assert (Hstr : forall (l : list string) x, In x (map VStr l) -> isnull x = false).
  { intros l x Hx. apply in_map_iff in Hx as (t & <- & _). reflexivity. }
  pose proof (profile_dataframe_ignores_column_values
                (world_of (fin_frame today fd unique_transaction_ids)) 0%nat
                (fin_frame today fd unique_transaction_ids) name "transaction_id"
                (map VStr unique_transaction_ids) (map VStr Data.fin_transaction_id)
                eq_refl eq_refl) as H.
  cbv zeta in H.
  assert (Hw : mkWorld
                 (<[0%nat := Pd.setitem (fin_frame today fd unique_transaction_ids)
                              "transaction_id" (map VStr Data.fin_transaction_id)]>
                    (heap (world_of (fin_frame today fd unique_transaction_ids))))
                 (stdout (world_of (fin_frame today fd unique_transaction_ids)))
                 (files (world_of (fin_frame today fd unique_transaction_ids)))
                 (shown (world_of (fin_frame today fd unique_transaction_ids)))
               = world_of (fin_frame today fd Data.fin_transaction_id)).
  { unfold world_of. cbn [heap stdout files shown]. rewrite insert_singleton.
    reflexivity. }
  rewrite <- Hw. apply H.
  - discriminate.
  - discriminate.
  - rewrite !length_map, Hlen. apply fin_transaction_id_length.
  - apply Hstr.
  - apply Hstr.
Qed.

(** ** Running to completion *)

(** [m] returns normally from [w], keeps every frame of the store, and
    only appends to the output, ending with the lines [tail]. *)
Definition completes {A} (tail : list line) (m : M A) (w : world) : Prop :=
  exists a w',
    m w = (Ok a, w') /\
    (forall l d, heap w !! l = Some d -> heap w' !! l = Some d) /\
    exists new, stdout w' = stdout w ++ new ++ tail.

Lemma completes_bind {A B} (tail : list line) (m : M A) (f : A -> M B) (w : world) :
  completes [] m w ->
  (forall a w', m w = (Ok a, w') ->
                (forall l d, heap w !! l = Some d -> heap w' !! l = Some d) ->
                completes tail (f a) w') ->
  completes tail (m ≫= f) w.
Proof.
  intros (a & w1 & Hm & Hh & new1 & Ho) Hf.
  destruct (Hf a w1 Hm Hh) as (b & w2 & Hfa & Hh2 & new2 & Ho2).
  exists b, w2. rewrite run_bind, Hm. split; [exact Hfa|]. split.
  - intros l d Hl. apply Hh2, Hh, Hl.
  - exists (new1 ++ new2). rewrite Ho2, Ho, app_nil_r, <- !app_assoc. reflexivity.
Qed.

Lemma completes_print (ln : line) (w : world) : completes [] (Eff.print ln) w.
Proof.
  exists tt. eexists. rewrite run_print_last. split; [reflexivity|].
  split; [intros l d H; exact H|]. exists [ln]. rewrite app_nil_r. reflexivity.
Qed.

Lemma completes_last_print (ln : line) (w : world) : completes [ln] (Eff.print ln) w.
Proof.
  exists tt. eexists. rewrite run_print_last. split; [reflexivity|].
  split; [intros l d H; exact H|]. exists []. reflexivity.
Qed.

Lemma profile_dataframe_completes w df d name c :
  heap w !! df = Some d ->
  Pd.getitem d (category_column d) = Ok c ->
  completes [] (profile_dataframe df name) w.
Proof.
  intros Hd Hc. unfold completes.
  rewrite (profile_dataframe_run w df d name Hd). cbv zeta. rewrite Hc.
  eexists _, _. split; [reflexivity|]. cbn [heap stdout].
  split; [intros l d0 H; exact H|].
  eexists. rewrite app_nil_r, <- app_assoc. reflexivity.
Qed.

Lemma has_column_getitem d c v : Pd.getitem d c = Ok v -> Pd.has_column d c = true.
Proof.
  unfold Pd.has_column, Pd.getitem. intros H.
  destruct (Pd.lookup_col c (columns d)); [|discriminate].
  apply bool_decide_eq_true. eexists. reflexivity.
Qed.

Lemma getitems_ok d cs :
  (forall c, In c cs -> exists v, Pd.getitem d c = Ok v) ->
  exists t, Pd.getitems d cs = Ok t.
Proof.
  intros H. unfold Pd.getitems. cbv zeta.
  assert (E : List.filter (fun c => negb (Pd.has_column d c)) cs = []).
  { induction cs as [|c cs IH]; [reflexivity|].
    destruct (H c (or_introl eq_refl)) as [v Hv].
    simpl. rewrite (has_column_getitem d c v Hv). simpl.
    apply IH. intros c' Hc'. apply H. right. exact Hc'. }
  rewrite E. eexists. reflexivity.
Qed.

Lemma detect_amount_anomalies_completes w df d column threshold col xs :
  heap w !! df = Some d ->
  Pd.getitem d column = Ok col ->
  Pd.to_numeric col = Ok xs ->
  (forall c, In c (display_columns column) ->
             c = "z_score" \/ exists v, Pd.getitem d c = Ok v) ->
  completes [] (detect_amount_anomalies df column threshold) w.
Proof.
  intros Hd Hcol Hxs Hdisp. unfold completes.
  rewrite (detect_amount_anomalies_run w df d column threshold col xs Hd Hcol Hxs).
  cbv zeta.
  set (zs := map (z_score (Pd.series_mean col xs) (Pd.std xs)) xs).
  set (d2 := Pd.setitem d "z_score" (map VFloat zs)).
  set (an := Pd.mask_rows (map (exceeds threshold) zs) d2).
  assert (Hheap : forall l d0, heap w !! l = Some d0 ->
                    <[fresh (dom (heap w)) := d2]> (heap w) !! l = Some d0).
  { intros l d0 Hl. rewrite lookup_insert_ne; [exact Hl|].
    intros E. symmetry in E. revert E. eapply fresh_loc_ne, Hl. }
  destruct (Pd.empty an).
  - eexists _, _. split; [reflexivity|]. cbn [heap stdout]. split; [exact Hheap|].
    eexists. rewrite app_nil_r. reflexivity.
  - destruct (getitems_ok an (display_columns column)) as [t Ht].
    { intros c Hc. unfold an. destruct (Hdisp c Hc) as [->|[v Hv]].
      - eexists. apply getitem_mask_rows. unfold d2. apply getitem_setitem_eq.
      - destruct (String.eqb_spec "z_score" c) as [<-|Hne].
        + eexists. apply getitem_mask_rows. unfold d2. apply getitem_setitem_eq.
        + eexists. apply getitem_mask_rows. unfold d2.
          rewrite getitem_setitem_ne by exact Hne. exact Hv. }
    rewrite Ht. eexists _, _. split; [reflexivity|]. cbn [heap stdout].
    split; [exact Hheap|].
    eexists. rewrite app_nil_r, <- app_assoc. reflexivity.
Qed.

Lemma analyze_settlement_gaps_completes w df d gaps t :
  heap w !! df = Some d ->
  Pd.getitem d "days_to_settle" = Ok (map VInt gaps) ->
  Pd.len d <> 0%nat ->
  completes [] (analyze_settlement_gaps df t) w.
Proof.
  intros Hd Hgap Hlen.
  destruct (analyze_settlement_gaps_run w df d gaps t Hd Hgap Hlen)
    as (w' & Hrun & Hh & _ & new & Hout).
  exists (Pd.mask_rows (map (fun g => (t <? g)%Z) gaps) d), w'.
  split; [exact Hrun|]. split; [rewrite Hh; auto|].
  exists new. rewrite app_nil_r. exact Hout.
Qed.

Lemma analyze_sla_breaches_completes w df d prio team st h hs pkeys tkeys :
  heap w !! df = Some d ->
  Pd.getitem d "sla_status" = Ok st ->
  Pd.getitem d "priority" = Ok prio ->
  Grp.group_keys prio = Ok pkeys ->
  Pd.getitem d "assigned_team" = Ok team ->
  Grp.group_keys team = Ok tkeys ->
  Pd.getitem d "resolution_hours" = Ok h ->
  Pd.to_numeric h = Ok hs ->
  Pd.len d <> 0%nat -> pkeys <> [] -> tkeys <> [] ->
  completes [] (analyze_sla_breaches df) w.
Proof.
  intros Hd Hst Hp Hpk Ht Htk Hh Hhs Hlen Hpne Htne.
  destruct (analyze_sla_breaches_run w df d prio team st h hs pkeys tkeys
              Hd Hst Hp Hpk Ht Htk Hh Hhs Hlen Hpne Htne)
    as (w' & Hrun & Hheap & _ & new & Hout).
  eexists _, w'. split; [exact Hrun|]. split; [rewrite Hheap; auto|].
  exists new. rewrite app_nil_r. exact Hout.
Qed.

(** ** Module 5: the figure is always built on the script's frames *)

Definition is_float (v : value) : Prop := exists f, v = VFloat f.

Lemma mapR_ok_exists {A B} (f : A -> result B) (l : list A) :
  (forall x, In x l -> exists y, f x = Ok y) -> exists ys, mapR f l = Ok ys.
Proof.
  induction l as [|x l IH]; intros H; [eexists; reflexivity|].
  destruct (H x (or_introl eq_refl)) as [y Hy].
  destruct IH as [ys Hys]; [intros z Hz; apply H; right; exact Hz|].
  simpl. rewrite Hy. simpl. rewrite Hys. eexists. reflexivity.
Qed.

Lemma bar_labels_ok ax dy unit vals :
  Forall is_float vals -> exists ls, bar_labels ax dy unit vals = Ok ls.
Proof.
  intros Hall. unfold bar_labels. apply mapR_ok_exists. intros [i v] Hin.
  apply list_elem_of_In, elem_of_lookup_imap in Hin as (j & y & [= -> ->] & Hj).
  rewrite Forall_forall in Hall.
  destruct (Hall y) as [f ->]; [eapply list_elem_of_lookup_2, Hj|].
  simpl. eexists. reflexivity.
Qed.

Lemma apply_scalar_groups d keycol keys f (g : string -> value) :
  (forall k, f (group_rows d keycol k) = Ok (g k)) ->
  Grp.apply_scalar (map (fun k => (k, group_rows d keycol k)) keys) f
  = Ok (map (fun k => (k, g k)) keys).
Proof.
  intros Hf. unfold Grp.apply_scalar.
  apply mapR_map_ok. intros k. cbn [fst snd]. rewrite Hf. reflexivity.
Qed.

Lemma breach_rate_group d st keycol k :
  Pd.getitem d "sla_status" = Ok st ->
  breach_rate (group_rows d keycol k)
  = Ok (VFloat (breach_pct (breach_count (group_col k keycol st))
                           (Pd.len (group_rows d keycol k)))).
Proof.
  intros Hst. unfold breach_rate, group_rows.
  rewrite (getitem_mask_rows _ d _ _ Hst). reflexivity.
Qed.

Lemma avg_hours_group d h hs keycol k :
  Pd.getitem d "resolution_hours" = Ok h ->
  Pd.to_numeric h = Ok hs ->
  avg_hours (group_rows d keycol k)
  = Ok (VFloat (Np.round 1 (Grp.group_mean (Pd.select (map (value_is_str k) keycol) hs)))).
Proof.
  intros Hh Hhs. unfold avg_hours, group_rows.
  rewrite (getitem_mask_rows _ d _ _ Hh). simpl.
  rewrite (to_numeric_select _ _ _ Hhs). reflexivity.
Qed.

Lemma assoc_float_or_none k (s : list (string * value)) :
  Forall (fun p => is_float (snd p)) s ->
  Grp.assoc k s = VNone \/ is_float (Grp.assoc k s).
Proof.
  induction 1 as [|[k' v] s Hv _ IH]; simpl; [left; reflexivity|].
  destruct (String.eqb k' k); [right; exact Hv|exact IH].
Qed.

Lemma reindex_floats s labels :
  Forall (fun p => is_float (snd p)) s ->
  Forall is_float (map snd (Grp.reindex s labels)).
Proof.
  intros Hs. unfold Grp.reindex. rewrite List.map_map. cbn [snd].
  apply Forall_forall. intros v Hv. apply list_elem_of_In, in_map_iff in Hv as (k & <- & _).
  destruct (assoc_float_or_none k s Hs) as [->|[f ->]]; eexists; reflexivity.
Qed.

Lemma dashboard_figure_ok fin hc amt xs st prio pkeys sla team tkeys h hs :
  Pd.getitem fin "incentive_amount" = Ok amt ->
  Pd.to_numeric amt = Ok xs ->
  Pd.getitem fin "status" = Ok st ->
  Pd.getitem hc "priority" = Ok prio ->
  Grp.group_keys prio = Ok pkeys ->
  Pd.getitem hc "sla_status" = Ok sla ->
  Pd.getitem hc "assigned_team" = Ok team ->
  Grp.group_keys team = Ok tkeys ->
  Pd.getitem hc "resolution_hours" = Ok h ->
  Pd.to_numeric h = Ok hs ->
  exists fig, dashboard_figure fin hc = Ok fig.
Proof.
  intros Hamt Hxs Hst Hp Hpk Hsla Ht Htk Hh Hhs. unfold dashboard_figure.
  rewrite Hamt. cbn [mbind result_bind]. rewrite Hxs. cbn [mbind result_bind].
  rewrite Hst. cbn [mbind result_bind].
  rewrite (groupby_groups hc "priority" prio pkeys Hp Hpk). cbn [mbind result_bind].
  rewrite (apply_scalar_groups hc prio pkeys breach_rate _
             (fun k => breach_rate_group hc sla prio k Hsla)).
  cbn [mbind result_bind].
  match goal with
  | |- context [bar_labels ?ax ?dy ?u ?vals] =>
      destruct (bar_labels_ok ax dy u vals) as [l3 Hl3]
  end.
  { apply reindex_floats, Forall_forall. intros p Hp'.
    apply list_elem_of_In, in_map_iff in Hp' as (k & <- & _). eexists. reflexivity. }
  rewrite Hl3. cbn [mbind result_bind].
  rewrite (groupby_groups hc "assigned_team" team tkeys Ht Htk). cbn [mbind result_bind].
  rewrite (apply_scalar_groups hc team tkeys avg_hours _
             (fun k => avg_hours_group hc h hs team k Hh Hhs)).
  cbn [mbind result_bind].
  match goal with
  | |- context [bar_labels ?ax ?dy ?u ?vals] =>
      destruct (bar_labels_ok ax dy u vals) as [l4 Hl4]
  end.
  { rewrite List.map_map. cbn [snd]. apply Forall_forall. intros v Hv.
    apply list_elem_of_In, in_map_iff in Hv as (k & <- & _). eexists. reflexivity. }
  rewrite Hl4. cbn [mbind result_bind]. eexists. reflexivity.
Qed.

Lemma generate_dashboard_completes w df_fin df_hc fin hc fig :
  heap w !! df_fin = Some fin ->
  heap w !! df_hc = Some hc ->
  dashboard_figure fin hc = Ok fig ->
  completes [] (generate_dashboard df_fin df_hc) w /\
  files (snd (generate_dashboard df_fin df_hc w)) !! chart_file = Some fig.
Proof.
  intros Hfin Hhc Hfig. destruct w as [hp so fs sh]. cbn [heap] in *.
  unfold completes, generate_dashboard.
  rewrite (run_deref _ fin) by exact Hfin.
  rewrite (run_deref _ hc) by exact Hhc.
  rewrite (run_lift_ok _ fig) by exact Hfig.
  rewrite !run_bind. unfold Eff.savefig. cbn [heap stdout files shown].
  prints. unfold Eff.show. cbn [heap stdout files shown snd].
  split.
  - eexists _, _. split; [reflexivity|]. cbn [heap stdout].
    split; [intros l d H; exact H|]. eexists. rewrite app_nil_r. reflexivity.
  - cbn [files snd]. apply lookup_insert_eq.
Qed.

(** ** Main: the script runs to completion *)

Definition closing_lines : list line := [ [Txt (nl +:+ rule)]; complete_line; [Txt rule] ].

Lemma n_positive : Data.n <> 0%nat.
Proof. discriminate. Qed.

Lemma fin_display_columns today fd ids c :
  In c (display_columns "incentive_amount") ->
  c = "z_score" \/ exists v, Pd.getitem (fin_frame today fd ids) c = Ok v.
Proof.
  intros [<-|[<-|[<-|[<-|[<-|[<-|[]]]]]]];
    first [ left; reflexivity | right; eexists; reflexivity ].
Qed.

Lemma main_completes today fd hd ids w df_fin df_hc :
  heap w !! df_fin = Some (fin_frame today fd ids) ->
  heap w !! df_hc = Some (hc_frame today hd) ->
  completes closing_lines (main df_fin df_hc) w.
Proof.
  intros Hfin Hhc. unfold main.
  set (fin := fin_frame today fd ids) in *.
  set (hc := hc_frame today hd) in *.
  set (pkeys := merge_sort Grp.str_le (remove_dups (Data.priorities hd))).
  set (tkeys := merge_sort Grp.str_le (remove_dups (hc_teams hd))).
  assert (Hpk : Grp.group_keys (map VStr (Data.priorities hd)) = Ok pkeys)
    by apply group_keys_strings.
  assert (Htk : Grp.group_keys (map VStr (hc_teams hd)) = Ok tkeys)
    by apply group_keys_strings.
  apply completes_bind.
  { eapply (profile_dataframe_completes w df_fin fin); [exact Hfin|reflexivity]. }
  intros _ w1 _ H1. apply completes_bind.
  { eapply (detect_amount_anomalies_completes w1 df_fin fin);
      [ apply H1, Hfin | reflexivity | apply to_numeric_floats
      | apply fin_display_columns ]. }
  intros _ w2 _ H2. apply completes_bind.
  { eapply (analyze_settlement_gaps_completes w2 df_fin fin (fin_gaps today fd));
      [ apply H2, H1, Hfin | reflexivity
      | unfold fin; rewrite fin_frame_len; apply n_positive ]. }
  intros _ w3 _ H3. apply completes_bind.
  { eapply (profile_dataframe_completes w3 df_hc hc);
      [ apply H3, H2, H1, Hhc | reflexivity ]. }
  intros _ w4 _ H4. apply completes_bind.
  { eapply (analyze_sla_breaches_completes w4 df_hc hc
              (map VStr (Data.priorities hd)) (map VStr (hc_teams hd))
              (map VStr (hc_status hd)) (map VInt (Data.resolution_hours hd))
              (map Np.float_of_Z (Data.resolution_hours hd)) pkeys tkeys);
      [ apply H4, H3, H2, H1, Hhc | reflexivity | reflexivity | exact Hpk
      | reflexivity | exact Htk | reflexivity | apply to_numeric_ints
      | unfold hc; rewrite hc_frame_len; apply m_positive
      | apply sorted_dedup_nonempty, nonempty_of_length, priorities_length
      | apply sorted_dedup_nonempty, nonempty_of_length, hc_teams_length ]. }
  intros _ w5 _ H5. apply completes_bind.
  { destruct (dashboard_figure_ok fin hc (map VFloat (Data.fin_amount fd))
                (Data.fin_amount fd)
                (map VStr (Data.choice Data.fin_statuses Data.n (Data.fd_status fd)))
                (map VStr (Data.priorities hd)) pkeys (map VStr (hc_status hd))
                (map VStr (hc_teams hd)) tkeys (map VInt (Data.resolution_hours hd))
                (map Np.float_of_Z (Data.resolution_hours hd))) as [fig Hfig];
      [ reflexivity | apply to_numeric_floats | reflexivity | reflexivity | exact Hpk
      | reflexivity | reflexivity | exact Htk | reflexivity | apply to_numeric_ints | ].
    apply (generate_dashboard_completes w5 df_fin df_hc fin hc fig);
      [ apply H5, H4, H3, H2, H1, Hfin | apply H5, H4, H3, H2, H1, Hhc | exact Hfig ]. }
  intros _ w6 _ H6.
  destruct w6 as [hp so fs sh]. unfold completes, closing_lines. run.
  eexists _, _. split; [reflexivity|]. cbn [heap stdout].
  split; [intros l d H; exact H|].
  exists []. rewrite <- !app_assoc. reflexivity.
Qed.

Lemma script_run today fd hd hp so fs sh :
  let l1 := fresh (dom hp) in
  let fin := fin_frame today fd Data.fin_transaction_id in
  let l2 := fresh (dom (<[l1 := fin]> hp)) in
  script today fd hd (mkWorld hp so fs sh)
  = main l1 l2 (mkWorld (<[l2 := hc_frame today hd]> (<[l1 := fin]> hp)) so fs sh).
Proof.
  intros l1 fin l2. unfold script.
  rewrite (run_lift_ok _ _ _ _ (df_fin_ok today fd)).
  rewrite run_bind. unfold Eff.alloc at 1. cbn [heap stdout files shown].
  rewrite (run_lift_ok _ _ _ _ (df_hc_ok today hd)).
  rewrite run_bind. unfold Eff.alloc at 1. cbn [heap stdout files shown].
  reflexivity.
Qed.

Lemma script_completes today fd hd :
  exists w' new,
    script today fd hd world0 = (Ok tt, w') /\ stdout w' = new ++ closing_lines.
Proof.
  unfold world0. rewrite script_run. cbv zeta.
  set (l1 := fresh (dom (∅ : gmap loc DataFrame))).
  set (fin := fin_frame today fd Data.fin_transaction_id).
  set (l2 := fresh (dom (<[l1 := fin]> (∅ : gmap loc DataFrame)))).
  assert (H1 : <[l1 := fin]> (∅ : gmap loc DataFrame) !! l1 = Some fin)
    by apply lookup_insert_eq.
  assert (Hne : l1 <> l2) by (eapply fresh_loc_ne, H1).
  destruct (main_completes today fd hd Data.fin_transaction_id
              (mkWorld (<[l2 := hc_frame today hd]> (<[l1 := fin]> ∅)) [] ∅ []) l1 l2)
    as ([] & w' & Hrun & _ & new & Hout).
  - cbn [heap]. rewrite lookup_insert_ne by congruence. exact H1.
  - cbn [heap]. apply lookup_insert_eq.
  - exists w', new. split; [exact Hrun|exact Hout].
Qed.

(** C8: every module is a total function of the store and its arguments
    (it returns, normally or with an exception, from every world); [main]
    is the straight-line sequence of the six calls and the closing
    prints; and the script, whatever is drawn, runs through all of them
    without an exception and ends with the "REPORT COMPLETE" lines. *)
Theorem script_runs_to_completion (today : Z) (fd : Data.fin_draws) (hd : Data.hc_draws) :
  (forall df name w, exists r w', profile_dataframe df name w = (r, w')) /\
  (forall df column threshold w,
      exists r w', detect_amount_anomalies df column threshold w = (r, w')) /\
  (forall df days w, exists r w', analyze_settlement_gaps df days w = (r, w')) /\
  (forall df w, exists r w', analyze_sla_breaches df w = (r, w')) /\
  (forall df_fin df_hc w, exists r w', generate_dashboard df_fin df_hc w = (r, w')) /\
  (forall df_fin df_hc,
      main df_fin df_hc =
        (profile_dataframe df_fin "Financial Services — Incentive Transactions";;
         detect_amount_anomalies df_fin "incentive_amount" 3;;
         analyze_settlement_gaps df_fin 5;;
         profile_dataframe df_hc "Healthcare — Customer Cases";;
         analyze_sla_breaches df_hc;;
         generate_dashboard df_fin df_hc;;
         Eff.print [Txt (nl +:+ rule)];;
         Eff.print complete_line;;
         Eff.print [Txt rule])) /\
  exists w' before,
    script today fd hd world0 = (Ok tt, w') /\
    stdout w' = before ++ [ [Txt (nl +:+ rule)]; [Txt "REPORT COMPLETE"]; [Txt rule] ].
Proof.
  repeat split; try (intros; eexists _, _; apply surjective_pairing).
  destruct (script_completes today fd hd) as (w' & new & Hrun & Hout).
  exists w', new. split; [exact Hrun|exact Hout].
Qed.

(** * Further properties of the modules *)

(** ** The store: no module changes a frame it was given *)

Definition keeps_frames (w w' : world) : Prop :=
  forall l d, heap w !! l = Some d -> heap w' !! l = Some d.

#[global] Instance keeps_frames_refl : Reflexive keeps_frames.
Proof. intros w l d H. exact H. Qed.

#[global] Instance keeps_frames_trans : Transitive keeps_frames.
Proof. intros a b c H1 H2 l d H. apply H2, H1, H. Qed.

Lemma keeps_frames_print ln : keeps keeps_frames (Eff.print ln).
Proof. intros w. rewrite run_print_last. intros l d H. exact H. Qed.

Lemma keeps_frames_savefig path fig : keeps keeps_frames (Eff.savefig path fig).
Proof. intros w l d H. exact H. Qed.

Lemma keeps_frames_show fig : keeps keeps_frames (Eff.show fig).
Proof. intros w l d H. exact H. Qed.

Ltac frames_steps :=
  repeat first
    [ apply keeps_bind; [ typeclasses eauto | | intros ]
    | apply keeps_when; [ typeclasses eauto | ]
    | apply keeps_ret; typeclasses eauto
    | apply keeps_lift; typeclasses eauto
    | apply keeps_deref; typeclasses eauto
    | apply keeps_frames_print
    | apply keeps_frames_savefig
    | apply keeps_frames_show
    | progress cbv zeta ].

Lemma profile_dataframe_keeps_frames df name :
  keeps keeps_frames (profile_dataframe df name).
Proof. unfold profile_dataframe. frames_steps. Qed.

Lemma analyze_settlement_gaps_keeps_frames df days :
  keeps keeps_frames (analyze_settlement_gaps df days).
Proof. unfold analyze_settlement_gaps. frames_steps. Qed.

Lemma analyze_sla_breaches_keeps_frames df :
  keeps keeps_frames (analyze_sla_breaches df).
Proof. unfold analyze_sla_breaches. frames_steps. Qed.

Lemma generate_dashboard_keeps_frames df_fin df_hc :
  keeps keeps_frames (generate_dashboard df_fin df_hc).
Proof. unfold generate_dashboard. frames_steps. Qed.

Lemma detect_amount_anomalies_keeps_frames df column threshold :
  keeps keeps_frames (detect_amount_anomalies df column threshold).
Proof.
  intros w l d0 Hl.
  destruct (heap w !! df) as [d|] eqn:Hd.
  - destruct (Pd.getitem d column) as [col|e] eqn:Hcol.
    + destruct (Pd.to_numeric col) as [xs|e] eqn:Hxs.
      * rewrite (detect_amount_anomalies_run w df d column threshold col xs Hd Hcol Hxs).
        cbv zeta.
        assert (Hne : fresh (dom (heap w)) <> l).
        { intros E. symmetry in E. revert E. eapply fresh_loc_ne, Hl. }
        repeat match goal with
               | |- context [if ?b then _ else _] => destruct b
               | |- context [match ?r with Ok _ => _ | Raise _ => _ end] => destruct r
               end; simpl; rewrite lookup_insert_ne by exact Hne; exact Hl.
      * unfold detect_amount_anomalies. prints.
        rewrite (run_deref _ d) by exact Hd.
        rewrite (run_lift_ok _ col) by exact Hcol.
        rewrite (run_lift_raise _ e) by exact Hxs. exact Hl.
    + unfold detect_amount_anomalies. prints.
      rewrite (run_deref _ d) by exact Hd.
      rewrite (run_lift_raise _ e) by exact Hcol. exact Hl.
  - unfold detect_amount_anomalies. prints.
    rewrite run_deref_none by exact Hd. exact Hl.
Qed.

Ltac frames_leaf :=
  lazymatch goal with
  | |- keeps _ (profile_dataframe _ _) => apply profile_dataframe_keeps_frames
  | |- keeps _ (detect_amount_anomalies _ _ _) => apply detect_amount_anomalies_keeps_frames
  | |- keeps _ (analyze_settlement_gaps _ _) => apply analyze_settlement_gaps_keeps_frames
  | |- keeps _ (analyze_sla_breaches _) => apply analyze_sla_breaches_keeps_frames
  | |- keeps _ (generate_dashboard _ _) => apply generate_dashboard_keeps_frames
  | |- keeps _ (Eff.print _) => apply keeps_frames_print
  end.

Lemma main_keeps_frames df_fin df_hc : keeps keeps_frames (main df_fin df_hc).
Proof.
  unfold main.
  do 8 (apply keeps_bind; [ typeclasses eauto | frames_leaf | intros ]).
  frames_leaf.
Qed.

(** X1: a frame that is in the store before a call is there, unchanged,
    after it: for each of the five modules, from every world and for
    every argument, also when the call raises; and so for [main]. *)
Theorem no_module_changes_a_stored_frame (w : world) (l : loc) (d : DataFrame) :
  heap w !! l = Some d ->
  (forall df name, heap (snd (profile_dataframe df name w)) !! l = Some d) /\
  (forall df column threshold,
      heap (snd (detect_amount_anomalies df column threshold w)) !! l = Some d) /\
  (forall df days, heap (snd (analyze_settlement_gaps df days w)) !! l = Some d) /\
  (forall df, heap (snd (analyze_sla_breaches df w)) !! l = Some d) /\
  (forall df_fin df_hc, heap (snd (generate_dashboard df_fin df_hc w)) !! l = Some d) /\
  (forall df_fin df_hc, heap (snd (main df_fin df_hc w)) !! l = Some d).
Proof.
  intros H. repeat split; intros.
  - apply profile_dataframe_keeps_frames, H.
  - apply detect_amount_anomalies_keeps_frames, H.
  - apply analyze_settlement_gaps_keeps_frames, H.
  - apply analyze_sla_breaches_keeps_frames, H.
  - apply generate_dashboard_keeps_frames, H.
  - apply main_keeps_frames, H.
Qed.

Lemma no_module_changes_a_stored_frame_witness :
  heap (snd (main 0%nat 1%nat (world_of2 Small.fin SmallHc.hc))) !! 0%nat = Some Small.fin /\
  heap (snd (detect_amount_anomalies 0%nat "incentive_amount" 3
               (world_of2 Small.fin SmallHc.hc))) !! 1%nat = Some SmallHc.hc.
Proof.
  split.
  - destruct (no_module_changes_a_stored_frame
                (world_of2 Small.fin SmallHc.hc) 0%nat Small.fin eq_refl)
      as (_ & _ & _ & _ & _ & H).
    exact (H 0%nat 1%nat).
  - destruct (no_module_changes_a_stored_frame
                (world_of2 Small.fin SmallHc.hc) 1%nat SmallHc.hc eq_refl)
      as (_ & H & _).
    exact (H 0%nat "incentive_amount" 3%float).
Defined.

(** ** Edge cases: empty frames and missing columns *)

Lemma getitem_missing d c :
  Pd.has_column d c = false -> Pd.getitem d c = Raise (KeyError c).
Proof.
  unfold Pd.has_column, Pd.getitem.
  destruct (Pd.lookup_col c (columns d)); [|reflexivity].
  intros H. apply bool_decide_eq_false in H. exfalso. apply H. eexists. reflexivity.
Qed.

Definition sla_header : list line :=
  [ [Txt (nl +:+ rule)]; [Txt "SLA BREACH ANALYSIS — Healthcare Cases"]; [Txt rule] ].

(** X2: on a frame without rows [analyze_sla_breaches] prints its header
    and "Total Cases : 0" and then raises [ZeroDivisionError] (the breach
    share divides by the number of rows); no summary is printed. *)
Theorem analyze_sla_breaches_no_rows
  (w : world) (df : loc) (d : DataFrame) (st : list value) :
  heap w !! df = Some d ->
  Pd.len d = 0%nat ->
  Pd.getitem d "sla_status" = Ok st ->
  analyze_sla_breaches df w =
    (Raise ZeroDivisionError,
     mkWorld (heap w)
       (stdout w ++ sla_header ++ [[Txt "  Total Cases  : "; Fmt "," (VInt 0)]])
       (files w) (shown w)).
Proof.
  intros Hd Hlen Hst. destruct w as [hp so fs sh]. cbn [heap stdout files shown] in *.
  unfold analyze_sla_breaches. prints.
  rewrite (run_deref _ d) by exact Hd. cbv zeta.
  rewrite (run_lift_ok _ st) by exact Hst. prints.
  rewrite Hlen. unfold py_div. cbn [Nat.eqb].
  rewrite (run_lift_raise _ ZeroDivisionError) by reflexivity.
  unfold sla_header. rewrite <- !app_assoc. reflexivity.
Qed.

Lemma analyze_sla_breaches_no_rows_witness :
  fst (analyze_sla_breaches 0%nat (world_of SmallHc.no_cases)) = Raise ZeroDivisionError /\
  length (stdout (snd (analyze_sla_breaches 0%nat (world_of SmallHc.no_cases)))) = 4%nat.
Proof.
  rewrite (analyze_sla_breaches_no_rows (world_of SmallHc.no_cases) 0%nat SmallHc.no_cases []
             eq_refl eq_refl eq_refl).
  split; reflexivity.
Defined.

(** X3: on a frame without rows [analyze_settlement_gaps] prints its
    header and "Total Records : 0" and then raises [ZeroDivisionError];
    the breach share and the averages are not printed. *)
Theorem analyze_settlement_gaps_no_rows
  (w : world) (df : loc) (d : DataFrame) (days : Z) :
  heap w !! df = Some d ->
  Pd.len d = 0%nat ->
  Pd.getitem d "days_to_settle" = Ok [] ->
  analyze_settlement_gaps df days w =
    (Raise ZeroDivisionError,
     mkWorld (heap w)
       (stdout w ++ gap_header days ++ [[Txt "  Total Records     : "; Fmt "," (VInt 0)]])
       (files w) (shown w)).
Proof.
  intros Hd Hlen Hgap. destruct w as [hp so fs sh]. cbn [heap stdout files shown] in *.
  unfold analyze_settlement_gaps. prints.
  rewrite (run_deref _ d) by exact Hd.
  rewrite (run_lift_ok _ []) by exact Hgap.
  rewrite (run_lift_ok _ []) by reflexivity. cbv zeta. prints.
  rewrite Hlen. unfold py_div. cbn [Nat.eqb].
  rewrite (run_lift_raise _ ZeroDivisionError) by reflexivity.
  unfold gap_header. rewrite <- !app_assoc. reflexivity.
Qed.

Lemma analyze_settlement_gaps_no_rows_witness :
  fst (analyze_settlement_gaps 0%nat 5 (world_of (gaps_frame []))) = Raise ZeroDivisionError.
Proof.
  rewrite (analyze_settlement_gaps_no_rows (world_of (gaps_frame [])) 0%nat (gaps_frame []) 5
             eq_refl eq_refl eq_refl).
  reflexivity.
Defined.

(** X4: a frame with neither a [program_code] nor a [case_type] column
    makes [profile_dataframe] raise [KeyError('case_type')], after the
    header and the null report have been printed and before the category
    counts. *)
Theorem profile_dataframe_no_category_column
  (w : world) (df : loc) (d : DataFrame) (name : string) :
  heap w !! df = Some d ->
  Pd.has_column d "program_code" = false ->
  Pd.has_column d "case_type" = false ->
  profile_dataframe df name w =
    (Raise (KeyError "case_type"),
     mkWorld (heap w)
       (stdout w ++ profile_header d name ++ [null_line d; category_header])
       (files w) (shown w)).
Proof.
  intros Hd Hp Hc. rewrite (profile_dataframe_run w df d name Hd). cbv zeta.
  unfold category_column. rewrite Hp, (getitem_missing d "case_type" Hc). reflexivity.
Qed.

Lemma profile_dataframe_no_category_column_witness :
  fst (profile_dataframe 0%nat "Gaps" (world_of (gaps_frame [3; 9]))) = Raise (KeyError "case_type").
Proof.
  rewrite (profile_dataframe_no_category_column (world_of (gaps_frame [3; 9])) 0%nat
             (gaps_frame [3; 9]) "Gaps" eq_refl eq_refl eq_refl).
  reflexivity.
Defined.

(** X5: when the column asked for is not in the frame,
    [detect_amount_anomalies] prints its three header lines and raises
    [KeyError] for that column; no copy of the frame is made. *)
Theorem detect_amount_anomalies_missing_column
  (w : world) (df : loc) (d : DataFrame) (column : string) (threshold : float) :
  heap w !! df = Some d ->
  Pd.has_column d column = false ->
  detect_amount_anomalies df column threshold w =
    (Raise (KeyError column),
     mkWorld (heap w) (stdout w ++ anomaly_header column threshold) (files w) (shown w)).
Proof.
  intros Hd Hc. destruct w as [hp so fs sh]. cbn [heap stdout files shown] in *.
  unfold detect_amount_anomalies. prints.
  rewrite (run_deref _ d) by exact Hd.
  rewrite (run_lift_raise _ (KeyError column)) by (apply getitem_missing, Hc).
  unfold anomaly_header. rewrite <- !app_assoc. reflexivity.
Qed.

Lemma detect_amount_anomalies_missing_column_witness :
  fst (detect_amount_anomalies 0%nat "amount" 3 (world_of Small.fin)) = Raise (KeyError "amount") /\
  heap (snd (detect_amount_anomalies 0%nat "amount" 3 (world_of Small.fin)))
  = heap (world_of Small.fin).
Proof.
  rewrite (detect_amount_anomalies_missing_column (world_of Small.fin) 0%nat Small.fin
             "amount" 3 eq_refl eq_refl).
  split; reflexivity.
Defined.

(** X6: on a numeric column the only change [detect_amount_anomalies]
    makes to the store is one new object, the copy: the input frame with
    the [z_score] column set to the rounded Z-scores.  Nothing refers to
    it after the call. *)
Theorem detect_amount_anomalies_allocates_the_copy
  (w : world) (df : loc) (d : DataFrame) (column : string) (threshold : float)
  (col : list value) (xs : list float) :
  heap w !! df = Some d ->
  Pd.getitem d column = Ok col ->
  Pd.to_numeric col = Ok xs ->
  let w' := snd (detect_amount_anomalies df column threshold w) in
  let copy := fresh (dom (heap w)) in
  heap w !! copy = None /\
  heap w' =
    <[copy := Pd.setitem d "z_score"
                (map (fun x => VFloat (Np.round 2 ((x - Pd.series_mean col xs) / Pd.std xs)%float)) xs)]>
      (heap w).
Proof.
  intros Hd Hcol Hxs w' copy. split.
  { apply not_elem_of_dom, is_fresh. }
  unfold w'.
  rewrite (detect_amount_anomalies_run w df d column threshold col xs Hd Hcol Hxs).
  cbv zeta. rewrite (List.map_map (z_score (Pd.series_mean col xs) (Pd.std xs)) VFloat).
  repeat match goal with
         | |- context [if ?b then _ else _] => destruct b
         | |- context [match ?r with Ok _ => _ | Raise _ => _ end] => destruct r
         end; reflexivity.
Qed.

Lemma detect_amount_anomalies_allocates_the_copy_witness :
  size (heap (snd (detect_amount_anomalies 0%nat "incentive_amount" 3 (world_of Small.fin))))
  = 2%nat.
Proof.
  destruct (detect_amount_anomalies_allocates_the_copy (world_of Small.fin) 0%nat Small.fin
              "incentive_amount" 3 Small.amount_cells Small.amounts eq_refl eq_refl
              (to_numeric_floats Small.amounts)) as [Hnone Hheap].
  rewrite Hheap. rewrite map_size_insert_None by exact Hnone. reflexivity.
Defined.

(** ** Too few values for a standard deviation *)

Lemma Prim2SF_nan : Prim2SF nan = S754_nan.
Proof. reflexivity. Qed.

Lemma div_by_nan (x : float) : (x / nan)%float = nan.
Proof.
  apply Prim2SF_inj. rewrite div_spec, Prim2SF_nan.
  destruct (Prim2SF x) as [[]|[]| |[] m e]; reflexivity.
Qed.

Lemma ltb_nan_r (x : float) : (x <? nan)%float = false.
Proof.
  rewrite FloatAxioms.ltb_spec, Prim2SF_nan.
  destruct (Prim2SF x) as [[]|[]| |[] m e]; reflexivity.
Qed.

Lemma std_too_few (xs : list float) :
  (length (Pd.dropna xs) <= 1)%nat -> Pd.std xs = nan.
Proof.
  intros H. unfold Pd.std, Pd.count. cbv zeta.
  destruct (Nat.leb_spec (length (Pd.dropna xs)) 1) as [_|Hgt]; [reflexivity|lia].
Qed.

Lemma z_score_nan_std (mean x : float) (threshold : float) :
  exceeds threshold (z_score mean nan x) = false.
Proof.
  unfold exceeds, z_score. rewrite div_by_nan.
  change (abs (Np.round 2 nan)) with nan. apply ltb_nan_r.
Qed.

Lemma select_none {A} (n : nat) (l : list A) : Pd.select (repeat false n) l = [].
Proof.
  revert l. induction n as [|n IH]; intros [|x l]; simpl; auto.
Qed.



(** ** What every run's frames look like *)

Lemma randint_days_range bound size draw d :
  bound <> 0%nat -> In d (Data.randint_days bound size draw) -> 0 <= d < Z.of_nat bound.
Proof.
  intros Hb Hin. unfold Data.randint_days in Hin.
  apply in_map_iff in Hin as (i & <- & _).
  pose proof (Nat.mod_upper_bound (draw i) bound Hb). lia.
Qed.

Lemma fin_gaps_length today fd : length (fin_gaps today fd) = Data.n.
Proof.
  unfold fin_gaps. rewrite length_zip_with, !randint_days_length. lia.
Qed.

Lemma fin_frame_wf today fd ids : length ids = Data.n -> Pd.wf (fin_frame today fd ids).
Proof.
  intros Hids. split.
  - unfold fin_frame, Data.fin_data. cbn [columns map fst app].
    apply (bool_decide_unpack _). vm_compute. exact I.
  - rewrite fin_frame_len. unfold fin_frame. cbn [columns].
    apply Forall_app. split; [apply fin_data_lengths, Hids|].
    apply Forall_cons. split; [|apply Forall_nil; exact I].
    cbn [snd]. rewrite length_map. apply fin_gaps_length.
Qed.

(** X8: whatever is drawn, the financial frame is built without an
    exception; it is well formed, has 500 rows and the eight columns in
    the order of the script, and every [days_to_settle] lies between -84
    and 89 (a transaction offset below 90 minus a settlement offset below
    85), so settlement may come before the transaction. *)
Theorem financial_frame_shape (today : Z) (fd : Data.fin_draws) :
  exists fin gaps,
    Data.df_fin today fd = Ok fin /\
    Pd.wf fin /\
    Pd.len fin = 500%nat /\
    map fst (columns fin) =
      ["transaction_id"; "partner_id"; "program_code"; "transaction_date";
       "settlement_date"; "incentive_amount"; "status"; "days_to_settle"] /\
    Pd.getitem fin "days_to_settle" = Ok (map VInt gaps) /\
    length gaps = 500%nat /\
    Forall (fun g => -84 <= g <= 89) gaps.
Proof.
  exists (fin_frame today fd Data.fin_transaction_id), (fin_gaps today fd).
  split; [apply df_fin_ok|].
  split; [apply fin_frame_wf, fin_transaction_id_length|].
  split; [apply fin_frame_len|].
  split; [reflexivity|].
  split; [reflexivity|].
  split; [apply fin_gaps_length|].
  apply Forall_forall. intros g Hg. apply list_elem_of_lookup in Hg as [i Hi].
  unfold fin_gaps in Hi. apply lookup_zip_with_Some in Hi as (s & t & -> & Hs & Ht).
  apply list_elem_of_lookup_2, list_elem_of_In in Hs, Ht.
  apply randint_days_range in Hs; [|discriminate].
  apply randint_days_range in Ht; [|discriminate]. lia.
Qed.

Lemma hc_frame_wf today dr : Pd.wf (hc_frame today dr).
Proof.
  split.
  - unfold hc_frame, Data.hc_data. cbn [columns map fst app].
    apply (bool_decide_unpack _). vm_compute. exact I.
  - rewrite hc_frame_len. unfold hc_frame. cbn [columns].
    apply Forall_app. split; [apply hc_data_lengths|].
    repeat (apply Forall_cons; split; [cbn [snd]; rewrite length_map|]).
    + unfold hc_thresholds. rewrite length_map. apply priorities_length.
    + apply hc_status_length.
    + apply Forall_nil. exact I.
Qed.

(** X9: whatever is drawn, the healthcare frame is built without an
    exception; it is well formed, has 400 rows and the ten columns in the
    order of the script (the two derived ones last), and every
    [resolution_hours] is at least 1. *)
Theorem healthcare_frame_shape (today : Z) (dr : Data.hc_draws) :
  exists hc hours,
    Data.df_hc today dr = Ok hc /\
    Pd.wf hc /\
    Pd.len hc = 400%nat /\
    map fst (columns hc) =
      ["case_id"; "customer_id"; "case_type"; "priority"; "assigned_team";
       "created_date"; "resolution_hours"; "status"; "sla_threshold"; "sla_status"] /\
    Pd.getitem hc "resolution_hours" = Ok (map VInt hours) /\
    length hours = 400%nat /\
    Forall (fun h => 1 <= h) hours.
Proof.
  exists (hc_frame today dr), (Data.resolution_hours dr).
  split; [apply df_hc_ok|].
  split; [apply hc_frame_wf|].
  split; [apply hc_frame_len|].
  split; [reflexivity|].
  split; [reflexivity|].
  split; [apply resolution_hours_length|].
  unfold Data.resolution_hours. apply Forall_forall. intros h Hh.
  apply list_elem_of_In, in_map_iff in Hh as (i & <- & _). lia.
Qed.

(** ** The "missing" cells of the healthcare frame *)

Lemma set_none_lookup a i arr :
  (i < length arr)%nat ->
  Data.set_none a i arr !! i = Some (substring 0 (Data.item_width a) "None").
Proof. intros H. unfold Data.set_none. apply list_lookup_insert_eq, H. Qed.

Lemma hc_frame_no_nulls today dr c x :
  In c (columns (hc_frame today dr)) -> In x (snd c) -> isnull x = false.
Proof.
  unfold hc_frame, Data.hc_data. cbn [columns app].
  intros [<-|[<-|[<-|[<-|[<-|[<-|[<-|[<-|[<-|[<-|[]]]]]]]]]]]; cbn [snd];
    intros Hx; apply in_map_iff in Hx as (y & <- & _); reflexivity.
Qed.


(** ** Group sizes add up *)

Definition occurrences_of (k : string) (ks : list string) : nat :=
  length (List.filter (fun t => String.eqb t k) ks).

Lemma string_keys_counts (col : list value) (ks : list string) :
  Grp.string_keys col = Ok ks ->
  length ks = length (List.filter (fun v => negb (isnull v)) col) /\
  forall k, Pd.count_true (map (value_is_str k) col) = occurrences_of k ks.
Proof.
  revert ks. induction col as [|v col IH]; intros ks H; simpl in H.
  - injection H as <-. split; [reflexivity|]. intros k. reflexivity.
  - destruct (Grp.string_keys col) as [ks'|] eqn:E; simpl in H; [|discriminate].
    destruct (IH ks' eq_refl) as [Hlen Hocc].
    destruct v as [|s|z|f|z]; try discriminate.
    + injection H as H. subst ks. split; [exact Hlen|]. intros k.
      rewrite <- (Hocc k), !count_true_map. reflexivity.
    + injection H as H. subst ks. split; [simpl; rewrite Hlen; reflexivity|]. intros k.
      specialize (Hocc k). rewrite count_true_map in Hocc |- *.
      unfold occurrences_of in *. simpl.
      destruct (String.eqb s k); simpl; rewrite Hocc; reflexivity.
    + destruct (is_nan f) eqn:Hf; [|discriminate]. injection H as H. subst ks.
      split; [simpl; rewrite Hf; exact Hlen|]. intros k.
      rewrite <- (Hocc k), !count_true_map. reflexivity.
Qed.

Lemma sum_indicator_plus (x : string) (f : string -> nat) (l : list string) :
  sum_list_with (fun k => ((if String.eqb x k then 1 else 0) + f k)%nat) l
  = (length (List.filter (String.eqb x) l) + sum_list_with f l)%nat.
Proof.
  induction l as [|k l IH]; [reflexivity|].
  simpl. rewrite IH. destruct (String.eqb x k); simpl; lia.
Qed.

Lemma filter_eqb_absent (x : string) (l : list string) :
  x ∉ l -> List.filter (String.eqb x) l = [].
Proof.
  induction l as [|k l IH]; intros H; [reflexivity|].
  simpl. destruct (String.eqb_spec x k) as [->|Hne].
  - exfalso. apply H. left.
  - apply IH. intros Hin. apply H. right. exact Hin.
Qed.

Lemma filter_eqb_once (x : string) (l : list string) :
  NoDup l -> x ∈ l -> length (List.filter (String.eqb x) l) = 1%nat.
Proof.
  induction 1 as [|k l Hk Hnd IH]; intros Hin; [inversion Hin|].
  simpl. destruct (String.eqb_spec x k) as [->|Hne].
  - simpl. rewrite filter_eqb_absent by exact Hk. reflexivity.
  - apply IH. apply elem_of_cons in Hin as [->|Hin]; [contradiction|exact Hin].
Qed.

Lemma occurrences_sum (ks : list string) :
  sum_list_with (fun k => occurrences_of k ks) (remove_dups ks) = length ks.
Proof.
  induction ks as [|x l IH]; [reflexivity|].
  assert (Hext : forall L, sum_list_with (fun k => occurrences_of k (x :: l)) L
                 = sum_list_with (fun k => ((if String.eqb x k then 1 else 0)
                                            + occurrences_of k l)%nat) L).
  { intros L. induction L as [|k L IHL]; [reflexivity|].
    simpl. rewrite IHL. unfold occurrences_of. simpl.
    destruct (String.eqb x k); reflexivity. }
  cbn [remove_dups length]. destruct (decide_rel elem_of x l) as [Hin|Hout].
  - rewrite Hext, sum_indicator_plus, IH.
    rewrite filter_eqb_once; [reflexivity|apply NoDup_remove_dups|].
    apply elem_of_remove_dups, Hin.
  - cbn [sum_list_with]. rewrite Hext, sum_indicator_plus, IH.
    rewrite filter_eqb_absent by (rewrite elem_of_remove_dups; exact Hout).
    unfold occurrences_of. simpl. rewrite String.eqb_refl. simpl.
    assert (H0 : List.filter (fun t => String.eqb t x) l = []).
    { clear -Hout. induction l as [|k l IH]; [reflexivity|].
      simpl. destruct (String.eqb_spec k x) as [->|Hne].
      - exfalso. apply Hout. left.
      - apply IH. intros Hin. apply Hout. right. exact Hin. }
    rewrite H0. reflexivity.
Qed.

Lemma group_totals_sum (d : DataFrame) (keycol : list value) (ks keys : list string) :
  length keycol = Pd.len d ->
  Grp.string_keys keycol = Ok ks ->
  keys ≡ₚ remove_dups ks ->
  sum_list_with (group_total d keycol) keys
  = length (List.filter (fun v => negb (isnull v)) keycol).
Proof.
  intros Hlen Hks Hperm. destruct (string_keys_counts keycol ks Hks) as [Hl Hocc].
  rewrite Hperm, <- Hl, <- occurrences_sum.
  generalize (remove_dups ks). intros L.
  induction L as [|k L IH]; [reflexivity|].
  simpl. rewrite IH. f_equal.
  unfold group_total. rewrite select_length by (rewrite length_map; exact Hlen).
  apply Hocc.
Qed.

Lemma sum_list_with_map {A} (f : A -> nat) (l : list A) :
  sum_list (map f l) = sum_list_with f l.
Proof. induction l as [|x l IH]; [reflexivity|]. simpl. rewrite IH. reflexivity. Qed.

(** X11: in the per-team summary of [analyze_sla_breaches] the totals
    add up to the number of rows that have a team: every such row is in
    exactly one group, and a row whose team is missing is in none.  (The
    same holds per priority.) *)
Theorem team_totals_add_up
  (w : world) (df : loc) (d : DataFrame) (prio team st h : list value)
  (hs : list float) (pkeys tkeys : list string) :
  heap w !! df = Some d ->
  Pd.wf d ->
  Pd.getitem d "sla_status" = Ok st ->
  Pd.getitem d "priority" = Ok prio ->
  Grp.group_keys prio = Ok pkeys ->
  Pd.getitem d "assigned_team" = Ok team ->
  Grp.group_keys team = Ok tkeys ->
  Pd.getitem d "resolution_hours" = Ok h ->
  Pd.to_numeric h = Ok hs ->
  Pd.len d <> 0%nat -> pkeys <> [] -> tkeys <> [] ->
  exists ps ts ptotals ttotals,
    fst (analyze_sla_breaches df w) = Ok (ps, ts) /\
    Pd.getitem ps "total" = Ok (map (fun t => VFloat (Np.float_of_nat t)) ptotals) /\
    sum_list ptotals = length (List.filter (fun v => negb (isnull v)) prio) /\
    Pd.getitem ts "total" = Ok (map (fun t => VFloat (Np.float_of_nat t)) ttotals) /\
    sum_list ttotals = length (List.filter (fun v => negb (isnull v)) team).
Proof.
  intros Hd Hwf Hst Hp Hpk Ht Htk Hh Hhs Hlen Hpne Htne.
  destruct (analyze_sla_breaches_run w df d prio team st h hs pkeys tkeys
              Hd Hst Hp Hpk Ht Htk Hh Hhs Hlen Hpne Htne) as (w' & Hrun & _).
  exists (priority_summary_of d st h hs prio pkeys), (team_summary_of d st team tkeys),
    (map (group_total d prio) pkeys),
    (map (group_total d team) (sorted_keys (group_pct d st team) tkeys)).
  split; [rewrite Hrun; reflexivity|].
  unfold Grp.group_keys in Hpk, Htk.
  destruct (Grp.string_keys prio) as [pks|] eqn:Epk; [|discriminate].
  destruct (Grp.string_keys team) as [tks|] eqn:Etk; [|discriminate].
  simpl in Hpk, Htk. injection Hpk as <-. injection Htk as <-.
  split.
  { unfold priority_summary_of. rewrite getitem_stats_frame by (left; reflexivity).
    rewrite List.map_map. reflexivity. }
  split.
  { rewrite sum_list_with_map.
    apply (group_totals_sum d prio pks); [apply (wf_getitem_length d _ _ Hwf Hp)|exact Epk|].
    apply merge_sort_Permutation. }
  split.
  { unfold team_summary_of. rewrite getitem_stats_frame by (left; reflexivity).
    rewrite List.map_map. reflexivity. }
  rewrite sum_list_with_map.
  apply (group_totals_sum d team tks); [apply (wf_getitem_length d _ _ Hwf Ht)|exact Etk|].
  rewrite sorted_keys_perm. apply merge_sort_Permutation.
Qed.

Lemma small_hc_wf : Pd.wf SmallHc.hc.
Proof.
  split.
  - apply (bool_decide_unpack _). vm_compute. exact I.
  - repeat constructor.
Qed.

Lemma team_totals_add_up_witness :
  exists ps ts ptotals ttotals,
    fst (analyze_sla_breaches 0%nat (world_of SmallHc.hc)) = Ok (ps, ts) /\
    Pd.getitem ps "total" = Ok (map (fun t => VFloat (Np.float_of_nat t)) ptotals) /\
    sum_list ptotals = 6%nat /\
    Pd.getitem ts "total" = Ok (map (fun t => VFloat (Np.float_of_nat t)) ttotals) /\
    sum_list ttotals = 5%nat.
Proof.
  destruct (team_totals_add_up (world_of SmallHc.hc) 0%nat SmallHc.hc
              SmallHc.prio SmallHc.team SmallHc.status (map VInt SmallHc.hours)
              (map Np.float_of_Z SmallHc.hours) ["P1"; "P2"; "P3"] ["Team_Alpha"; "Team_Beta"])
    as (ps & ts & ptotals & ttotals & Hrun & Hp & Hps & Ht & Hts);
    [ reflexivity | exact small_hc_wf | reflexivity | reflexivity | vm_compute; reflexivity
    | reflexivity | vm_compute; reflexivity | reflexivity | apply to_numeric_ints
    | discriminate | discriminate | discriminate | ].
  exists ps, ts, ptotals, ttotals.
  split; [exact Hrun|]. split; [exact Hp|].
  split; [exact Hps|]. split; [exact Ht|exact Hts].
Defined.

(** ** Counting the values of a column *)

Lemma SFeqb_key (a b : spec_float) :
  sf_is_nan a = false -> sf_is_nan b = false ->
  (SFeqb a b = true <-> sf_key a = sf_key b).
Proof.
  intros Ha Hb. unfold SFeqb, SFcompare.
  destruct a as [[]|[]| |[] m1 e1], b as [[]|[]| |[] m2 e2];
    try discriminate; cbn [sf_key];
    try (split; [intros _; reflexivity | intros _; reflexivity]);
    try (split; [discriminate | intros H; exfalso; injection H; intros; lia]).
  - change (Pos.compare_cont Eq m1 m2) with (Pos.compare m1 m2).
    destruct (Z.compare_spec e1 e2) as [He|He|He];
      [destruct (Pos.compare_spec m1 m2) as [Hm|Hm|Hm]|..]; cbn [CompOpp];
      (split; [first [discriminate | intros _; subst; reflexivity]
              | first [intros _; reflexivity | intros H; exfalso; injection H; intros; lia]]).
  - change (Pos.compare_cont Eq m1 m2) with (Pos.compare m1 m2).
    destruct (Z.compare_spec e1 e2) as [He|He|He];
      [destruct (Pos.compare_spec m1 m2) as [Hm|Hm|Hm]|..];
      (split; [first [discriminate | intros _; subst; reflexivity]
              | first [intros _; reflexivity | intros H; exfalso; injection H; intros; lia]]).
Qed.

Lemma float_eqb_key (x y : float) :
  is_nan x = false -> is_nan y = false ->
  ((x =? y)%float = true <-> sf_key (Prim2SF x) = sf_key (Prim2SF y)).
Proof.
  intros Hx Hy. rewrite FloatAxioms.eqb_spec.
  apply SFeqb_key; rewrite <- is_nan_spec; assumption.
Qed.

(** A cell that is not missing. *)
Definition present (v : value) : Prop := isnull v = false.

Lemma value_eqb_refl a : present a -> Grp.value_eqb a a = true.
Proof.
  destruct a as [|s|z|f|z]; unfold present; simpl; intros H; try discriminate.
  - apply String.eqb_refl.
  - apply Z.eqb_refl.
  - apply float_eqb_key; [exact H|exact H|reflexivity].
  - apply Z.eqb_refl.
Qed.

Lemma value_eqb_sym a b :
  present a -> present b -> Grp.value_eqb a b = true -> Grp.value_eqb b a = true.
Proof.
  destruct a as [|s|z|f|z], b as [|s'|z'|f'|z']; unfold present; simpl;
    intros Ha Hb H; try discriminate.
  - rewrite String.eqb_sym. exact H.
  - rewrite Z.eqb_sym. exact H.
  - apply float_eqb_key; [exact Hb|exact Ha|].
    symmetry. apply float_eqb_key; assumption.
  - rewrite Z.eqb_sym. exact H.
Qed.

Lemma value_eqb_trans a b c :
  present a -> present b -> present c ->
  Grp.value_eqb a b = true -> Grp.value_eqb b c = true -> Grp.value_eqb a c = true.
Proof.
  destruct a as [|s|z|f|z], b as [|s'|z'|f'|z'], c as [|s2|z2|f2|z2];
    unfold present; simpl; intros Ha Hb Hc H1 H2; try discriminate.
  - apply String.eqb_eq in H1, H2. subst. apply String.eqb_refl.
  - apply Z.eqb_eq in H1, H2. subst. apply Z.eqb_refl.
  - apply float_eqb_key; [exact Ha|exact Hc|].
    etransitivity; [apply float_eqb_key; [exact Ha|exact Hb|exact H1]|].
    apply float_eqb_key; assumption.
  - apply Z.eqb_eq in H1, H2. subst. apply Z.eqb_refl.
Qed.

Lemma occurrences_cons k y m :
  Grp.occurrences k (y :: m)
  = ((if Grp.value_eqb k y then 1 else 0) + Grp.occurrences k m)%nat.
Proof.
  unfold Grp.occurrences. rewrite filter_cons.
  case_decide as H; [rewrite H; reflexivity|].
  destruct (Grp.value_eqb k y); [congruence|reflexivity].
Qed.

Lemma occurrences_without x k m :
  present x -> present k -> Forall present m ->
  Grp.occurrences k (filter (fun y => Grp.value_eqb x y = false) m)
  = if Grp.value_eqb x k then 0%nat else Grp.occurrences k m.
Proof.
  intros Hx Hk. induction 1 as [|y m Hy Hm IH].
  - destruct (Grp.value_eqb x k); reflexivity.
  - rewrite filter_cons. case_decide as Hxy.
    + rewrite !occurrences_cons, IH.
      destruct (Grp.value_eqb x k) eqn:Exk; [|reflexivity].
      destruct (Grp.value_eqb k y) eqn:Eky; [|reflexivity].
      rewrite (value_eqb_trans x k y) in Hxy by assumption. discriminate.
    + rewrite IH, occurrences_cons.
      destruct (Grp.value_eqb x k) eqn:Exk; [reflexivity|].
      destruct (Grp.value_eqb x y) eqn:Exy; [|congruence].
      destruct (Grp.value_eqb k y) eqn:Eky; [|reflexivity].
      rewrite (value_eqb_trans x y k) in Exk;
        [discriminate|assumption..|apply value_eqb_sym; assumption].
Qed.

Lemma sum_occurrences_without x D m :
  present x -> Forall present D -> Forall present m ->
  sum_list_with (fun k => Grp.occurrences k m)
    (filter (fun y => Grp.value_eqb x y = false) D)
  = sum_list_with
      (fun k => Grp.occurrences k (filter (fun y => Grp.value_eqb x y = false) m)) D.
Proof.
  intros Hx HD Hm. induction HD as [|k D Hk HD IH]; [reflexivity|].
  rewrite filter_cons. cbn [sum_list_with].
  rewrite (occurrences_without x k m) by assumption.
  case_decide as Hxk.
  - cbn [sum_list_with]. rewrite Hxk, IH. reflexivity.
  - destruct (Grp.value_eqb x k); [|congruence]. rewrite IH. reflexivity.
Qed.

(** The cells of [m] that equal some cell of [l]. *)
Definition covered (l : list value) (y : value) : bool :=
  existsb (fun k => Grp.value_eqb k y) l.

Lemma covered_cons_count x l m :
  length (List.filter (covered (x :: l)) m)
  = (Grp.occurrences x m
     + length (List.filter (covered l) (filter (fun y => Grp.value_eqb x y = false) m)))%nat.
Proof.
  induction m as [|y m IH]; [reflexivity|].
  rewrite occurrences_cons, filter_cons. cbn [List.filter covered existsb].
  fold (covered l y). case_decide as Hxy.
  - rewrite Hxy. cbn [orb List.filter]. fold (covered l).
    destruct (covered l y); cbn [length]; rewrite IH; lia.
  - destruct (Grp.value_eqb x y); [|congruence]. cbn [orb length]. rewrite IH. lia.
Qed.

Lemma Forall_present_filter (P : value -> Prop) `{!forall v, Decision (P v)} m :
  Forall present m -> Forall present (filter P m).
Proof.
  induction 1 as [|y m Hy Hm IH]; [constructor|].
  rewrite filter_cons. case_decide; [constructor|]; assumption.
Qed.

Lemma distinct_Forall (P : value -> Prop) l : Forall P l -> Forall P (Grp.distinct l).
Proof.
  induction 1 as [|y m Hy Hm IH]; [constructor|].
  simpl. constructor; [exact Hy|].
  clear -IH. induction IH as [|k D Hk HD IHD]; [constructor|].
  rewrite filter_cons. case_decide; [constructor|]; assumption.
Qed.

Lemma distinct_counts l :
  Forall present l -> forall m, Forall present m ->
  sum_list_with (fun k => Grp.occurrences k m) (Grp.distinct l)
  = length (List.filter (covered l) m).
Proof.
  induction 1 as [|x l Hx Hl IH]; intros m Hm.
  - simpl. clear. induction m as [|y m IH]; [reflexivity|exact IH].
  - cbn [Grp.distinct sum_list_with].
    rewrite sum_occurrences_without by (try apply distinct_Forall; assumption).
    rewrite IH by (apply Forall_present_filter; exact Hm).
    rewrite covered_cons_count. reflexivity.
Qed.

Lemma covered_self l : Forall present l -> List.filter (covered l) l = l.
Proof.
  intros H. apply forallb_filter_id, forallb_forall. intros y Hy.
  apply existsb_exists. exists y. split; [exact Hy|].
  apply value_eqb_refl. rewrite Forall_forall in H. apply H, list_elem_of_In, Hy.
Qed.

Lemma occurrences_pos y m : present y -> y ∈ m -> (0 < Grp.occurrences y m)%nat.
Proof.
  intros Hy. induction 1 as [y m|y z m Hin IH]; rewrite occurrences_cons.
  - rewrite value_eqb_refl by exact Hy. lia.
  - specialize (IH Hy). lia.
Qed.

Lemma occurrences_present k col :
  present k ->
  Grp.occurrences k (filter (fun v => isnull v = false) col) = Grp.occurrences k col.
Proof.
  intros Hk. induction col as [|y col IH]; [reflexivity|].
  rewrite filter_cons. case_decide as Hy.
  - rewrite !occurrences_cons, IH. reflexivity.
  - rewrite occurrences_cons, IH.
    assert (E : Grp.value_eqb k y = false); [|rewrite E; reflexivity].
    unfold present in Hk.
    destruct k as [|s|z|f|z], y as [|s'|z'|f'|z']; simpl in *; try reflexivity;
      try congruence.
    destruct (is_nan f') eqn:Hn; [|congruence].
    rewrite FloatAxioms.eqb_spec. rewrite is_nan_spec in Hn.
    destruct (Prim2SF f') as [[]|[]| |[] m e]; try discriminate.
    unfold SFeqb, SFcompare. destruct (Prim2SF f) as [[]|[]| |[] m e]; reflexivity.
Qed.

Lemma present_filter_length col :
  length (filter (fun v => isnull v = false) col)
  = length (List.filter (fun v => negb (isnull v)) col).
Proof.
  induction col as [|y col IH]; [reflexivity|].
  rewrite filter_cons. simpl. case_decide as Hy.
  - rewrite Hy. simpl. rewrite IH. reflexivity.
  - destruct (isnull y); [|congruence]. exact IH.
Qed.

#[local] Instance by_count_desc_total : Total Grp.by_count_desc.
Proof. intros a b. unfold Grp.by_count_desc. lia. Qed.

Lemma by_count_sorted l :
  Sorted Grp.by_count_desc l -> Sorted ge (map snd l).
Proof.
  induction 1 as [|a l Hs IH Hhd]; [constructor|].
  simpl. constructor; [exact IH|].
  destruct Hhd as [|b l Hab]; constructor. exact Hab.
Qed.

Lemma Forall2_fst_snd {A B} (P : A -> B -> Prop) (l : list (A * B)) :
  Forall (fun p => P (fst p) (snd p)) l -> Forall2 P (map fst l) (map snd l).
Proof. induction 1; constructor; assumption. Qed.

Lemma distinct_once l v :
  Forall present l -> present v ->
  Grp.occurrences v (Grp.distinct l) = if covered l v then 1%nat else 0%nat.
Proof.
  intros Hl Hv. induction Hl as [|x l Hx Hl IH]; [reflexivity|].
  cbn [Grp.distinct covered existsb]. fold (covered l v).
  rewrite occurrences_cons, occurrences_without
    by (try apply distinct_Forall; assumption).
  destruct (Grp.value_eqb x v) eqn:Exv.
  - rewrite (value_eqb_sym x v) by assumption. reflexivity.
  - destruct (Grp.value_eqb v x) eqn:Evx.
    + rewrite (value_eqb_sym v x) in Exv by assumption. discriminate.
    + cbn [orb]. exact IH.
Qed.

Lemma occurrences_perm v (l1 l2 : list value) :
  l1 ≡ₚ l2 -> Grp.occurrences v l1 = Grp.occurrences v l2.
Proof.
  induction 1 as [|x l1 l2 _ IH|x y l|l1 l2 l3 _ IH1 _ IH2].
  - reflexivity.
  - rewrite !occurrences_cons, IH. reflexivity.
  - rewrite !occurrences_cons. lia.
  - congruence.
Qed.


(** ** The data quality issues written into the financial data *)

(** X13: whatever is drawn, the financial frame holds the issues the
    script writes into it: rows 49 and 50 share the transaction id
    TXN00050 and no other id is repeated, the amounts of rows 25 and 26
    are 95000 and -3000, and the partner of row 10 is the text "None",
    not a missing value. *)
Theorem financial_frame_injected_issues (today : Z) (fd : Data.fin_draws) :
  exists fin ids partners amounts,
    Data.df_fin today fd = Ok fin /\
    Pd.getitem fin "transaction_id" = Ok (map VStr ids) /\
    ids !! 49%nat = Some "TXN00050" /\
    ids !! 50%nat = Some "TXN00050" /\
    NoDup (delete 50%nat ids) /\
    Pd.getitem fin "partner_id" = Ok (map VStr partners) /\
    partners !! 10%nat = Some "None" /\
    Pd.getitem fin "incentive_amount" = Ok (map VFloat amounts) /\
    amounts !! 25%nat = Some 95000%float /\
    amounts !! 26%nat = Some (-3000)%float.
Proof.
  exists (fin_frame today fd Data.fin_transaction_id), Data.fin_transaction_id,
    (Data.fin_partner_id fd), (Data.fin_amount fd).
  split; [apply df_fin_ok|]. split; [reflexivity|].
  split; [vm_compute; reflexivity|]. split; [vm_compute; reflexivity|].
  split; [apply (bool_decide_unpack _); vm_compute; exact I|].
  split; [reflexivity|].
  split.
  { unfold Data.fin_partner_id.
    rewrite set_none_lookup by (rewrite choice_length; vm_compute; lia). f_equal. }
  split; [reflexivity|].
  unfold Data.fin_amount. split.
  - rewrite list_lookup_insert_ne by discriminate.
    apply list_lookup_insert_eq. rewrite length_map, length_seq. vm_compute. lia.
  - apply list_lookup_insert_eq. rewrite length_insert, length_map, length_seq.
    vm_compute. lia.
Qed.

(** ** The dashboard *)

Definition chart_saved_line : line :=
  [Txt (nl +:+ "  Chart saved: production_support_dashboard.png")].

(** X14: [generate_dashboard] draws the whole figure before it touches
    anything: when a panel cannot be drawn the exception leaves no chart
    file, no output line and no window behind; otherwise the figure that
    is written to production_support_dashboard.png is the one shown, and
    one line is printed. *)
Theorem generate_dashboard_all_or_nothing
  (w : world) (df_fin df_hc : loc) (fin hc : DataFrame) :
  heap w !! df_fin = Some fin ->
  heap w !! df_hc = Some hc ->
  (exists e, dashboard_figure fin hc = Raise e /\
             generate_dashboard df_fin df_hc w = (Raise e, w)) \/
  (exists fig, dashboard_figure fin hc = Ok fig /\
               generate_dashboard df_fin df_hc w
               = (Ok tt, mkWorld (heap w) (stdout w ++ [chart_saved_line])
                                 (<[chart_file := fig]> (files w)) (shown w ++ [fig]))).
Proof.
  intros Hfin Hhc. destruct w as [hp so fs sh]. cbn [heap stdout files shown] in *.
  unfold generate_dashboard.
  rewrite (run_deref _ fin) by exact Hfin.
  rewrite (run_deref _ hc) by exact Hhc.
  destruct (dashboard_figure fin hc) as [fig|e] eqn:Hfig.
  - right. exists fig. split; [reflexivity|].
    rewrite (run_lift_ok _ fig) by reflexivity.
    rewrite !run_bind. unfold Eff.savefig. cbn [heap stdout files shown].
    prints. reflexivity.
  - left. exists e. split; [reflexivity|].
    rewrite (run_lift_raise _ e) by reflexivity. reflexivity.
Qed.

Lemma generate_dashboard_all_or_nothing_witness :
  dashboard_figure Small.fin Small.fin = Raise (KeyError "priority") /\
  generate_dashboard 0%nat 1%nat (world_of2 Small.fin Small.fin)
  = (Raise (KeyError "priority"), world_of2 Small.fin Small.fin).
Proof.
  destruct (generate_dashboard_all_or_nothing
              (world_of2 Small.fin Small.fin) 0%nat 1%nat
              Small.fin Small.fin eq_refl eq_refl)
    as [(e & He & Hrun)|(fig & Hfig & _)].
  - assert (E : e = KeyError "priority").
    { vm_compute in He. injection He as <-. reflexivity. }
    rewrite E in He, Hrun. split; [exact He|exact Hrun].
  - exfalso. vm_compute in Hfig. discriminate Hfig.
Defined.

Lemma apply_scalar_assoc d keycol keys f rates k :
  Grp.apply_scalar (map (fun k => (k, group_rows d keycol k)) keys) f = Ok rates ->
  (k ∈ keys /\ f (group_rows d keycol k) = Ok (Grp.assoc k rates)) \/
  ((k ∉ keys) /\ Grp.assoc k rates = VNone).
Proof.
  unfold Grp.apply_scalar. revert rates.
  induction keys as [|a keys IH]; intros rates H; simpl in H.
  - injection H as <-. right. split; [apply not_elem_of_nil|reflexivity].
  - destruct (f (group_rows d keycol a)) as [v|] eqn:Ef; simpl in H; [|discriminate].
    destruct (mapR _ _) as [rs|] eqn:Em; simpl in H; [|discriminate].
    injection H as <-. simpl. destruct (String.eqb_spec a k) as [->|Hne].
    + left. split; [left|exact Ef].
    + destruct (IH rs eq_refl) as [[Hin Hf]|[Hout Hn]].
      * left. split; [right; exact Hin|exact Hf].
      * right. split; [|exact Hn].
        apply not_elem_of_cons. split; [congruence|exact Hout].
Qed.

Lemma reindex_rate d keycol keys rates k :
  Grp.apply_scalar (map (fun k => (k, group_rows d keycol k)) keys) breach_rate = Ok rates ->
  (k ∈ keys /\
   breach_rate (group_rows d keycol k)
   = Ok (match Grp.assoc k rates with VNone => VFloat nan | v => v end)) \/
  ((k ∉ keys) /\
   match Grp.assoc k rates with VNone => VFloat nan | v => v end = VFloat nan).
Proof.
  intros H. destruct (apply_scalar_assoc d keycol keys breach_rate rates k H)
    as [[Hin Hf]|[Hout Hn]].
  - left. split; [exact Hin|]. rewrite Hf. f_equal.
    unfold breach_rate in Hf.
    destruct (Pd.getitem _ "sla_status"); simpl in Hf; [|discriminate].
    injection Hf as <-. reflexivity.
  - right. split; [exact Hout|]. rewrite Hn. reflexivity.
Qed.

(** X15: the breach-rate panel of the dashboard always has the three
    bars P1, P2, P3 in this order, whatever priorities the cases have
    (as long as some case has one): a priority with cases shows the
    breach rate of its cases, a priority without any shows NaN, and any
    other priority is left out. *)
Theorem dashboard_breach_rate_bars
  (fin hc : DataFrame) (fig : figure) (prio : list value) (pkeys : list string) :
  Pd.getitem hc "priority" = Ok prio ->
  Grp.group_keys prio = Ok pkeys ->
  pkeys <> [] ->
  dashboard_figure fin hc = Ok fig ->
  exists heights,
    Bar (1, 0)%nat [VStr "P1"; VStr "P2"; VStr "P3"] heights ∈ fig /\
    Forall2 (fun k h =>
               (k ∈ pkeys /\ breach_rate (group_rows hc prio k) = Ok h) \/
               ((k ∉ pkeys) /\ h = VFloat nan))
            ["P1"; "P2"; "P3"] heights.
Proof.
  intros Hp Hpk _ Hfig. unfold dashboard_figure in Hfig.
  destruct (Pd.getitem fin "incentive_amount") as [amt|];
    cbn [mbind result_bind] in Hfig; [|discriminate Hfig].
  destruct (Pd.to_numeric amt) as [xs|];
    cbn [mbind result_bind] in Hfig; [|discriminate Hfig].
  destruct (Pd.getitem fin "status") as [st|];
    cbn [mbind result_bind] in Hfig; [|discriminate Hfig].
  rewrite (groupby_groups hc "priority" prio pkeys Hp Hpk) in Hfig.
  cbn [mbind result_bind] in Hfig.
  destruct (Grp.apply_scalar _ breach_rate) as [rates|] eqn:Er;
    cbn [mbind result_bind] in Hfig; [|discriminate Hfig].
  destruct (bar_labels _ _ _ _) as [l3|];
    cbn [mbind result_bind] in Hfig; [|discriminate Hfig].
  destruct (Grp.groupby hc "assigned_team") as [gt|];
    cbn [mbind result_bind] in Hfig; [|discriminate Hfig].
  destruct (Grp.apply_scalar gt avg_hours) as [team_avg|];
    cbn [mbind result_bind] in Hfig; [|discriminate Hfig].
  destruct (bar_labels _ _ _ _) as [l4|];
    cbn [mbind result_bind] in Hfig; [|discriminate Hfig].
  injection Hfig as <-.
  exists (map snd (Grp.reindex rates ["P1"; "P2"; "P3"])). split.
  - apply list_elem_of_In. cbn [In app]. do 9 right. left. reflexivity.
  - unfold Grp.reindex. cbn [map snd].
    repeat (apply Forall2_cons; split; [apply (reindex_rate hc prio pkeys rates _ Er)|]).
    apply Forall2_nil. exact I.
Qed.

Lemma dashboard_breach_rate_bars_witness :
  exists fig heights,
    dashboard_figure Small.fin SmallHc.hc = Ok fig /\
    Bar (1, 0)%nat [VStr "P1"; VStr "P2"; VStr "P3"] heights ∈ fig /\
    Forall2 (fun k h =>
               (k ∈ ["P1"; "P2"; "P3"] /\
                breach_rate (group_rows SmallHc.hc SmallHc.prio k) = Ok h) \/
               ((k ∉ ["P1"; "P2"; "P3"]) /\ h = VFloat nan))
            ["P1"; "P2"; "P3"] heights.
Proof.
  destruct (dashboard_figure Small.fin SmallHc.hc) as [fig|e] eqn:Hfig;
    [|exfalso; vm_compute in Hfig; discriminate Hfig].
  assert (Hne : ["P1"; "P2"; "P3"] <> @nil string) by discriminate.
  destruct (dashboard_breach_rate_bars Small.fin SmallHc.hc fig SmallHc.prio
              ["P1"; "P2"; "P3"] eq_refl eq_refl Hne Hfig)
    as (heights & Hin & Hall).
  exists fig, heights. split; [reflexivity|]. split; [exact Hin|exact Hall].
Defined.
